(** * Commenting ranges and comment threads of the editor's comment controller

    A shallow embedding of
    [src/vs/workbench/contrib/comments/browser/commentsController.ts]:
    the [CommentingRangeDecoration] value class, the
    [CommentingRangeDecorator] (range reconciliation and its two queries) and
    the parts of the [CommentController] that reconcile thread updates, keep
    unsent drafts and add comments at a line.

    Line and column numbers are [Z], JS strings are [string], optional values
    ([T | undefined], [T | null]) are [option T], JS arrays are [list], the
    insertion-ordered [Map] of [getMatchedCommentAction] is an association
    list, and the draft caches (plain JS objects used as dictionaries) are
    [gmap]s.  A call that raises in the source returns [Throw] here. *)

From Stdlib Require Import ZArith List Bool Lia.
From stdpp Require Import base option list gmap strings pretty.

Open Scope string_scope.
Open Scope Z_scope.
Open Scope list_scope.

(** ** Results of calls that may raise *)

Inductive JsError : Type :=
| TypeErrorUndefinedElement   (* a member access on [arr[i]] with [i] out of bounds *)
| TypeErrorNullModel          (* a member access on a [getModel()] that is [null] *)
| UserError (message : string).

Inductive result (A : Type) : Type :=
| Ok (a : A)
| Throw (e : JsError).

Arguments Ok {A} a.
Arguments Throw {A} e.

Definition bindR {A B : Type} (r : result A) (k : A -> result B) : result B :=
  match r with
  | Ok a => k a
  | Throw e => Throw e
  end.

Notation "'let*' x ':=' r 'in' k" := (bindR r (fun x => k))
  (at level 10, x name, r at level 100, k at level 200, only parsing).

(** ** The editor's range value type *)

Record IRange : Type := mkIRange {
  startLineNumber : Z;
  startColumn : Z;
  endLineNumber : Z;
  endColumn : Z
}.

Module Range.

(** Modelled from the spec: the [Range] class of [vs/editor/common/core/range]
    is not under src/.  The spec gives a range as
    [{startLine, startCol, endLine, endCol}] with 1-based lines; the
    operations below follow the editor's value class: the constructor orders
    its two end points, [intersectRanges] clips one range to the other and
    is [null] when nothing is shared, [plusRange] is the bounding union. *)
Definition new (sl sc el ec : Z) : IRange :=
  if (sl >? el) || ((sl =? el) && (sc >? ec))
  then mkIRange el ec sl sc
  else mkIRange sl sc el ec.

(** Modelled from the spec: [Range.isEmpty], the two end points coincide. *)
Definition isEmpty (r : IRange) : bool :=
  (startLineNumber r =? endLineNumber r) && (startColumn r =? endColumn r).

(** Modelled from the spec: [Range.intersectRanges], the part two ranges
    share ("a non-empty selection intersects [R]"), [null] when there is none. *)
Definition intersectRanges (a b : IRange) : option IRange :=
  let '(rsl, rsc) :=
    if startLineNumber a <? startLineNumber b
    then (startLineNumber b, startColumn b)
    else if startLineNumber a =? startLineNumber b
         then (startLineNumber a, Z.max (startColumn a) (startColumn b))
         else (startLineNumber a, startColumn a) in
  let '(rel, rec) :=
    if endLineNumber a >? endLineNumber b
    then (endLineNumber b, endColumn b)
    else if endLineNumber a =? endLineNumber b
         then (endLineNumber a, Z.min (endColumn a) (endColumn b))
         else (endLineNumber a, endColumn a) in
  if rsl >? rel then None
  else if (rsl =? rel) && (rsc >? rec) then None
  else Some (new rsl rsc rel rec).

(** Modelled from the spec: [Range.collapseToStart], the empty range at the
    start position. *)
Definition collapseToStart (r : IRange) : IRange :=
  new (startLineNumber r) (startColumn r) (startLineNumber r) (startColumn r).

(** Modelled from the spec: [Range.plusRange], the bounding union of two
    ranges ("merge their ranges into the bounding union"). *)
Definition plusRange (a b : IRange) : IRange :=
  let '(sl, sc) :=
    if startLineNumber b <? startLineNumber a
    then (startLineNumber b, startColumn b)
    else if startLineNumber b =? startLineNumber a
         then (startLineNumber b, Z.min (startColumn b) (startColumn a))
         else (startLineNumber a, startColumn a) in
  let '(el, ec) :=
    if endLineNumber b >? endLineNumber a
    then (endLineNumber b, endColumn b)
    else if endLineNumber b =? endLineNumber a
         then (endLineNumber b, Z.max (endColumn b) (endColumn a))
         else (endLineNumber a, endColumn a) in
  new sl sc el ec.

(** Modelled from the spec: [Range.equalsRange], equality of the four
    coordinates; two absent ranges are equal. *)
Definition equalsRange (a b : option IRange) : bool :=
  match a, b with
  | None, None => true
  | Some a, Some b =>
      (startLineNumber a =? startLineNumber b)
      && (startColumn a =? startColumn b)
      && (endLineNumber a =? endLineNumber b)
      && (endColumn a =? endColumn b)
  | _, _ => false
  end.

(** Modelled from the spec: [Range.lift] turns a plain [IRange] into a
    [Range] object. *)
Definition lift (r : IRange) : IRange :=
  new (startLineNumber r) (startColumn r) (endLineNumber r) (endColumn r).

End Range.

(** ** The host editor: text model and its live markers *)

(** The three rendering categories of a commenting-range decoration
    ([decorationOptions], [hoverDecorationOptions],
    [multilineDecorationOptions]), told apart by their
    [linesDecorationsClassName]. *)
Inductive ModelDecorationOptions : Type :=
| decorationOptions
| hoverDecorationOptions
| multilineDecorationOptions.

Definition linesDecorationsClassName (o : ModelDecorationOptions) : string :=
  match o with
  | decorationOptions => "comment-range-glyph comment-diff-added"
  | hoverDecorationOptions => "comment-range-glyph line-hover"
  | multilineDecorationOptions => "comment-range-glyph multiline-add"
  end.

(** [CommentingRangeDecorator.description] and [CommentGlyphWidget.description]. *)
Definition CommentingRangeDecorator_description : string := "commenting-range-decorator".
Definition CommentGlyphWidget_description : string := "comment-glyph-widget".

Record IModelDecoration : Type := mkModelDecoration {
  md_id : string;
  md_range : IRange;
  md_description : string          (* [options.description] *)
}.

Record ITextModel : Type := mkTextModel {
  tm_uri : string;
  tm_decorations : list IModelDecoration;
  tm_nextDecorationId : N
}.

Record ICodeEditor : Type := mkCodeEditor {
  ed_model : option ITextModel     (* [getModel()] *)
}.

Definition getModel (editor : ICodeEditor) : option ITextModel := ed_model editor.
Definition hasModel (editor : ICodeEditor) : bool := bool_decide (is_Some (ed_model editor)).

Definition linesIntersect (a b : IRange) : bool :=
  (startLineNumber a <=? endLineNumber b) && (startLineNumber b <=? endLineNumber a).

(** Modelled from the spec: the host document's live-marker facility is not
    under src/.  "Per-marker current range query": [getDecorationRange] looks a
    marker up by its handle.  The spec tests a thread glyph per line ("that
    exact line does not already host an existing comment-thread glyph"), so
    [getDecorationsInRange] returns the markers that share a line with the
    queried range; it is [null] when the editor has no model. *)
Definition getDecorationRange (model : ITextModel) (id : string) : option IRange :=
  (fun d => Range.lift (md_range d))
    <$> List.find (fun d => bool_decide (md_id d = id)) (tm_decorations model).

(** Modelled from the spec: [getDecorationsInRange], the markers on the lines
    of the queried range. *)
Definition getDecorationsInRange (editor : ICodeEditor) (r : IRange)
  : option (list IModelDecoration) :=
  (fun m => List.filter (fun d => linesIntersect (md_range d) r) (tm_decorations m))
    <$> getModel editor.

(** Modelled from the spec: "atomic batch replace of range markers".  The
    markers named by [oldIds] are dropped, one marker per new decoration is
    added, and the handles of the new markers are returned in order. *)
Definition freshDecorationIds (next : N) (n : nat) : list string :=
  List.map (fun i => pretty (next + N.of_nat i)%N) (seq 0 n).

(** Modelled from the spec: [deltaDecorations], the batch replace itself. *)
Definition deltaDecorations (model : ITextModel) (oldIds : list string)
    (newDecorations : list (IRange * string)) : ITextModel * list string :=
  let kept :=
    List.filter (fun d => negb (bool_decide (md_id d ∈ oldIds))) (tm_decorations model) in
  let ids := freshDecorationIds (tm_nextDecorationId model) (length newDecorations) in
  let added :=
    List.map (fun p => mkModelDecoration (fst p) (fst (snd p)) (snd (snd p)))
             (combine ids newDecorations) in
  (mkTextModel (tm_uri model) (kept ++ added)
               (tm_nextDecorationId model + N.of_nat (length newDecorations))%N,
   ids).

(** ** Provider data *)

(** [languages.CommentingRanges].  The source compares two of these objects by
    reference ([===]); [cr_identity] is the identity of the object. *)
Record CommentingRanges : Type := mkCommentingRanges {
  cr_identity : N;
  ranges : list IRange;
  fileComments : bool
}.

Definition sameObject (a b : CommentingRanges) : bool :=
  bool_decide (cr_identity a = cr_identity b).

Record CommentRangeAction : Type := mkCommentRangeAction {
  ownerId : string;
  extensionId : option string;
  label : option string;
  commentingRangesInfo : CommentingRanges
}.

(** ** class CommentingRangeDecoration *)

Module CommentingRangeDecoration.

(** The private [_editor] field is a reference to the shared editor object;
    the functions that read it take the editor's current state instead. *)
Record t : Type := mk {
  _decorationId : option string;
  _startLineNumber : Z;
  _endLineNumber : Z;
  _ownerId : string;
  _extensionId : option string;
  _label : option string;
  _range : IRange;
  options : ModelDecorationOptions;
  _commentingRangesInfo : CommentingRanges;
  isHover : bool
}.

Definition new (ownerId : string) (extensionId label : option string)
    (range : IRange) (options : ModelDecorationOptions)
    (commentingRangesInfo : CommentingRanges) (isHover : bool) : t :=
  {| _decorationId := None;
     _startLineNumber := startLineNumber range;
     _endLineNumber := endLineNumber range;
     _ownerId := ownerId;
     _extensionId := extensionId;
     _label := label;
     _range := range;
     options := options;
     _commentingRangesInfo := commentingRangesInfo;
     isHover := isHover |}.

Definition id (d : t) : option string := _decorationId d.

Definition set_id (d : t) (id : option string) : t :=
  {| _decorationId := id;
     _startLineNumber := _startLineNumber d;
     _endLineNumber := _endLineNumber d;
     _ownerId := _ownerId d;
     _extensionId := _extensionId d;
     _label := _label d;
     _range := _range d;
     options := options d;
     _commentingRangesInfo := _commentingRangesInfo d;
     isHover := isHover d |}.

(** The range the decoration hands to the editor. *)
Definition range (d : t) : IRange :=
  {| startLineNumber := _startLineNumber d; startColumn := 1;
     endLineNumber := _endLineNumber d; endColumn := 1 |}.

Definition getCommentAction (d : t) : CommentRangeAction :=
  {| extensionId := _extensionId d;
     label := _label d;
     ownerId := _ownerId d;
     commentingRangesInfo := _commentingRangesInfo d |}.

Definition getOriginalRange (d : t) : IRange := _range d.

(** [this.id ? this._editor.getModel()!.getDecorationRange(this.id) : undefined]:
    an absent or empty id is falsy; with an id, a [null] model makes the
    member access raise. *)
Definition getActiveRange (editor : ICodeEditor) (d : t) : result (option IRange) :=
  match id d with
  | Some i =>
      if bool_decide (i = "") then Ok None
      else match getModel editor with
           | Some model => Ok (getDecorationRange model i)
           | None => Throw TypeErrorNullModel
           end
  | None => Ok None
  end.

End CommentingRangeDecoration.

(** ** Comment threads and per-provider comment information *)

Inductive CommentBody : Type :=
| BodyString (s : string)            (* [typeof body === 'string'] *)
| BodyMarkdown (value : string).     (* an [IMarkdownString] with its [value] *)

Record Comment : Type := mkComment {
  uniqueIdInThread : Z;
  body : CommentBody
}.

Inductive CommentThreadState : Type := Unresolved | Resolved.
Inductive CommentThreadCollapsibleState : Type := Collapsed | Expanded.

(** [languages.CommentThread].  Threads are shared objects: the handler that
    removes a thread from a provider's list compares by reference, and
    [thread_identity] is the identity of the object. *)
Record CommentThread : Type := mkCommentThread {
  thread_identity : N;
  threadId : string;
  resource : option string;
  thread_range : option IRange;
  comments : option (list Comment);
  commentThreadHandle : Z;
  thread_state : option CommentThreadState;
  collapsibleState : option CommentThreadCollapsibleState;
  isDisposed : bool
}.

Record PendingCommentThread : Type := mkPendingCommentThread {
  pending_owner : string;
  pending_uri : string;
  pending_range : IRange;
  pending_body : string
}.

Record ICommentInfo : Type := mkCommentInfo {
  owner : string;
  info_extensionId : option string;
  info_label : option string;
  commentingRanges : CommentingRanges;
  threads : list CommentThread;
  pendingCommentThreads : option (list PendingCommentThread)
}.

Record Position : Type := mkPosition {
  lineNumber : Z;
  column : Z
}.

(** ** class CommentingRangeDecorator *)

Module CommentingRangeDecorator.

(** [_editor] records whether the reference to the editor has been set; the
    editor object itself is shared with the controller and is passed to, and
    returned by, the methods that use it. *)
Record t : Type := mk {
  commentingRangeDecorations : list CommentingRangeDecoration.t;
  decorationIds : list string;
  _editor : bool;
  _infos : option (list ICommentInfo);
  _lastHover : Z;
  _lastSelection : option IRange;
  _lastSelectionCursor : option Z
}.

Definition new : t :=
  {| commentingRangeDecorations := [];
     decorationIds := [];
     _editor := false;
     _infos := None;
     _lastHover := -1;
     _lastSelection := None;
     _lastSelectionCursor := None |}.

Definition _lineHasThread (editor : ICodeEditor) (lineRange : IRange)
  : option IModelDecoration :=
  match getDecorationsInRange editor lineRange with
  | Some decorations =>
      List.find (fun decoration =>
                   bool_decide (md_description decoration = CommentGlyphWidget_description))
                decorations
  | None => None
  end.

(** The body of the [forEach] of [_doUpdate]: the decorations pushed for one
    provider range [range] of [info], in the order they are pushed. *)
Definition decorateRange (editor : ICodeEditor) (info : ICommentInfo)
    (emphasisLine : Z) (selectionRange : option IRange) (range : IRange)
  : list CommentingRangeDecoration.t :=
  let decoration r opts hover :=
    CommentingRangeDecoration.new (owner info) (info_extensionId info) (info_label info)
                                  r opts (commentingRanges info) hover in
  let rangeObject :=
    Range.new (startLineNumber range) (startColumn range)
              (endLineNumber range) (endColumn range) in
  let intersectingSelectionRange :=
    match selectionRange with
    | Some s => Range.intersectRanges rangeObject s
    | None => None
    end in
  let otherwise :=
    if (startLineNumber rangeObject <=? emphasisLine)
       && (emphasisLine <=? endLineNumber rangeObject)
    then
      (if startLineNumber rangeObject <? emphasisLine
       then [decoration (Range.new (startLineNumber range) 1 (emphasisLine - 1) 1)
                        decorationOptions true]
       else [])
      ++ (let emphasisRange := Range.new emphasisLine 1 emphasisLine 1 in
          match _lineHasThread editor emphasisRange with
          | None => [decoration emphasisRange hoverDecorationOptions true]
          | Some _ => []
          end)
      ++ (if emphasisLine <? endLineNumber rangeObject
          then [decoration (Range.new (emphasisLine + 1) 1 (endLineNumber range) 1)
                           decorationOptions true]
          else [])
    else [decoration range decorationOptions false] in
  match selectionRange, intersectingSelectionRange with
  | Some _, Some isr =>
      if (emphasisLine >=? 0)
         && negb ((startLineNumber isr =? endLineNumber isr)
                  && (emphasisLine =? startLineNumber isr))
      then
        let '(intersectingEmphasisRange, intersectingSelectionRange) :=
          if emphasisLine <=? startLineNumber isr
          then (Range.collapseToStart isr,
                Range.new (startLineNumber isr + 1) 1 (endLineNumber isr) 1)
          else (Range.new (endLineNumber isr) 1 (endLineNumber isr) 1,
                Range.new (startLineNumber isr) 1 (endLineNumber isr - 1) 1) in
        let beforeRangeEndLine :=
          Z.min (startLineNumber intersectingEmphasisRange)
                (startLineNumber intersectingSelectionRange) - 1 in
        let hasBeforeRange := startLineNumber rangeObject <=? beforeRangeEndLine in
        let afterRangeStartLine :=
          Z.max (endLineNumber intersectingEmphasisRange)
                (endLineNumber intersectingSelectionRange) + 1 in
        let hasAfterRange := endLineNumber rangeObject >=? afterRangeStartLine in
        [decoration intersectingSelectionRange multilineDecorationOptions true]
        ++ (match _lineHasThread editor intersectingEmphasisRange with
            | None => [decoration intersectingEmphasisRange hoverDecorationOptions true]
            | Some _ => []
            end)
        ++ (if hasBeforeRange
            then [decoration (Range.new (startLineNumber range) 1 beforeRangeEndLine 1)
                             decorationOptions true]
            else [])
        ++ (if hasAfterRange
            then [decoration (Range.new afterRangeStartLine 1 (endLineNumber range) 1)
                             decorationOptions true]
            else [])
      else otherwise
  | _, _ => otherwise
  end.

(** [_doUpdate(editor, commentInfos, emphasisLine = -1, selectionRange = this._lastSelection)].
    Returns the decorator, the editor with its markers replaced, and the
    count fired on [onDidChangeDecorationsCount], if any. *)
Definition _doUpdate (self : t) (editor : ICodeEditor) (commentInfos : list ICommentInfo)
    (emphasisLine : option Z) (selectionRange : option IRange)
  : t * ICodeEditor * option nat :=
  match getModel editor with
  | None => (self, editor, None)
  | Some model =>
      let emphasisLine := default (-1) emphasisLine in
      let selectionRange :=
        match selectionRange with Some r => Some r | None => _lastSelection self end in
      (* If there's still a selection, use that. *)
      let emphasisLine := default emphasisLine (_lastSelectionCursor self) in
      let commentingRangeDecorations :=
        flat_map (fun info =>
                    flat_map (decorateRange editor info emphasisLine selectionRange)
                             (ranges (commentingRanges info)))
                 commentInfos in
      let '(model', ids) :=
        deltaDecorations model (decorationIds self)
          (List.map (fun d => (CommentingRangeDecoration.range d,
                               CommentingRangeDecorator_description))
                    commentingRangeDecorations) in
      let commentingRangeDecorations :=
        imap (fun index d => CommentingRangeDecoration.set_id d (ids !! index))
             commentingRangeDecorations in
      let rangesDifference :=
        Z.of_nat (length (CommentingRangeDecorator.commentingRangeDecorations self))
        - Z.of_nat (length commentingRangeDecorations) in
      ({| commentingRangeDecorations := commentingRangeDecorations;
          decorationIds := ids;
          _editor := _editor self;
          _infos := _infos self;
          _lastHover := _lastHover self;
          _lastSelection := _lastSelection self;
          _lastSelectionCursor := _lastSelectionCursor self |},
       mkCodeEditor (Some model'),
       if rangesDifference =? 0 then None else Some (length commentingRangeDecorations))
  end.

Definition with_infos (self : t) (infos : list ICommentInfo) : t :=
  {| commentingRangeDecorations := commentingRangeDecorations self;
     decorationIds := decorationIds self;
     _editor := true;
     _infos := Some infos;
     _lastHover := _lastHover self;
     _lastSelection := _lastSelection self;
     _lastSelectionCursor := _lastSelectionCursor self |}.

Definition with_lastHover (self : t) (line : Z) : t :=
  {| commentingRangeDecorations := commentingRangeDecorations self;
     decorationIds := decorationIds self;
     _editor := _editor self;
     _infos := _infos self;
     _lastHover := line;
     _lastSelection := _lastSelection self;
     _lastSelectionCursor := _lastSelectionCursor self |}.

Definition with_lastSelection (self : t) (sel : option IRange) (cursor : option Z) : t :=
  {| commentingRangeDecorations := commentingRangeDecorations self;
     decorationIds := decorationIds self;
     _editor := _editor self;
     _infos := _infos self;
     _lastHover := _lastHover self;
     _lastSelection := sel;
     _lastSelectionCursor := cursor |}.

Definition updateHover (self : t) (editor : ICodeEditor) (hoverLine : option Z)
  : t * ICodeEditor * option nat :=
  let '(self, editor, fired) :=
    match _infos self with
    | Some infos =>
        if _editor self && negb (bool_decide (hoverLine = Some (_lastHover self)))
        then _doUpdate self editor infos hoverLine None
        else (self, editor, None)
    | None => (self, editor, None)
    end in
  (with_lastHover self (default (-1) hoverLine), editor, fired).

Definition updateSelection (self : t) (editor : ICodeEditor) (cursorLine : Z)
    (range : option IRange) : t * ICodeEditor * option nat :=
  let range := default (Range.new 0 0 0 0) range in
  let self :=
    with_lastSelection self
      (if Range.isEmpty range then None else Some range)
      (if Range.isEmpty range then None else Some cursorLine) in
  match _infos self with
  | Some infos =>
      if _editor self
      then _doUpdate self editor infos (Some cursorLine) (Some range)
      else (self, editor, None)
  | None => (self, editor, None)
  end.

Definition update (self : t) (editor : option ICodeEditor)
    (commentInfos : list ICommentInfo) (cursorLine : option Z) (range : option IRange)
  : t * option ICodeEditor * option nat :=
  match editor with
  | Some editor =>
      let '(self, editor, fired) :=
        _doUpdate (with_infos self commentInfos) editor commentInfos cursorLine range in
      (self, Some editor, fired)
  | None => (self, None, None)
  end.

Definition areRangesIntersectingOrTouchingByLine (a b : IRange) : bool :=
  (* Check if `a` is before `b` *)
  if endLineNumber a <? startLineNumber b - 1 then false
  (* Check if `b` is before `a` *)
  else if endLineNumber b + 1 <? startLineNumber a then false
  (* These ranges must intersect *)
  else true.

(** The [Map<string, { range; action }>] of [getMatchedCommentAction]: keys
    keep their insertion order, [set] on a present key replaces its value in
    place. *)
Definition FoundHoverActions : Type := list (string * (IRange * CommentRangeAction)).

Definition map_get (k : string) (m : FoundHoverActions)
  : option (IRange * CommentRangeAction) :=
  snd <$> List.find (fun e => bool_decide (fst e = k)) m.

Fixpoint map_set (k : string) (v : IRange * CommentRangeAction) (m : FoundHoverActions)
  : FoundHoverActions :=
  match m with
  | [] => [(k, v)]
  | e :: m' => if bool_decide (fst e = k) then (k, v) :: m' else e :: map_set k v m'
  end.

(** One iteration of the loop over [this.commentingRangeDecorations]. *)
Definition matchDecoration (editor : ICodeEditor) (commentRange : IRange)
    (foundHoverActions : FoundHoverActions) (decoration : CommentingRangeDecoration.t)
  : result FoundHoverActions :=
  let* range := CommentingRangeDecoration.getActiveRange editor decoration in
  match range with
  | Some range =>
      if areRangesIntersectingOrTouchingByLine range commentRange
      then
        let action := CommentingRangeDecoration.getCommentAction decoration in
        match map_get (ownerId action) foundHoverActions with
        | Some alreadyFoundInfo =>
            if sameObject (commentingRangesInfo (snd alreadyFoundInfo))
                          (commentingRangesInfo action)
            then
              (* Merge ranges. *)
              let already := fst alreadyFoundInfo in
              let newRange :=
                Range.new
                  (if startLineNumber range <? startLineNumber already
                   then startLineNumber range else startLineNumber already)
                  (if startColumn range <? startColumn already
                   then startColumn range else startColumn already)
                  (if endLineNumber range >? endLineNumber already
                   then endLineNumber range else endLineNumber already)
                  (if endColumn range >? endColumn already
                   then endColumn range else endColumn already) in
              Ok (map_set (ownerId action) (newRange, action) foundHoverActions)
            else Ok (map_set (ownerId action) (range, action) foundHoverActions)
        | None => Ok (map_set (ownerId action) (range, action) foundHoverActions)
        end
      else Ok foundHoverActions
  | None => Ok foundHoverActions
  end.

Fixpoint matchDecorations (editor : ICodeEditor) (commentRange : IRange)
    (foundHoverActions : FoundHoverActions)
    (decorations : list CommentingRangeDecoration.t) : result FoundHoverActions :=
  match decorations with
  | [] => Ok foundHoverActions
  | decoration :: rest =>
      let* found := matchDecoration editor commentRange foundHoverActions decoration in
      matchDecorations editor commentRange found rest
  end.

Definition getMatchedCommentAction (self : t) (editor : ICodeEditor)
    (commentRange : option IRange) : result (list CommentRangeAction) :=
  match commentRange with
  | None =>
      match _infos self with
      | Some infos =>
          Ok (List.map (fun foundInfo =>
                          {| ownerId := owner foundInfo;
                             extensionId := info_extensionId foundInfo;
                             label := info_label foundInfo;
                             commentingRangesInfo := commentingRanges foundInfo |})
                       (List.filter (fun info => fileComments (commentingRanges info)) infos))
      | None => Ok []
      end
  | Some commentRange =>
      let* foundHoverActions :=
        matchDecorations editor commentRange [] (commentingRangeDecorations self) in
      Ok (List.map (fun actions => snd actions)
            (List.filter
               (fun action =>
                  (startLineNumber (fst action) <=? startLineNumber commentRange)
                  && (endLineNumber commentRange <=? endLineNumber (fst action)))
               (List.map snd foundHoverActions)))
  end.

(** The scanning loop of [getNearestCommentingRange]: [Ok (Some range)] is
    the early [return range], [Ok None] is a loop that ran to its end. *)
Fixpoint nearestLoop (editor : ICodeEditor) (findPosition : Position) (reverse : bool)
    (findPositionContainedWithin : option IRange)
    (decorations : list CommentingRangeDecoration.t) : result (option IRange) :=
  match decorations with
  | [] => Ok None
  | decoration :: rest =>
      let* range := CommentingRangeDecoration.getActiveRange editor decoration in
      match range with
      | None => nearestLoop editor findPosition reverse findPositionContainedWithin rest
      | Some range =>
          let otherChecks :=
            if (startLineNumber range <=? lineNumber findPosition)
               && (lineNumber findPosition <=? endLineNumber range)
            then nearestLoop editor findPosition reverse
                   (Some (Range.new (startLineNumber range) (startColumn range)
                                    (endLineNumber range) (endColumn range))) rest
            else if negb reverse && (endLineNumber range <? lineNumber findPosition)
            then nearestLoop editor findPosition reverse findPositionContainedWithin rest
            else if reverse && (startLineNumber range >? lineNumber findPosition)
            then nearestLoop editor findPosition reverse findPositionContainedWithin rest
            else Ok (Some range) in
          match findPositionContainedWithin with
          | Some within =>
              if areRangesIntersectingOrTouchingByLine range within
              then nearestLoop editor findPosition reverse
                     (Some (Range.plusRange within range)) rest
              else otherChecks
          | None => otherChecks
          end
      end
  end.

Definition getNearestCommentingRange (self : t) (editor : ICodeEditor)
    (findPosition : Position) (reverse : bool) : result (option IRange) :=
  let decorations :=
    if reverse then rev (commentingRangeDecorations self)
    else commentingRangeDecorations self in
  let* found := nearestLoop editor findPosition reverse None decorations in
  match found with
  | Some range => Ok (Some range)
  | None =>
      match decorations !! 0%nat with
      | Some first => CommentingRangeDecoration.getActiveRange editor first
      | None => Throw TypeErrorUndefinedElement
      end
  end.

Definition dispose (self : t) : t :=
  {| commentingRangeDecorations := [];
     decorationIds := decorationIds self;
     _editor := _editor self;
     _infos := _infos self;
     _lastHover := _lastHover self;
     _lastSelection := _lastSelection self;
     _lastSelectionCursor := _lastSelectionCursor self |}.

End CommentingRangeDecorator.

(** ** Collaborators of the controller *)

Record IEditorMouseEvent : Type := mkMouseEvent {
  mouse_lineNumber : option Z      (* [e.target.position?.lineNumber] *)
}.

(** Modelled from the spec: the thread widget ([ReviewZoneWidget]) is not under
    src/.  "Given (documentId, ownerId, thread, initialDraftText?,
    initialEditDrafts?), produces a displayable widget exposing [reveal],
    [collapse()/expand()], [update(thread)], [dispose()],
    [getPendingComments() -> {newComment, edits}], [getGlyphLine()]".
    [zone_pendingComment] and [zone_pendingEdits] are the initial drafts the
    widget was created with; [zone_newComment] and [zone_edits] are what
    [getPendingComments()] answers now (the user may have typed since). *)
Record ReviewZoneWidget : Type := mkZone {
  zone_owner : string;
  zone_commentThread : CommentThread;
  zone_pendingComment : option string;
  zone_pendingEdits : option (gmap Z string);
  zone_newComment : option string;
  zone_edits : gmap Z string;
  zone_expanded : bool;
  zone_glyphPosition : Z
}.

(** Modelled from the spec: the widget factory; a new widget starts with the
    drafts it is given and with its glyph on the last line of the thread's
    range. *)
Definition createReviewZoneWidget (owner : string) (thread : CommentThread)
    (pendingComment : option string) (pendingEdits : option (gmap Z string))
  : ReviewZoneWidget :=
  {| zone_owner := owner;
     zone_commentThread := thread;
     zone_pendingComment := pendingComment;
     zone_pendingEdits := pendingEdits;
     zone_newComment := pendingComment;
     zone_edits := default ∅ pendingEdits;
     zone_expanded := match collapsibleState thread with Some Expanded => true | _ => false end;
     zone_glyphPosition := from_option endLineNumber 0 (thread_range thread) |}.

(** Modelled from the spec: [zoneWidget.update(thread)], "push the updated
    thread data into the existing widget in place". *)
Definition zone_update (thread : CommentThread) (zone : ReviewZoneWidget) : ReviewZoneWidget :=
  {| zone_owner := zone_owner zone;
     zone_commentThread := thread;
     zone_pendingComment := zone_pendingComment zone;
     zone_pendingEdits := zone_pendingEdits zone;
     zone_newComment := zone_newComment zone;
     zone_edits := zone_edits zone;
     zone_expanded := zone_expanded zone;
     zone_glyphPosition := zone_glyphPosition zone |}.

Definition zone_set_expanded (expanded : bool) (zone : ReviewZoneWidget) : ReviewZoneWidget :=
  {| zone_owner := zone_owner zone;
     zone_commentThread := zone_commentThread zone;
     zone_pendingComment := zone_pendingComment zone;
     zone_pendingEdits := zone_pendingEdits zone;
     zone_newComment := zone_newComment zone;
     zone_edits := zone_edits zone;
     zone_expanded := expanded;
     zone_glyphPosition := zone_glyphPosition zone |}.

(** The user types into the reply box of a displayed widget. *)
Definition zone_type (text : option string) (zone : ReviewZoneWidget) : ReviewZoneWidget :=
  {| zone_owner := zone_owner zone;
     zone_commentThread := zone_commentThread zone;
     zone_pendingComment := zone_pendingComment zone;
     zone_pendingEdits := zone_pendingEdits zone;
     zone_newComment := text;
     zone_edits := zone_edits zone;
     zone_expanded := zone_expanded zone;
     zone_glyphPosition := zone_glyphPosition zone |}.

Inductive OpenViewState : Type :=
| OpenViewFile | OpenViewFirstFile | OpenViewFirstFileUnresolved | OpenViewNever.

(** What the controller reads from its services: the comment service's
    [isCommentingEnabled] and continue-on registry, the answer of
    [isEditorInlineOriginal(this.editor)], the [openView] setting and whether
    the comments panel has rendered. *)
Record Services : Type := mkServices {
  isCommentingEnabled : bool;
  isEditorInlineOriginal : bool;
  openView : OpenViewState;
  commentsViewHasRendered : bool;
  continueOnComments : list PendingCommentThread
}.

(** Calls the controller makes on its collaborators, in the order made. *)
Inductive Effect : Type :=
| CreateCommentThreadTemplate (owner uri : string) (range : option IRange)
| OpenCommentsView
| ShowContextMenu (actions : list CommentRangeAction) (range : IRange)
| QuickPick (picks : list (option string * string))
| DisposeZone (zone : ReviewZoneWidget)
| UpdateEditorLayoutOptions (reserve : bool)
| ThreadRangeDecoratorUpdate (infos : list ICommentInfo)
| RejectedPromise (e : JsError).

(** JS truthiness of a [string | undefined]. *)
Definition truthy (s : option string) : bool :=
  match s with
  | Some s => negb (bool_decide (s = ""))
  | None => false
  end.

Fixpoint removeFirst {A : Type} (p : A -> bool) (l : list A) : list A :=
  match l with
  | [] => []
  | x :: l' => if p x then l' else x :: removeFirst p l'
  end.

Fixpoint updateFirst {A : Type} (p : A -> bool) (f : A -> A) (l : list A) : list A :=
  match l with
  | [] => []
  | x :: l' => if p x then f x :: l' else x :: updateFirst p f l'
  end.

Record CommentThreadChangedEvent : Type := mkThreadsEvent {
  ev_owner : string;
  added : list CommentThread;
  removed : list CommentThread;
  changed : list CommentThread;
  pending : list PendingCommentThread
}.

Definition lastCommentBody (thread : CommentThread) : option string :=
  match comments thread with
  | Some cs =>
      match last cs with
      | Some lastComment =>
          Some (match body lastComment with
                | BodyString s => s
                | BodyMarkdown value => value
                end)
      | None => None
      end
  | None => None
  end.

Definition thread_expand (thread : CommentThread) : CommentThread :=
  {| thread_identity := thread_identity thread;
     threadId := threadId thread;
     resource := resource thread;
     thread_range := thread_range thread;
     comments := comments thread;
     commentThreadHandle := commentThreadHandle thread;
     thread_state := thread_state thread;
     collapsibleState := Some Expanded;
     isDisposed := isDisposed thread |}.

Definition info_set_threads (info : ICommentInfo) (ts : list CommentThread) : ICommentInfo :=
  {| owner := owner info;
     info_extensionId := info_extensionId info;
     info_label := info_label info;
     commentingRanges := commentingRanges info;
     threads := ts;
     pendingCommentThreads := pendingCommentThreads info |}.

(** Modelled from the spec: the comment service's continue-on registry is not
    under src/.  "removeContinueOnDraft(ownerId, documentId, range) ->
    draftText?": the draft registered under the same (owner, uri, range) is
    consumed and removed from the registry. *)
Definition sameContinueOnKey (owner uri : string) (range : IRange)
    (p : PendingCommentThread) : bool :=
  bool_decide (pending_owner p = owner) && bool_decide (pending_uri p = uri)
  && Range.equalsRange (Some (pending_range p)) (Some range).

(** Modelled from the spec: [removeContinueOnComment], see
    [sameContinueOnKey]. *)
Definition removeContinueOnComment (s : Services) (owner uri : string) (range : IRange)
  : Services * option PendingCommentThread :=
  ({| isCommentingEnabled := isCommentingEnabled s;
      isEditorInlineOriginal := isEditorInlineOriginal s;
      openView := openView s;
      commentsViewHasRendered := commentsViewHasRendered s;
      continueOnComments :=
        removeFirst (sameContinueOnKey owner uri range) (continueOnComments s) |},
   List.find (sameContinueOnKey owner uri range) (continueOnComments s)).

(** ** class CommentController *)

Module CommentController.

Definition QueuedAdd : Type := (option IRange * option IEditorMouseEvent)%type.

Record t : Type := mk {
  editor : option ICodeEditor;
  _commentWidgets : list ReviewZoneWidget;
  _commentInfos : list ICommentInfo;
  _commentingRangeDecorator : CommentingRangeDecorator.t;
  _commentingRangeSpaceReserved : bool;
  _addInProgress : bool;
  _emptyThreadsToAddQueue : list QueuedAdd;
  _pendingNewCommentCache : gmap string (gmap string string);
  _pendingEditsCache : gmap string (gmap string (gmap Z string));
  _editorDisposables : nat;
  services : Services;
  effects : list Effect
}.

Definition set_editor_decorator (self : t) (e : option ICodeEditor)
    (d : CommentingRangeDecorator.t) : t :=
  mk e (_commentWidgets self) (_commentInfos self) d
     (_commentingRangeSpaceReserved self) (_addInProgress self)
     (_emptyThreadsToAddQueue self) (_pendingNewCommentCache self)
     (_pendingEditsCache self) (_editorDisposables self) (services self) (effects self).

Definition set_commentWidgets (self : t) (ws : list ReviewZoneWidget) : t :=
  mk (editor self) ws (_commentInfos self) (_commentingRangeDecorator self)
     (_commentingRangeSpaceReserved self) (_addInProgress self)
     (_emptyThreadsToAddQueue self) (_pendingNewCommentCache self)
     (_pendingEditsCache self) (_editorDisposables self) (services self) (effects self).

Definition set_commentInfos (self : t) (infos : list ICommentInfo) : t :=
  mk (editor self) (_commentWidgets self) infos (_commentingRangeDecorator self)
     (_commentingRangeSpaceReserved self) (_addInProgress self)
     (_emptyThreadsToAddQueue self) (_pendingNewCommentCache self)
     (_pendingEditsCache self) (_editorDisposables self) (services self) (effects self).

Definition set_spaceReserved (self : t) (b : bool) : t :=
  mk (editor self) (_commentWidgets self) (_commentInfos self)
     (_commentingRangeDecorator self) b (_addInProgress self)
     (_emptyThreadsToAddQueue self) (_pendingNewCommentCache self)
     (_pendingEditsCache self) (_editorDisposables self) (services self) (effects self).

Definition set_addInProgress (self : t) (b : bool) : t :=
  mk (editor self) (_commentWidgets self) (_commentInfos self)
     (_commentingRangeDecorator self) (_commentingRangeSpaceReserved self) b
     (_emptyThreadsToAddQueue self) (_pendingNewCommentCache self)
     (_pendingEditsCache self) (_editorDisposables self) (services self) (effects self).

Definition set_queue (self : t) (q : list QueuedAdd) : t :=
  mk (editor self) (_commentWidgets self) (_commentInfos self)
     (_commentingRangeDecorator self) (_commentingRangeSpaceReserved self)
     (_addInProgress self) q (_pendingNewCommentCache self)
     (_pendingEditsCache self) (_editorDisposables self) (services self) (effects self).

Definition set_caches (self : t) (news : gmap string (gmap string string))
    (edits : gmap string (gmap string (gmap Z string))) : t :=
  mk (editor self) (_commentWidgets self) (_commentInfos self)
     (_commentingRangeDecorator self) (_commentingRangeSpaceReserved self)
     (_addInProgress self) (_emptyThreadsToAddQueue self) news edits
     (_editorDisposables self) (services self) (effects self).

Definition set_editorDisposables (self : t) (n : nat) : t :=
  mk (editor self) (_commentWidgets self) (_commentInfos self)
     (_commentingRangeDecorator self) (_commentingRangeSpaceReserved self)
     (_addInProgress self) (_emptyThreadsToAddQueue self)
     (_pendingNewCommentCache self) (_pendingEditsCache self) n
     (services self) (effects self).

Definition set_services (self : t) (s : Services) : t :=
  mk (editor self) (_commentWidgets self) (_commentInfos self)
     (_commentingRangeDecorator self) (_commentingRangeSpaceReserved self)
     (_addInProgress self) (_emptyThreadsToAddQueue self)
     (_pendingNewCommentCache self) (_pendingEditsCache self)
     (_editorDisposables self) s (effects self).

Definition perform (self : t) (es : list Effect) : t :=
  mk (editor self) (_commentWidgets self) (_commentInfos self)
     (_commentingRangeDecorator self) (_commentingRangeSpaceReserved self)
     (_addInProgress self) (_emptyThreadsToAddQueue self)
     (_pendingNewCommentCache self) (_pendingEditsCache self)
     (_editorDisposables self) (services self) (effects self ++ es).

(** [editor && editor.hasModel() && editor.getModel().uri], as a string. *)
Definition editorURI (self : t) : option string :=
  e ← editor self; m ← getModel e; Some (tm_uri m).

(** The listener on [onDidChangeDecorationsCount]; five editor listeners are
    registered by [registerEditorListeners]. *)
Definition onDidChangeDecorationsCount (self : t) (fired : option nat) : t :=
  match fired with
  | Some O => set_editorDisposables self 0
  | Some (S _) =>
      if Nat.eqb (_editorDisposables self) 0
      then set_editorDisposables self (match editor self with Some _ => 5 | None => 0 end)%nat
      else self
  | None => self
  end.

Definition decoratorUpdate (self : t) (infos : list ICommentInfo) : t :=
  let '(d, e, fired) :=
    CommentingRangeDecorator.update (_commentingRangeDecorator self) (editor self)
                                    infos None None in
  onDidChangeDecorationsCount
    (set_editor_decorator self (match e with Some _ => e | None => editor self end) d)
    fired.

Definition openCommentsView (self : t) (thread : CommentThread) : t :=
  match comments thread with
  | Some (_ :: _) =>
      match openView (services self) with
      | OpenViewFile => perform self [OpenCommentsView]
      | OpenViewFirstFile =>
          if commentsViewHasRendered (services self) then self
          else perform self [OpenCommentsView]
      | OpenViewFirstFileUnresolved =>
          match thread_state thread with
          | Some Unresolved =>
              if commentsViewHasRendered (services self) then self
              else perform self [OpenCommentsView]
          | _ => self
          end
      | OpenViewNever => self
      end
  | _ => self
  end.

(** [displayCommentThread].  The glyph marker a displayed widget draws in the
    editor's model belongs to the widget and is not added here; the editor's
    markers are given with the editor. *)
Definition displayCommentThread (self : t) (owner : string) (thread : CommentThread)
    (pendingComment : option string) (pendingEdits : option (gmap Z string)) : t :=
  match editor self ≫= getModel with
  | None => self
  | Some _ =>
      if isEditorInlineOriginal (services self) then self
      else
        let zoneWidget := createReviewZoneWidget owner thread pendingComment pendingEdits in
        openCommentsView
          (set_commentWidgets self (_commentWidgets self ++ [zoneWidget])) thread
  end.

(** The editor's layout options are not modelled; the call that changes them
    is recorded. *)
Definition tryUpdateReservedSpace (self : t) : t :=
  match editor self with
  | None => self
  | Some _ =>
      let hasCommentsOrRanges :=
        existsb (fun info =>
                   let hasRanges :=
                     negb (Nat.eqb (length (ranges (commentingRanges info))) 0) in
                   hasRanges || negb (Nat.eqb (length (threads info)) 0))
                (_commentInfos self) in
      let enabled := isCommentingEnabled (services self) in
      if hasCommentsOrRanges && negb (_commentingRangeSpaceReserved self) && enabled
      then perform (set_spaceReserved self true) [UpdateEditorLayoutOptions true]
      else if (negb hasCommentsOrRanges || negb enabled)
              && _commentingRangeSpaceReserved self
      then perform (set_spaceReserved self false) [UpdateEditorLayoutOptions false]
      else self
  end.

(** The new-comment half of one iteration of
    [removeCommentWidgetsAndStoreCache]. *)
Definition storeNewComment (cache : gmap string (gmap string string))
    (zone : ReviewZoneWidget) : gmap string (gmap string string) :=
  let pendingNewComment := zone_newComment zone in
  let providerNewCommentCacheStore := cache !! zone_owner zone in
  let lastCommentBody := lastCommentBody (zone_commentThread zone) in
  if truthy pendingNewComment
     && negb (bool_decide (pendingNewComment = lastCommentBody))
  then
    <[zone_owner zone :=
        <[threadId (zone_commentThread zone) := default "" pendingNewComment]>
          (default ∅ providerNewCommentCacheStore)]> cache
  else
    match providerNewCommentCacheStore with
    | Some store =>
        <[zone_owner zone := delete (threadId (zone_commentThread zone)) store]> cache
    | None => cache
    end.

(** The edits half of the same iteration. *)
Definition storeEdits (cache : gmap string (gmap string (gmap Z string)))
    (zone : ReviewZoneWidget) : gmap string (gmap string (gmap Z string)) :=
  let pendingEdits := zone_edits zone in
  let providerEditsCacheStore := cache !! zone_owner zone in
  if negb (Nat.eqb (size pendingEdits) 0)
  then
    <[zone_owner zone :=
        <[threadId (zone_commentThread zone) := pendingEdits]>
          (default ∅ providerEditsCacheStore)]> cache
  else
    match providerEditsCacheStore with
    | Some store =>
        <[zone_owner zone := delete (threadId (zone_commentThread zone)) store]> cache
    | None => cache
    end.

Definition storeZone (self : t) (zone : ReviewZoneWidget) : t :=
  perform
    (set_caches self (storeNewComment (_pendingNewCommentCache self) zone)
                     (storeEdits (_pendingEditsCache self) zone))
    [DisposeZone zone].

Definition removeCommentWidgetsAndStoreCache (self : t) : t :=
  set_commentWidgets (fold_left storeZone (_commentWidgets self) self) [].

(** One thread of one provider in [setComments]: the thread as left in
    [info.threads] and the controller after [displayCommentThread]. *)
Definition setCommentsThread (owner : string) (acc : t * list CommentThread)
    (thread : CommentThread) : t * list CommentThread :=
  let '(self, shown) := acc in
  let pendingComment :=
    match _pendingNewCommentCache self !! owner with
    | Some providerCacheStore => providerCacheStore !! threadId thread
    | None => None
    end in
  let pendingEdits :=
    match _pendingEditsCache self !! owner with
    | Some providerEditsCacheStore => providerEditsCacheStore !! threadId thread
    | None => None
    end in
  let thread :=
    if truthy pendingComment || bool_decide (is_Some pendingEdits)
    then thread_expand thread else thread in
  (displayCommentThread self owner thread pendingComment pendingEdits, shown ++ [thread]).

Definition setCommentsInfo (acc : t * list ICommentInfo) (info : ICommentInfo)
  : t * list ICommentInfo :=
  let '(self, infos) := acc in
  let '(self, shown) :=
    fold_left (setCommentsThread (owner info))
              (List.filter (fun thread => negb (isDisposed thread)) (threads info))
              (self, []) in
  let self :=
    perform self
      (List.map (fun thread =>
                   CreateCommentThreadTemplate (pending_owner thread) (pending_uri thread)
                     (Some (Range.lift (pending_range thread))))
                (default [] (pendingCommentThreads info))) in
  (self, infos ++ [info_set_threads info shown]).

Definition setComments (self : t) (commentInfos : list ICommentInfo) : t :=
  match editor self with
  | None => self
  | Some _ =>
      if negb (isCommentingEnabled (services self)) then self
      else
        let self := set_commentInfos self commentInfos in
        let self := tryUpdateReservedSpace self in
        (* create viewzones *)
        let self := removeCommentWidgetsAndStoreCache self in
        let '(self, infos) := fold_left setCommentsInfo (_commentInfos self) (self, []) in
        let self := set_commentInfos self infos in
        let self := decoratorUpdate self (_commentInfos self) in
        perform self [ThreadRangeDecoratorUpdate (_commentInfos self)]
  end.

(** The listener on [commentService.onDidDeleteDataProvider], without the
    recompute it then starts. *)
Definition onDidDeleteDataProvider (self : t) (ownerId : option string) : t :=
  if truthy ownerId
  then set_caches self (delete (default "" ownerId) (_pendingNewCommentCache self))
                       (delete (default "" ownerId) (_pendingEditsCache self))
  else set_caches self ∅ ∅.

(** *** The listener on [commentService.onDidUpdateCommentThreads] *)

Definition isOwnerInfo (id : string) (info : ICommentInfo) : bool :=
  bool_decide (owner info = id).

Definition matchesThread (owner : string) (thread : CommentThread)
    (zoneWidget : ReviewZoneWidget) : bool :=
  bool_decide (zone_owner zoneWidget = owner)
  && bool_decide (threadId (zone_commentThread zoneWidget) = threadId thread).

Definition removedThread (owner : string) (self : t) (thread : CommentThread) : t :=
  let matches zoneWidget :=
    matchesThread owner thread zoneWidget
    && negb (bool_decide (threadId (zone_commentThread zoneWidget) = "")) in
  let self :=
    match List.find matches (_commentWidgets self) with
    | Some matchedZone =>
        perform (set_commentWidgets self (removeFirst matches (_commentWidgets self)))
                [DisposeZone matchedZone]
    | None => self
    end in
  set_commentInfos self
    (updateFirst (isOwnerInfo owner)
       (fun info =>
          info_set_threads info
            (List.filter
               (fun t => negb (bool_decide (thread_identity t = thread_identity thread)))
               (threads info)))
       (_commentInfos self)).

Definition changedThread (owner : string) (self : t) (thread : CommentThread) : t :=
  match List.find (matchesThread owner thread) (_commentWidgets self) with
  | Some _ =>
      openCommentsView
        (set_commentWidgets self
           (updateFirst (matchesThread owner thread) (zone_update thread)
                        (_commentWidgets self)))
        thread
  | None => self
  end.

Definition matchesNewCommentThread (owner : string) (thread : CommentThread)
    (zoneWidget : ReviewZoneWidget) : bool :=
  bool_decide (zone_owner zoneWidget = owner)
  && (commentThreadHandle (zone_commentThread zoneWidget) =? -1)
  && Range.equalsRange (thread_range (zone_commentThread zoneWidget)) (thread_range thread).

Definition addedThread (owner uri : string) (self : t) (thread : CommentThread) : t :=
  match List.find (matchesThread owner thread) (_commentWidgets self) with
  | Some _ => self
  | None =>
      match List.find (matchesNewCommentThread owner thread) (_commentWidgets self) with
      | Some _ =>
          set_commentWidgets self
            (updateFirst (matchesNewCommentThread owner thread) (zone_update thread)
                         (_commentWidgets self))
      | None =>
          let '(self, continueOnCommentText) :=
            match thread_range thread with
            | Some range =>
                let '(s, found) := removeContinueOnComment (services self) owner uri range in
                (set_services self s, pending_body <$> found)
            | None => (self, None)
            end in
          let pendingCommentText :=
            match _pendingNewCommentCache self !! owner with
            | Some store =>
                match store !! threadId thread with
                | Some text => Some text
                | None => continueOnCommentText
                end
            | None => continueOnCommentText
            end in
          let pendingEdits :=
            match _pendingEditsCache self !! owner with
            | Some store => store !! threadId thread
            | None => None
            end in
          let self := displayCommentThread self owner thread pendingCommentText pendingEdits in
          let self :=
            set_commentInfos self
              (updateFirst (isOwnerInfo owner)
                 (fun info => info_set_threads info (threads info ++ [thread]))
                 (_commentInfos self)) in
          tryUpdateReservedSpace self
      end
  end.

Definition onResource (uri : string) (thread : CommentThread) : bool :=
  truthy (resource thread) && bool_decide (resource thread = Some uri).

(** The body of the listener once a pending [_computePromise] has been
    awaited: removed, changed, added and pending threads, in that order. *)
Definition onDidUpdateCommentThreads (self : t) (e : CommentThreadChangedEvent) : t :=
  match editorURI self with
  | None => self
  | Some uri =>
      if negb (isCommentingEnabled (services self)) then self
      else
        match List.filter (isOwnerInfo (ev_owner e)) (_commentInfos self) with
        | [] => self
        | _ :: _ =>
            let added := List.filter (onResource uri) (added e) in
            let removed := List.filter (onResource uri) (removed e) in
            let changed := List.filter (onResource uri) (changed e) in
            let pending :=
              List.filter (fun pending => bool_decide (pending_uri pending = uri))
                          (pending e) in
            let self := fold_left (removedThread (ev_owner e)) removed self in
            let self := fold_left (changedThread (ev_owner e)) changed self in
            let self := fold_left (addedThread (ev_owner e) uri) added self in
            let self :=
              perform self
                (List.map (fun thread =>
                             CreateCommentThreadTemplate
                               (pending_owner thread) (pending_uri thread)
                               (Some (Range.lift (pending_range thread))))
                          pending) in
            perform self
              [ThreadRangeDecoratorUpdate
                 (List.filter (isOwnerInfo (ev_owner e)) (_commentInfos self))]
        end
  end.

(** *** Adding a comment at a line *)

Definition getCommentProvidersQuickPicks (commentInfos : list CommentRangeAction)
  : list (option string * string) :=
  List.map (fun commentInfo =>
              ((if truthy (label commentInfo) then label commentInfo
                else extensionId commentInfo),
               ownerId commentInfo))
           commentInfos.

(** [addCommentAtLine2], with [processNextThreadToAdd] as [next]. *)
Definition addCommentAtLine2_then (next : t -> t) (self : t)
    (range : option IRange) (ownerId : string) : result t :=
  match editor self with
  | None => Ok self
  | Some e =>
      match getModel e with
      | Some model =>
          Ok (next (perform self [CreateCommentThreadTemplate ownerId (tm_uri model) range]))
      | None => Throw TypeErrorNullModel
      end
  end.

(** [this._commentingRangeDecorator.getMatchedCommentAction(range)].  The
    decorations read the editor they were created for; a controller without
    an editor never attached a model to them. *)
Definition getMatchedCommentAction (self : t) (range : option IRange)
  : result (list CommentRangeAction) :=
  CommentingRangeDecorator.getMatchedCommentAction
    (_commentingRangeDecorator self) (default (mkCodeEditor None) (editor self)) range.

(** [addCommentAtLine], up to the point where a context menu or a quick pick
    is shown; a [Throw] is an exception raised to the caller. *)
Definition addCommentAtLine_then (next : t -> t) (self : t)
    (range : option IRange) (e : option IEditorMouseEvent) : t * result unit :=
  match getMatchedCommentAction self range with
  | Throw err => (self, Throw err)
  | Ok newCommentInfos =>
      if Nat.eqb (length newCommentInfos) 0
         || negb (from_option hasModel false (editor self))
      then
        let self := set_addInProgress self false in
        if Nat.eqb (length newCommentInfos) 0
        then (self, Throw (UserError "There are no commenting ranges at the current position."))
        else (self, Ok tt)
      else
        match newCommentInfos with
        | first :: _ :: _ =>
            match e, range with
            | Some _, Some range =>
                (perform self [ShowContextMenu newCommentInfos range], Ok tt)
            | _, _ =>
                (perform self [QuickPick (getCommentProvidersQuickPicks newCommentInfos)],
                 Ok tt)
            end
        | first :: [] =>
            match addCommentAtLine2_then next self range (ownerId first) with
            | Ok self => (self, Ok tt)
            | Throw err => (self, Throw err)
            end
        | [] => (self, Ok tt)
        end
  end.

(** [addOrToggleCommentAtLine] is [async] and never awaits: it runs to its
    end at the call, and an exception raised inside it rejects the promise
    it returns instead of reaching the caller. *)
Definition addOrToggleCommentAtLine_then (next : t -> t) (self : t)
    (commentRange : option IRange) (e : option IEditorMouseEvent) : t :=
  if negb (_addInProgress self)
  then
    let self := set_addInProgress self true in
    let atLine widget :=
      zone_glyphPosition widget =? from_option endLineNumber 0 commentRange in
    let existingCommentsAtLine := List.filter atLine (_commentWidgets self) in
    match existingCommentsAtLine with
    | _ :: _ =>
        let allExpanded := forallb zone_expanded existingCommentsAtLine in
        let self :=
          set_commentWidgets self
            (List.map (fun widget =>
                         if atLine widget
                         then zone_set_expanded (negb allExpanded) widget
                         else widget)
                      (_commentWidgets self)) in
        next self
    | [] =>
        match addCommentAtLine_then next self commentRange e with
        | (self, Ok _) => self
        | (self, Throw err) => perform self [RejectedPromise err]
        end
    end
  else
    set_queue self (_emptyThreadsToAddQueue self ++ [(commentRange, e)]).

(** [processNextThreadToAdd] when [this._emptyThreadsToAddQueue] is [queue].
    Every nested call happens with the add-in-progress flag clear, so nothing
    is pushed in between and the queue only shrinks. *)
Fixpoint drainQueue (queue : list QueuedAdd) (self : t) : t :=
  let self := set_addInProgress self false in
  match queue with
  | [] => set_queue self []
  | info :: rest =>
      addOrToggleCommentAtLine_then (drainQueue rest) (set_queue self rest)
                                    (fst info) (snd info)
  end.

Definition processNextThreadToAdd (self : t) : t :=
  drainQueue (_emptyThreadsToAddQueue self) self.

Definition addCommentAtLine2 (self : t) (range : option IRange) (ownerId : string)
  : result t :=
  addCommentAtLine2_then processNextThreadToAdd self range ownerId.


Definition addOrToggleCommentAtLine (self : t) (commentRange : option IRange)
    (e : option IEditorMouseEvent) : t :=
  addOrToggleCommentAtLine_then processNextThreadToAdd self commentRange e.

(** The context menu is hidden ([onHide]). *)
Definition onHideContextMenu (self : t) : t := set_addInProgress self false.

(** The quick pick answers with [pick] (the id of the picked provider). *)
Definition onQuickPick (self : t) (newCommentInfos : list CommentRangeAction)
    (range : option IRange) (pick : option string) : result t :=
  let* self :=
    match pick with
    | None => Ok self
    | Some id =>
        match List.filter (fun info => bool_decide (ownerId info = id)) newCommentInfos with
        | first :: _ => addCommentAtLine2 self range (ownerId first)
        | [] => Ok self
        end
    end in
  Ok (set_addInProgress self false).

(** *** Editor listeners and the commenting switch *)

Definition registerEditorListeners (self : t) : t :=
  let self := set_editorDisposables self 0 in
  match editor self with
  | None => self
  | Some _ => set_editorDisposables self 5
  end.

Definition clearEditorListeners (self : t) : t := set_editorDisposables self 0.

(** The listener on [commentService.onDidChangeCommentingEnabled], without
    the recompute ([beginCompute]) it starts when commenting is switched
    on. *)
Definition onDidChangeCommentingEnabled (self : t) (e : bool) : t :=
  if e then registerEditorListeners self
  else
    let self := tryUpdateReservedSpace self in
    let self := clearEditorListeners self in
    let self := decoratorUpdate self [] in
    let self := perform self [ThreadRangeDecoratorUpdate []] in
    let self := perform self (List.map DisposeZone (_commentWidgets self)) in
    set_commentWidgets self [].

(** *** The cursor and the commenting ranges *)

(** The loop of [onEditorChangeCursorPosition] over the decorations on the
    cursor's line; a thread glyph ends it ([break]). *)
Fixpoint hasCommentingRangeLoop (decorations : list IModelDecoration)
    (hasCommentingRange : bool) : bool :=
  match decorations with
  | [] => hasCommentingRange
  | decoration :: rest =>
      if bool_decide (md_description decoration = CommentGlyphWidget_description)
      then (* We don't allow multiple comments on the same line. *) false
      else if bool_decide (md_description decoration = CommentingRangeDecorator_description)
      then hasCommentingRangeLoop rest true
      else hasCommentingRangeLoop rest hasCommentingRange
  end.

(** [onEditorChangeCursorPosition]: the value it sets on the context key
    [activeCursorHasCommentingRange].  [Range.fromPositions(e, {column: -1,
    lineNumber: e.lineNumber})] is the range between the two positions. *)
Definition onEditorChangeCursorPosition (self : t) (e : option Position) : bool :=
  let decorations :=
    match e with
    | Some e =>
        match editor self with
        | Some editor =>
            getDecorationsInRange editor
              (Range.new (lineNumber e) (column e) (lineNumber e) (-1))
        | None => None
        end
    | None => None
    end in
  match decorations with
  | Some decorations => hasCommentingRangeLoop decorations false
  | None => false
  end.

(** [_findNearestCommentingRange(reverse)], with [after] the end position of
    the editor's selection; the result is the position handed to
    [editor.setPosition], if any ([range.getEndPosition()] when scanning in
    reverse, [range.getStartPosition()] otherwise). *)
Definition _findNearestCommentingRange (self : t) (after : Position) (reverse : bool)
  : result (option Position) :=
  match editor self with
  | Some e =>
      if hasModel e
      then
        let* range :=
          CommentingRangeDecorator.getNearestCommentingRange
            (_commentingRangeDecorator self) e after reverse in
        match range with
        | Some range =>
            Ok (Some (if reverse
                      then mkPosition (endLineNumber range) (endColumn range)
                      else mkPosition (startLineNumber range) (startColumn range)))
        | None => Ok None
        end
      else Ok None
  | None => Ok None
  end.

Definition nextCommentingRange (self : t) (after : Position) : result (option Position) :=
  _findNearestCommentingRange self after false.

Definition previousCommentingRange (self : t) (after : Position)
  : result (option Position) :=
  _findNearestCommentingRange self after true.

(** *** Collapsing and expanding the thread widgets *)

Definition collapseAll (self : t) : t :=
  set_commentWidgets self (List.map (zone_set_expanded false) (_commentWidgets self)).

Definition expandAll (self : t) : t :=
  set_commentWidgets self (List.map (zone_set_expanded true) (_commentWidgets self)).

Definition expandUnresolved (self : t) : t :=
  set_commentWidgets self
    (List.map (fun widget =>
                 match thread_state (zone_commentThread widget) with
                 | Some Unresolved => zone_set_expanded true widget
                 | _ => widget
                 end)
              (_commentWidgets self)).

(** *** Drafts offered to other editors *)




(** *** A mouse button released in the gutter *)

(** What [onEditorMouseUp] reads besides the controller. *)
Record MouseUp : Type := mkMouseUp {
  matchedLineNumber : option Z;     (* [isMouseUpEventDragFromMouseDown(this.mouseDownInfo, e)] *)
  target_className : option string; (* [e.target.element], by its [className] *)
  target_lineNumber : option Z;     (* [e.target.position], by its [lineNumber] *)
  getLineLength : Z -> Z;           (* [this.editor.getModel()!.getLineLength] *)
  getSelection : option IRange      (* [this.editor.getSelection()] *)
}.

Inductive MouseUpOutcome : Type :=
| MouseUpIgnored           (* an early [return], or no range to comment on *)
| MouseUpNullDereference   (* [e.target.position!] or [getModel()!] is [null] *)
| MouseUpAdd (range : IRange) (setSelection : option IRange).

(** [onEditorMouseUp], up to its call of [addOrToggleCommentAtLine]: the range
    it passes on and the selection it sets on the editor. *)
Definition mouseUpOutcome (self : t) (e : MouseUp) : MouseUpOutcome :=
  match editor self, matchedLineNumber e, target_className e with
  | Some editor, Some matchedLineNumber, Some className =>
      let mouseUpIsOnDecorator :=
        bool_decide (is_Some (String.index 0 "comment-range-glyph" className)) in
      match target_lineNumber e with
      | None => MouseUpNullDereference
      | Some lineNumber =>
          let selection : result (option IRange) :=
            (* Check for drag along gutter decoration *)
            if negb (matchedLineNumber =? lineNumber)
            then
              match getModel editor with
              | None => Throw TypeErrorNullModel
              | Some _ =>
                  if matchedLineNumber >? lineNumber
                  then Ok (Some (Range.new matchedLineNumber
                                           (getLineLength e matchedLineNumber + 1)
                                           lineNumber 1))
                  else Ok (Some (Range.new matchedLineNumber 1 lineNumber
                                           (getLineLength e lineNumber + 1)))
              end
            else if mouseUpIsOnDecorator then Ok (getSelection e)
            else Ok None in
          match selection with
          | Throw _ => MouseUpNullDereference
          | Ok selection =>
              let onDecorator :=
                if mouseUpIsOnDecorator
                then MouseUpAdd (Range.new lineNumber 1 lineNumber 1) None
                else MouseUpIgnored in
              (* Check for selection at line number. *)
              match selection with
              | Some selection =>
                  if (startLineNumber selection <=? lineNumber)
                     && (lineNumber <=? endLineNumber selection)
                  then MouseUpAdd selection
                         (Some (Range.new (endLineNumber selection) 1
                                          (endLineNumber selection) 1))
                  else onDecorator
              | None => onDecorator
              end
          end
      end
  | _, _, _ => MouseUpIgnored
  end.

Definition onEditorMouseUp (self : t) (e : MouseUp) : t :=
  match mouseUpOutcome self e with
  | MouseUpAdd range _ =>
      addOrToggleCommentAtLine self (Some range) (Some (mkMouseEvent (target_lineNumber e)))
  | _ => self
  end.

(** *** The editor's layout options *)

(** The editor options the controller reads. *)
Record EditorOptions : Type := mkEditorOptions {
  opt_lineDecorationsWidth : Z;              (* [getOption(EditorOption.lineDecorationsWidth)] *)
  opt_extraEditorClassName : option string;  (* [getRawOptions().extraEditorClassName] *)
  opt_folding : bool;                        (* [getOptions().get(EditorOption.folding)] *)
  opt_showFoldingControls : string           (* [getOptions().get(EditorOption.showFoldingControls)] *)
}.

(** [s.split(' ')]: the pieces of [s] between its spaces, at least one. *)
Fixpoint split_space (s : string) : list string :=
  match s with
  | EmptyString => [""]
  | String c s' =>
      if Ascii.eqb c Ascii.Space
      then "" :: split_space s'
      else match split_space s' with
           | piece :: pieces => String c piece :: pieces
           | [] => [String c ""]
           end
  end.

(** [a.join(' ')]. *)
Fixpoint join_space (a : list string) : string :=
  match a with
  | [] => ""
  | piece :: rest =>
      match rest with
      | [] => piece
      | _ :: _ => piece +:+ " " +:+ join_space rest
      end
  end.

Definition getExistingCommentEditorOptions (editor : EditorOptions) : Z * list string :=
  let lineDecorationsWidth := opt_lineDecorationsWidth editor in
  let configuredExtraClassName := opt_extraEditorClassName editor in
  let extraEditorClassName :=
    if truthy configuredExtraClassName
    then split_space (default "" configuredExtraClassName)
    else [] in
  (lineDecorationsWidth, extraEditorClassName).

Definition getWithoutCommentsEditorOptions (editor : EditorOptions)
    (extraEditorClassName : list string) (startingLineDecorationsWidth : Z)
  : list string * Z :=
  let lineDecorationsWidth := startingLineDecorationsWidth in
  let extraEditorClassName :=
    removeFirst (fun name => bool_decide (name = "inline-comment")) extraEditorClassName in
  let lineDecorationsWidth :=
    if opt_folding editor && negb (bool_decide (opt_showFoldingControls editor = "never"))
    then lineDecorationsWidth + 11
    else lineDecorationsWidth in
  let lineDecorationsWidth := lineDecorationsWidth - 24 in
  (extraEditorClassName, lineDecorationsWidth).

Definition getWithCommentsEditorOptions (editor : EditorOptions)
    (extraEditorClassName : list string) (startingLineDecorationsWidth : Z)
  : Z * list string :=
  let lineDecorationsWidth := startingLineDecorationsWidth in
  let lineDecorationsWidth :=
    if opt_folding editor && negb (bool_decide (opt_showFoldingControls editor = "never"))
    then lineDecorationsWidth - 11
    else lineDecorationsWidth in
  let lineDecorationsWidth := lineDecorationsWidth + 24 in
  (lineDecorationsWidth, extraEditorClassName ++ ["inline-comment"]).

(** [updateEditorLayoutOptions]: the options object handed to
    [editor.updateOptions], as its [extraEditorClassName] and
    [lineDecorationsWidth]. *)
Definition updateEditorLayoutOptions (extraEditorClassName : list string)
    (lineDecorationsWidth : Z) : string * Z :=
  (join_space extraEditorClassName, lineDecorationsWidth).

(** The options [tryUpdateReservedSpace] hands to the editor when it reserves
    the gutter space ([reserve]) and when it gives it back. *)
Definition reservedSpaceOptions (reserve : bool) (editor : EditorOptions) : string * Z :=
  let '(lineDecorationsWidth, extraEditorClassName) :=
    getExistingCommentEditorOptions editor in
  if reserve
  then
    let newOptions :=
      getWithCommentsEditorOptions editor extraEditorClassName lineDecorationsWidth in
    updateEditorLayoutOptions (snd newOptions) (fst newOptions)
  else
    let newOptions :=
      getWithoutCommentsEditorOptions editor extraEditorClassName lineDecorationsWidth in
    updateEditorLayoutOptions (fst newOptions) (snd newOptions).

End CommentController.

(** * Specification-side vocabulary *)

(** The lines of a range, and the lines a decoration is drawn on. *)
Definition inLines (r : IRange) (l : Z) : Prop :=
  startLineNumber r <= l <= endLineNumber r.

Definition coversLine (d : CommentingRangeDecoration.t) (l : Z) : Prop :=
  inLines (CommentingRangeDecoration.range d) l.

Fixpoint pairwiseDisjointByLine (ds : list CommentingRangeDecoration.t) : Prop :=
  match ds with
  | [] => True
  | d :: rest =>
      (forall d' l, In d' rest -> ~ (coversLine d l /\ coversLine d' l))
      /\ pairwiseDisjointByLine rest
  end.

(** The sub-ranges [ds] tile [R]: no two share a line and together they cover
    exactly the lines of [R]. *)
Definition tilesByLine (R : IRange) (ds : list CommentingRangeDecoration.t) : Prop :=
  pairwiseDisjointByLine ds
  /\ forall l, inLines R l <-> exists d, In d ds /\ coversLine d l.

(** Line [l] of the editor's document hosts a comment-thread glyph. *)
Definition lineHostsThreadGlyph (editor : ICodeEditor) (l : Z) : Prop :=
  exists model g,
    getModel editor = Some model
    /\ In g (tm_decorations model)
    /\ md_description g = CommentGlyphWidget_description
    /\ inLines (md_range g) l.

(** Line [l] lies on one of the decorations [ds]. *)
Fixpoint coveredBy (ds : list CommentingRangeDecoration.t) (l : Z) : Prop :=
  match ds with
  | [] => False
  | d :: rest => coversLine d l \/ coveredBy rest l
  end.

(** Sample data: one provider [O] with the range of lines 5..10, and an
    editor whose only marker is a comment-thread glyph on line 7. *)
Definition sampleRanges : CommentingRanges :=
  {| cr_identity := 1; ranges := [mkIRange 5 1 10 1]; fileComments := false |}.

Definition sampleInfo : ICommentInfo :=
  {| owner := "O"; info_extensionId := None; info_label := None;
     commentingRanges := sampleRanges; threads := [];
     pendingCommentThreads := None |}.

Definition plainEditor : ICodeEditor :=
  mkCodeEditor (Some (mkTextModel "file:///a.ts" [] 0)).

Definition editorWithThreadOn7 : ICodeEditor :=
  mkCodeEditor
    (Some (mkTextModel "file:///a.ts"
             [mkModelDecoration "glyph" (mkIRange 7 1 7 1) CommentGlyphWidget_description]
             0)).

(** ** Vocabulary for the hit-test query *)

(** The current range of a decoration, when it has one. *)
Definition activeRangeOf (editor : ICodeEditor) (d : CommentingRangeDecoration.t)
  : option IRange :=
  match CommentingRangeDecoration.getActiveRange editor d with
  | Ok r => r
  | Throw _ => None
  end.

Definition touchesHit (editor : ICodeEditor) (H : IRange)
    (d : CommentingRangeDecoration.t) : bool :=
  match activeRangeOf editor d with
  | Some r => CommentingRangeDecorator.areRangesIntersectingOrTouchingByLine r H
  | None => false
  end.

(** The claims of owner [O] that touch or intersect the hit range [H] by
    line, as decorations and as ranges. *)
Definition touchingDecorations (editor : ICodeEditor) (H : IRange) (O : string)
    (ds : list CommentingRangeDecoration.t) : list CommentingRangeDecoration.t :=
  List.filter (fun d => bool_decide (CommentingRangeDecoration._ownerId d = O)
                        && touchesHit editor H d) ds.

Definition touchingClaims (editor : ICodeEditor) (H : IRange) (O : string)
    (ds : list CommentingRangeDecoration.t) : list IRange :=
  omap (activeRangeOf editor) (touchingDecorations editor H O ds).

(** The bounding union of the ranges [rs] (from their smallest start line to
    their largest end line) contains both end lines of [H]. *)
Definition boundingUnionContains (rs : list IRange) (H : IRange) : Prop :=
  (exists r, In r rs /\ startLineNumber r <= startLineNumber H)
  /\ (exists r, In r rs /\ endLineNumber H <= endLineNumber r).

(** Owner [O] appears in the result of [getMatchedCommentAction]. *)
Definition ownerReturned (result : result (list CommentRangeAction)) (O : string) : Prop :=
  exists actions, result = Ok actions /\ In O (List.map ownerId actions).

(** The accumulator of [getMatchedCommentAction] is keyed by owner: keys are
    distinct and every entry is filed under the owner of its action. *)
Definition wfFound (m : CommentingRangeDecorator.FoundHoverActions) : Prop :=
  List.NoDup (List.map fst m) /\ Forall (fun e => ownerId (snd (snd e)) = fst e) m.

(** The final filter of [getMatchedCommentAction]. *)
Definition containsHit (H : IRange) (entry : IRange * CommentRangeAction) : bool :=
  (startLineNumber (fst entry) <=? startLineNumber H)
  && (endLineNumber H <=? endLineNumber (fst entry)).

(** What the accumulator holds for owner [O] once the decorations [ds] have
    been scanned, when the claims of [O] that touch [H] share one
    [commentingRangesInfo]. *)
Definition mergedFor (editor : ICodeEditor) (H : IRange) (O : string)
    (ds : list CommentingRangeDecoration.t)
    (found : CommentingRangeDecorator.FoundHoverActions) : Prop :=
  match CommentingRangeDecorator.map_get O found with
  | None => touchingDecorations editor H O ds = []
  | Some (r, a) =>
      startLineNumber r <= endLineNumber r
      /\ (forall x, startLineNumber r <= x
                    <-> exists r', In r' (touchingClaims editor H O ds)
                                   /\ startLineNumber r' <= x)
      /\ (forall x, x <= endLineNumber r
                    <-> exists r', In r' (touchingClaims editor H O ds)
                                   /\ x <= endLineNumber r')
      /\ exists d0, In d0 (touchingDecorations editor H O ds)
                    /\ commentingRangesInfo a = CommentingRangeDecoration._commentingRangesInfo d0
  end.

(** The list [getNearestCommentingRange] scans. *)
Definition scanned (self : CommentingRangeDecorator.t) (reverse : bool)
  : list CommentingRangeDecoration.t :=
  if reverse then rev (CommentingRangeDecorator.commentingRangeDecorations self)
  else CommentingRangeDecorator.commentingRangeDecorations self.

(** The sub-ranges [ds] tile [R] up to thread glyphs: no two share a line,
    each lies within [R], and a line of [R] that none of them covers hosts a
    comment-thread glyph. *)
Definition tilesExceptThreadLines (editor : ICodeEditor) (R : IRange)
    (ds : list CommentingRangeDecoration.t) : Prop :=
  pairwiseDisjointByLine ds
  /\ (forall l, coveredBy ds l -> inLines R l)
  /\ (forall l, inLines R l -> coveredBy ds l \/ lineHostsThreadGlyph editor l).

(** A provider range with columns other than 1. *)
Definition columnsInfo : ICommentInfo :=
  {| owner := "O"; info_extensionId := None; info_label := None;
     commentingRanges :=
       {| cr_identity := 1; ranges := [mkIRange 5 4 10 9]; fileComments := false |};
     threads := []; pendingCommentThreads := None |}.

(** ** Sample data for the queries *)

(** One provider [O] with the range 1..2; with line 1 hovered, the recompute
    splits it into the claims 1..1 and 2..2. *)
Definition splitInfo : ICommentInfo :=
  {| owner := "O"; info_extensionId := None; info_label := None;
     commentingRanges :=
       {| cr_identity := 1; ranges := [mkIRange 1 1 2 1]; fileComments := false |};
     threads := []; pendingCommentThreads := None |}.

Definition splitClaims : CommentingRangeDecorator.t * ICodeEditor * option nat :=
  CommentingRangeDecorator._doUpdate CommentingRangeDecorator.new plainEditor
    [splitInfo] (Some 1) None.

(** Two comment infos of the same owner [O], each with its own
    [commentingRanges] object: lines 1..5 and line 4. *)
Definition infoA : ICommentInfo :=
  {| owner := "O"; info_extensionId := None; info_label := Some "A";
     commentingRanges :=
       {| cr_identity := 1; ranges := [mkIRange 1 1 5 1]; fileComments := false |};
     threads := []; pendingCommentThreads := None |}.

Definition infoB : ICommentInfo :=
  {| owner := "O"; info_extensionId := None; info_label := Some "B";
     commentingRanges :=
       {| cr_identity := 2; ranges := [mkIRange 4 1 4 1]; fileComments := false |};
     threads := []; pendingCommentThreads := None |}.

Definition twoInfoClaims : CommentingRangeDecorator.t * ICodeEditor * option nat :=
  CommentingRangeDecorator._doUpdate CommentingRangeDecorator.new plainEditor
    [infoA; infoB] None None.

(** One provider with the one-line ranges 5 and 10. *)
Definition twoLinesInfo : ICommentInfo :=
  {| owner := "O"; info_extensionId := None; info_label := None;
     commentingRanges :=
       {| cr_identity := 1; ranges := [mkIRange 5 1 5 1; mkIRange 10 1 10 1];
          fileComments := false |};
     threads := []; pendingCommentThreads := None |}.

Definition twoLineClaims : CommentingRangeDecorator.t * ICodeEditor * option nat :=
  CommentingRangeDecorator._doUpdate CommentingRangeDecorator.new plainEditor
    [twoLinesInfo] None None.

(** ** Vocabulary and sample data for the controller *)

(** A controller as its constructor leaves it, on an editor with a model and
    with commenting enabled. *)
Definition sampleServices : Services :=
  {| isCommentingEnabled := true;
     isEditorInlineOriginal := false;
     openView := OpenViewNever;
     commentsViewHasRendered := false;
     continueOnComments := [] |}.

Definition sampleController : CommentController.t :=
  {| CommentController.editor := Some plainEditor;
     CommentController._commentWidgets := [];
     CommentController._commentInfos := [];
     CommentController._commentingRangeDecorator := CommentingRangeDecorator.new;
     CommentController._commentingRangeSpaceReserved := false;
     CommentController._addInProgress := false;
     CommentController._emptyThreadsToAddQueue := [];
     CommentController._pendingNewCommentCache := ∅;
     CommentController._pendingEditsCache := ∅;
     CommentController._editorDisposables := 0;
     CommentController.services := sampleServices;
     CommentController.effects := [] |}.

Import CommentController.

(** The key a thread widget is filed under: owner and thread id. *)
Definition widgetKey (z : ReviewZoneWidget) : string * string :=
  (zone_owner z, threadId (zone_commentThread z)).

(** The new-comment draft cached for thread [t] of owner [o]. *)
Definition lookupDraft (cache : gmap string (gmap string string)) (o t : string)
  : option string :=
  cache !! o ≫= (fun store => store !! t).


Definition lookupEdits (cache : gmap string (gmap string (gmap Z string))) (o t : string)
  : option (gmap Z string) :=
  cache !! o ≫= (fun store => store !! t).

(** The widget [setComments] creates for [thread] of provider [o]. *)
Definition redisplayedZone (news : gmap string (gmap string string))
    (edits : gmap string (gmap string (gmap Z string))) (o : string)
    (thread : CommentThread) : ReviewZoneWidget :=
  let pendingComment := lookupDraft news o (threadId thread) in
  let pendingEdits := lookupEdits edits o (threadId thread) in
  createReviewZoneWidget o
    (if truthy pendingComment || bool_decide (is_Some pendingEdits)
     then thread_expand thread else thread)
    pendingComment pendingEdits.

(** The controller can show thread widgets: its editor has a model and is not
    the original side of an inline diff. *)
Definition displayable (self : t) : Prop :=
  is_Some (editor self ≫= getModel) /\ isEditorInlineOriginal (services self) = false.

(** [self'] has the editor, the services and the draft caches of [self]. *)
Definition keepsDrafts (self self' : t) : Prop :=
  editor self' = editor self
  /\ services self' = services self
  /\ _pendingNewCommentCache self' = _pendingNewCommentCache self
  /\ _pendingEditsCache self' = _pendingEditsCache self.

(** The widgets [setComments] creates for [infos]. *)
Definition redisplayedZones (news : gmap string (gmap string string))
    (edits : gmap string (gmap string (gmap Z string))) (infos : list ICommentInfo)
  : list ReviewZoneWidget :=
  flat_map (fun info =>
              List.map (redisplayedZone news edits (owner info))
                       (List.filter (fun thread => negb (isDisposed thread)) (threads info)))
           infos.


(** A thread of owner [O] whose last submitted comment is "a", and a
    controller showing it with [text] typed into the reply box. *)
Definition threadA : CommentThread :=
  {| thread_identity := 1; threadId := "t1"; resource := Some "file:///a.ts";
     thread_range := Some (mkIRange 3 1 3 1);
     comments := Some [mkComment 1 (BodyString "a")];
     commentThreadHandle := 7; thread_state := Some Unresolved;
     collapsibleState := Some Collapsed; isDisposed := false |}.

Definition infoWithThreadA : ICommentInfo :=
  {| owner := "O"; info_extensionId := None; info_label := None;
     commentingRanges :=
       {| cr_identity := 1; ranges := [mkIRange 1 1 9 1]; fileComments := false |};
     threads := [threadA]; pendingCommentThreads := None |}.

Definition showingThreadA (text : option string) : CommentController.t :=
  CommentController.set_commentWidgets
    (CommentController.set_commentInfos sampleController [infoWithThreadA])
    [zone_type text (createReviewZoneWidget "O" threadA None None)].


(** The widget shows thread [t] of owner [O]. *)
Definition showsThread (O t : string) (w : ReviewZoneWidget) : bool :=
  bool_decide (zone_owner w = O) && bool_decide (threadId (zone_commentThread w) = t).


(** Sample data for the thread updates: the thread "t1" as the provider sends
    it again with a second comment, and two threads with an empty thread id. *)
Definition threadA' : CommentThread :=
  {| thread_identity := 2; threadId := "t1"; resource := Some "file:///a.ts";
     thread_range := Some (mkIRange 3 1 3 1);
     comments := Some [mkComment 1 (BodyString "a"); mkComment 2 (BodyString "b")];
     commentThreadHandle := 7; thread_state := Some Unresolved;
     collapsibleState := Some Collapsed; isDisposed := false |}.





(** * Vocabulary for the further properties *)

(** The action [getMatchedCommentAction] builds for a comment info. *)
Definition infoAction (info : ICommentInfo) : CommentRangeAction :=
  {| ownerId := owner info;
     extensionId := info_extensionId info;
     label := info_label info;
     commentingRangesInfo := commentingRanges info |}.

(** Line [l] of the editor's document carries a marker of the
    commenting-range decorator. *)
Definition lineHostsCommentingRange (editor : ICodeEditor) (l : Z) : Prop :=
  exists model d,
    getModel editor = Some model
    /\ In d (tm_decorations model)
    /\ md_description d = CommentingRangeDecorator_description
    /\ inLines (md_range d) l.

(** No marker of the model carries an id the model has yet to hand out. *)
Definition freshIdsUnused (model : ITextModel) : Prop :=
  forall d k, In d (tm_decorations model) -> (tm_nextDecorationId model <= k)%N ->
              md_id d <> pretty k.

(** [hasCommentsOrRanges] of [tryUpdateReservedSpace]. *)
Definition hasCommentsOrRanges (self : t) : bool :=
  existsb (fun info =>
             let hasRanges :=
               negb (Nat.eqb (length (ranges (commentingRanges info))) 0) in
             hasRanges || negb (Nat.eqb (length (threads info)) 0))
          (_commentInfos self).

(** The pending edits teardown keeps for a widget: those of a widget that
    has any. *)
Definition keptEdits (z : ReviewZoneWidget) : option (gmap Z string) :=
  if bool_decide (zone_edits z = ∅) then None else Some (zone_edits z).

(** [self'] shows widgets for the same (owner, thread id) keys, in the same
    order, as [self]. *)
Definition keepsWidgetKeys (self self' : t) : Prop :=
  List.map widgetKey (_commentWidgets self') = List.map widgetKey (_commentWidgets self).

(** A class name without a space. *)
Fixpoint spaceless (s : string) : bool :=
  match s with
  | EmptyString => true
  | String c s' => negb (Ascii.eqb c Ascii.Space) && spaceless s'
  end.

(** ** Sample data for the further properties *)

Definition sampleModel : ITextModel := mkTextModel "file:///a.ts" [] 0.

(** A fresh decorator updated with the provider of the range 5..10. *)
Definition sampleUpdate : CommentingRangeDecorator.t * option ICodeEditor * option nat :=
  CommentingRangeDecorator.update CommentingRangeDecorator.new (Some plainEditor)
    [sampleInfo] None None.

(** The hover decoration of line 1 that provider [O] of the range 1..2 gets
    when line 1 is hovered, under its marker id. *)
Definition hoverOnLine1 : CommentingRangeDecoration.t :=
  CommentingRangeDecoration.set_id
    (CommentingRangeDecoration.new "O" None None (Range.new 1 1 1 1)
       hoverDecorationOptions (commentingRanges splitInfo) true)
    (Some "0").

(** A controller whose decorator shows the range 5..10 of provider [O]. *)
Definition controllerWithRanges : CommentController.t :=
  decoratorUpdate (set_commentInfos sampleController [sampleInfo]) [sampleInfo].

(** A widget of thread "t1" with a pending edit of its comment 1, and a
    controller showing it. *)
Definition widgetWithEdits : ReviewZoneWidget :=
  createReviewZoneWidget "O" threadA None (Some {[ 1 := "edited" ]}).

Definition showingThreadAWithEdits : CommentController.t :=
  CommentController.set_commentWidgets
    (CommentController.set_commentInfos sampleController [infoWithThreadA])
    [widgetWithEdits].

Definition disabledServices : Services :=
  {| isCommentingEnabled := false;
     isEditorInlineOriginal := false;
     openView := OpenViewNever;
     commentsViewHasRendered := false;
     continueOnComments := [] |}.

(** The mouse goes down on line 3 of the gutter and up on line 5; every line
    is 10 characters long. *)
Definition dragFrom3To5 : MouseUp :=
  {| matchedLineNumber := Some 3;
     target_className := Some "cldr comment-range-glyph comment-diff-added";
     target_lineNumber := Some 5;
     getLineLength := fun _ => 10;
     getSelection := None |}.

(** Editor options before the gutter space is reserved and after the editor
    took the options of the reservation. *)
Definition optionsBefore : EditorOptions :=
  {| opt_lineDecorationsWidth := 10;
     opt_extraEditorClassName := Some "monaco dark";
     opt_folding := true;
     opt_showFoldingControls := "mouseover" |}.

Definition optionsReserved : EditorOptions :=
  {| opt_lineDecorationsWidth := 23;
     opt_extraEditorClassName := Some "monaco dark inline-comment";
     opt_folding := true;
     opt_showFoldingControls := "mouseover" |}.

(** The widget of thread "t1" as [showingThreadA None] shows it. *)
Definition widgetOfThreadA : ReviewZoneWidget :=
  zone_type None (createReviewZoneWidget "O" threadA None None).

(** A second thread of owner [O], on line 8. *)
Definition threadB : CommentThread :=
  {| thread_identity := 7; threadId := "t2"; resource := Some "file:///a.ts";
     thread_range := Some (mkIRange 8 1 8 1);
     comments := Some [mkComment 1 (BodyString "b")];
     commentThreadHandle := 11; thread_state := Some Resolved;
     collapsibleState := Some Collapsed; isDisposed := false |}.

(** Thread "t1", disposed. *)
Definition disposedThreadA : CommentThread :=
  {| thread_identity := 6; threadId := "t1"; resource := Some "file:///a.ts";
     thread_range := Some (mkIRange 3 1 3 1);
     comments := Some [mkComment 1 (BodyString "a")];
     commentThreadHandle := 7; thread_state := Some Unresolved;
     collapsibleState := Some Collapsed; isDisposed := true |}.

(** An update of thread "t1" that lies on another document. *)
Definition threadElsewhere : CommentThread :=
  {| thread_identity := 5; threadId := "t1"; resource := Some "file:///b.ts";
     thread_range := Some (mkIRange 3 1 3 1);
     comments := Some [mkComment 1 (BodyString "a")];
     commentThreadHandle := 7; thread_state := Some Unresolved;
     collapsibleState := Some Collapsed; isDisposed := false |}.

(** A batch of owner [O] whose added and changed thread lie on another
    document. *)
Definition batchElsewhere : CommentThreadChangedEvent :=
  {| ev_owner := "O"; added := [threadElsewhere]; removed := [];
     changed := [threadElsewhere]; pending := [] |}.

(** A batch of an owner the editor has no comment info for. *)
Definition batchOfUnknownOwner : CommentThreadChangedEvent :=
  {| ev_owner := "P"; added := [threadA']; removed := []; changed := []; pending := [] |}.

(** * Facts about ranges *)

Lemma Range_new_startLineNumber sl sc el ec :
  startLineNumber (Range.new sl sc el ec) = Z.min sl el.
Proof.
  unfold Range.new.
  destruct (sl >? el) eqn:Hgt; simpl.
  - apply Z.gtb_lt in Hgt. lia.
  - destruct (sl =? el) eqn:Heq; simpl.
    + apply Z.eqb_eq in Heq. destruct (sc >? ec); simpl; lia.
    + assert (~ sl > el) by (rewrite Z.gtb_ltb, Z.ltb_ge in Hgt; lia). lia.
Qed.

Lemma Range_new_endLineNumber sl sc el ec :
  endLineNumber (Range.new sl sc el ec) = Z.max sl el.
Proof.
  unfold Range.new.
  destruct (sl >? el) eqn:Hgt; simpl.
  - apply Z.gtb_lt in Hgt. lia.
  - destruct (sl =? el) eqn:Heq; simpl.
    + apply Z.eqb_eq in Heq. destruct (sc >? ec); simpl; lia.
    + assert (~ sl > el) by (rewrite Z.gtb_ltb, Z.ltb_ge in Hgt; lia). lia.
Qed.

Lemma Range_new_ordered sl sc el ec :
  startLineNumber (Range.new sl sc el ec) <= endLineNumber (Range.new sl sc el ec).
Proof. rewrite Range_new_startLineNumber, Range_new_endLineNumber. lia. Qed.

Lemma Range_intersectRanges_lines a b r :
  Range.intersectRanges a b = Some r ->
  startLineNumber r = Z.max (startLineNumber a) (startLineNumber b)
  /\ endLineNumber r = Z.min (endLineNumber a) (endLineNumber b)
  /\ startLineNumber r <= endLineNumber r.
Proof.
  unfold Range.intersectRanges.
  destruct (startLineNumber a <? startLineNumber b) eqn:H1;
    [| destruct (startLineNumber a =? startLineNumber b) eqn:H1'];
    (destruct (endLineNumber a >? endLineNumber b) eqn:H2;
     [| destruct (endLineNumber a =? endLineNumber b) eqn:H2']);
    match goal with
    | |- context [?x >? ?y] => destruct (x >? y) eqn:H3; [discriminate |]
    end;
    match goal with
    | |- context [(?x =? ?y) && ?c] => destruct ((x =? y) && c); [discriminate |]
    end;
    intros [= <-];
    rewrite Range_new_startLineNumber, Range_new_endLineNumber;
    rewrite ?Z.ltb_lt, ?Z.ltb_ge, ?Z.eqb_eq, ?Z.eqb_neq, ?Z.gtb_ltb in *;
    lia.
Qed.

Lemma getDecorationRange_ordered model id r :
  getDecorationRange model id = Some r -> startLineNumber r <= endLineNumber r.
Proof.
  unfold getDecorationRange.
  destruct (List.find _ _); simpl; [| discriminate].
  intros [= <-]. apply Range_new_ordered.
Qed.

(** * The range reconciliation engine *)

Section Decorate.

Import CommentingRangeDecorator.

Lemma coveredBy_iff ds l :
  coveredBy ds l <-> exists d, In d ds /\ coversLine d l.
Proof.
  induction ds as [| d ds IH]; simpl.
  - split; [intros [] | intros (d & [] & _)].
  - rewrite IH. split.
    + intros [H | (d' & Hin & H)]; [exists d | exists d']; auto.
    + intros (d' & [<- | Hin] & H); [left | right]; eauto.
Qed.


(** On a one-line range, what [_lineHasThread] finds is a thread glyph on
    that line. *)
Lemma _lineHasThread_found editor r g :
  _lineHasThread editor r = Some g ->
  startLineNumber r = endLineNumber r ->
  lineHostsThreadGlyph editor (startLineNumber r).
Proof.
  unfold _lineHasThread, getDecorationsInRange, lineHostsThreadGlyph, inLines.
  destruct (getModel editor) as [model |]; simpl; [| discriminate].
  intros Hfind Hone. apply find_some in Hfind as [Hin Hdesc].
  apply filter_In in Hin as [Hin Hline].
  apply bool_decide_eq_true in Hdesc.
  unfold linesIntersect in Hline.
  exists model, g. repeat split; auto; lia.
Qed.

Ltac range_lines :=
  unfold Range.collapseToStart, Range.lift in *;
  rewrite ?Range_new_startLineNumber, ?Range_new_endLineNumber in *.

Ltac decoration_lines :=
  unfold coversLine, inLines in *;
  cbn [CommentingRangeDecoration.range CommentingRangeDecoration.new
       CommentingRangeDecoration._startLineNumber
       CommentingRangeDecoration._endLineNumber
       startLineNumber endLineNumber] in *;
  range_lines.

(* Either a thread glyph sits on the one-line emphasis range, or not. *)
Ltac thread_or_not :=
  match goal with
  | |- context [_lineHasThread ?ed ?r] =>
      let Hthread := fresh "Hthread" in
      destruct (_lineHasThread ed r) eqn:Hthread;
      [ apply _lineHasThread_found in Hthread;
        [| range_lines; lia ]
      | clear Hthread ]
  end.

(* A line of the provider range is covered, or it is the line of the withheld
   emphasis sub-range. *)
Ltac solve_cover :=
  let l := fresh "l" in
  let Hl := fresh "Hl" in
  intros l Hl; cbn [coveredBy] in *; decoration_lines;
  rewrite ?Z.min_id, ?Z.max_id in *;
  first
    [ lia
    | left; lia
    | match goal with
      | Hg : lineHostsThreadGlyph _ ?X |- _ =>
          destruct (Z.eq_dec l X) as [-> | ?]; [right; exact Hg | left; lia]
      end ].

Ltac solve_tiling_list :=
  unfold tilesExceptThreadLines; cbn [app]; split;
  [ cbn [pairwiseDisjointByLine]; repeat split;
    try (let d' := fresh "d" in
         let l := fresh "l" in
         let Hin := fresh "Hin" in
         intros d' l Hin; cbn [In] in Hin; intuition idtac; subst d');
    decoration_lines; lia
  | split; solve_cover ].

Ltac solve_tiling :=
  repeat match goal with
         | |- context [if ?c then _ else _] => destruct c eqn:?
         end;
  solve_tiling_list.

Ltac decorateRange_cases Hin :=
  unfold decorateRange in Hin; cbv zeta in Hin;
  repeat match type of Hin with
         | context [match ?x with _ => _ end] => destruct x eqn:?
         end;
  simpl in Hin; intuition idtac; subst.

(** Every decoration pushed by [decorateRange] keeps the line numbers of the
    range it was constructed from, and carries the provider's data. *)
Lemma decorateRange_constructed editor info emphasisLine selectionRange range d :
  In d (decorateRange editor info emphasisLine selectionRange range) ->
  CommentingRangeDecoration._startLineNumber d
  = startLineNumber (CommentingRangeDecoration._range d)
  /\ CommentingRangeDecoration._endLineNumber d
     = endLineNumber (CommentingRangeDecoration._range d)
  /\ CommentingRangeDecoration._ownerId d = owner info
  /\ CommentingRangeDecoration._commentingRangesInfo d = commentingRanges info.
Proof. intros Hin. decorateRange_cases Hin; repeat split. Qed.


(** What [_doUpdate] leaves in [commentingRangeDecorations] when the editor
    has a model: the decorations of [decorateRange], each with its marker
    id set. *)
Lemma _doUpdate_emitted self editor commentInfos emphasisLine selectionRange model d :
  getModel editor = Some model ->
  In d (commentingRangeDecorations
          (_doUpdate self editor commentInfos emphasisLine selectionRange).1.1) ->
  exists info range d0 i,
    In info commentInfos
    /\ In range (ranges (commentingRanges info))
    /\ In d0 (decorateRange editor info
                (default (default (-1) emphasisLine) (_lastSelectionCursor self))
                (match selectionRange with
                 | Some r => Some r
                 | None => _lastSelection self
                 end)
                range)
    /\ d = CommentingRangeDecoration.set_id d0 i.
Proof.
  intros Hmodel. unfold _doUpdate. rewrite Hmodel.
  destruct (deltaDecorations _ _ _) as [model' ids]. simpl.
  intros Hin. apply list_elem_of_In in Hin.
  apply elem_of_lookup_imap in Hin as (i & d0 & -> & Hlook).
  apply list_elem_of_lookup_2, list_elem_of_In in Hlook.
  apply in_flat_map in Hlook as (info & Hinfo & Hlook).
  apply in_flat_map in Hlook as (range & Hrange & Hd0).
  exists info, range, d0, (ids !! i). auto.
Qed.

(** ** Tiling of a provider range *)

(** C1, as stated, fails: with a comment-thread glyph on the emphasis line
    7 the hover sub-range is withheld, and line 7 of the provider range
    5..10 is covered by no emitted sub-range. *)
Lemma decorateRange_gap_on_thread_line :
  ~ tilesByLine (mkIRange 5 1 10 1)
      (decorateRange editorWithThreadOn7 sampleInfo 7 None (mkIRange 5 1 10 1)).
Proof.
  intros [_ Hcover].
  destruct (proj1 (Hcover 7)) as (d & Hin & Hd).
  - unfold inLines; simpl; lia.
  - vm_compute in Hin.
    destruct Hin as [<- | [<- | []]]; unfold coversLine, inLines in Hd; simpl in Hd; lia.
Qed.

(** The tiling of one provider range, up to the withheld emphasis line. *)
Lemma decorateRange_covering editor info emphasisLine selectionRange range :
  startLineNumber range <= endLineNumber range ->
  (forall sel isr,
      selectionRange = Some sel ->
      Range.intersectRanges (Range.lift range) sel = Some isr ->
      0 <= emphasisLine ->
      startLineNumber isr = endLineNumber isr ->
      emphasisLine = startLineNumber isr) ->
  tilesExceptThreadLines editor range
    (decorateRange editor info emphasisLine selectionRange range).
Proof.
  intros Hwf Hmulti.
  unfold decorateRange. cbv zeta.
  match goal with
  | |- context [match selectionRange with Some _ => _ | None => ?o end] =>
      assert (Hother : tilesExceptThreadLines editor range o)
  end.
  { clear Hmulti.
    destruct (andb _ _) eqn:Hin; [| solve_tiling].
    range_lines.
    thread_or_not; range_lines; rewrite ?Z.min_id, ?Z.max_id in *; solve_tiling. }
  destruct selectionRange as [sel |]; [| exact Hother].
  destruct (Range.intersectRanges _ sel) as [isr |] eqn:Hisr; [| exact Hother].
  specialize (Hmulti sel isr eq_refl Hisr).
  apply Range_intersectRanges_lines in Hisr as (Hs & He & Hord).
  rewrite Range_new_startLineNumber in Hs. rewrite Range_new_endLineNumber in He.
  destruct (andb (emphasisLine >=? 0) _) eqn:Hbranch; [| exact Hother].
  clear Hother.
  assert (Hlt : startLineNumber isr < endLineNumber isr) by lia.
  assert (Hlo : startLineNumber range <= startLineNumber isr) by lia.
  assert (Hhi : endLineNumber isr <= endLineNumber range) by lia.
  clear Hs He Hmulti Hbranch Hord.
  destruct (emphasisLine <=? startLineNumber isr) eqn:Hside; clear Hside.
  all: thread_or_not; range_lines.
  all: rewrite ?Z.min_id, ?Z.max_id, ?(Z.min_l _ _ Hwf), ?(Z.max_r _ _ Hwf) in *.
  all: rewrite ?(Z.min_l (startLineNumber isr + 1) (endLineNumber isr)),
               ?(Z.max_r (startLineNumber isr + 1) (endLineNumber isr)),
               ?(Z.min_l (startLineNumber isr) (endLineNumber isr - 1)),
               ?(Z.max_r (startLineNumber isr) (endLineNumber isr - 1)) by lia.
  all: solve_tiling.
Qed.

(** C1 (amended): for every provider range [range], every selection and
    every emphasis line, the sub-ranges emitted for [range] are pairwise
    disjoint by line, lie within [range] and cover every line of [range]
    that hosts no comment-thread glyph; so they tile [range] exactly when
    none of its lines hosts a thread glyph.  This holds in the plain, the
    single-emphasis-line and the multiline-selection branch; the multiline
    branch is covered where the selection shares more than one line with
    [range] (a one-line intersection with the emphasis line elsewhere is left
    out). *)
Theorem decorateRange_tiles editor info emphasisLine selectionRange range :
  startLineNumber range <= endLineNumber range ->
  (forall sel isr,
      selectionRange = Some sel ->
      Range.intersectRanges (Range.lift range) sel = Some isr ->
      0 <= emphasisLine ->
      startLineNumber isr = endLineNumber isr ->
      emphasisLine = startLineNumber isr) ->
  tilesExceptThreadLines editor range
    (decorateRange editor info emphasisLine selectionRange range)
  /\ ((forall l, inLines range l -> ~ lineHostsThreadGlyph editor l) ->
      tilesByLine range (decorateRange editor info emphasisLine selectionRange range)).
Proof.
  intros Hwf Hmulti.
  pose proof (decorateRange_covering editor info emphasisLine selectionRange range
                Hwf Hmulti) as Htiles.
  split; [exact Htiles |].
  destruct Htiles as (Hdisjoint & Hwithin & Hcover).
  intros Hglyph. split; [exact Hdisjoint |].
  intros l. rewrite <- coveredBy_iff. split.
  - intros Hl. destruct (Hcover l Hl) as [Hc | Hg]; [exact Hc |].
    exfalso. exact (Hglyph l Hl Hg).
  - apply Hwithin.
Qed.

(** The amended C1 at work: lines 5..10 with a thread glyph on line 7, the
    selection 6..9 with the cursor on line 9.  The multiline branch emits
    6..8, 9, 5 and 10. *)
Lemma decorateRange_tiles_witness :
  tilesExceptThreadLines editorWithThreadOn7 (mkIRange 5 1 10 1)
    (decorateRange editorWithThreadOn7 sampleInfo 9 (Some (mkIRange 6 3 9 4))
                   (mkIRange 5 1 10 1))
  /\ ((forall l, inLines (mkIRange 5 1 10 1) l ->
                 ~ lineHostsThreadGlyph editorWithThreadOn7 l) ->
      tilesByLine (mkIRange 5 1 10 1)
        (decorateRange editorWithThreadOn7 sampleInfo 9 (Some (mkIRange 6 3 9 4))
                       (mkIRange 5 1 10 1))).
Proof.
  apply decorateRange_tiles.
  - simpl. lia.
  - intros sel isr [= <-]. vm_compute. intros [= <-]. simpl. lia.
Defined.

(** The case the amended C1 leaves out, evaluated: the selection 1..5 shares
    the single line 5 with the range 5..10 while the cursor is on line 1;
    the multiline branch is taken and emits 5..6, 5 and 7..10, where line 5
    is drawn twice. *)
Example decorateRange_one_line_intersection :
  List.map (fun d => (startLineNumber (CommentingRangeDecoration.range d),
                      endLineNumber (CommentingRangeDecoration.range d),
                      CommentingRangeDecoration.options d))
           (decorateRange plainEditor sampleInfo 1 (Some (mkIRange 1 1 5 5))
                          (mkIRange 5 1 10 1))
  = [(5, 6, multilineDecorationOptions); (5, 5, hoverDecorationOptions);
     (7, 10, decorationOptions)].
Proof. reflexivity. Qed.

(** ** Thread glyphs and emphasis glyphs exclude each other *)



(** ** Decorations are whole-line *)

Lemma CommentingRangeDecoration_range_of_new
    ownerId extensionId label range options info isHover id :
  CommentingRangeDecoration.range
    (CommentingRangeDecoration.set_id
       (CommentingRangeDecoration.new ownerId extensionId label range options info isHover)
       id)
  = mkIRange (startLineNumber range) 1 (endLineNumber range) 1.
Proof. reflexivity. Qed.

(** C10: every decoration a recompute emits hands the editor a range with
    start column 1 and end column 1 that keeps only the start and end line
    of the range the decoration was constructed from, whatever the columns
    of that range are. *)
Theorem emitted_decoration_is_line_granular
    self editor commentInfos emphasisLine selectionRange model d :
  getModel editor = Some model ->
  In d (commentingRangeDecorations
          (_doUpdate self editor commentInfos emphasisLine selectionRange).1.1) ->
  CommentingRangeDecoration.range d
  = mkIRange (startLineNumber (CommentingRangeDecoration.getOriginalRange d)) 1
             (endLineNumber (CommentingRangeDecoration.getOriginalRange d)) 1.
Proof.
  intros Hmodel Hin.
  apply (_doUpdate_emitted _ _ _ _ _ model) in Hin
    as (info & range & d0 & i & _ & _ & Hd0 & ->); [| exact Hmodel].
  apply decorateRange_constructed in Hd0 as (Hs & He & _).
  unfold CommentingRangeDecoration.range, CommentingRangeDecoration.getOriginalRange.
  simpl. rewrite Hs, He. reflexivity.
Qed.

(** C10 at work: the provider range (5,4)-(10,9) is decorated as
    (5,1)-(10,1). *)
Lemma emitted_decoration_is_line_granular_witness :
  CommentingRangeDecoration.range
    (CommentingRangeDecoration.set_id
       (CommentingRangeDecoration.new "O" None None (mkIRange 5 4 10 9)
          decorationOptions (commentingRanges columnsInfo) false)
       (Some "0"))
  = mkIRange 5 1 10 1.
Proof.
  apply (emitted_decoration_is_line_granular
           CommentingRangeDecorator.new plainEditor [columnsInfo] None None
           (mkTextModel "file:///a.ts" [] 0)).
  - reflexivity.
  - vm_compute. left. reflexivity.
Defined.

End Decorate.

(** * The hit-test query [getMatchedCommentAction] *)

Section MatchedAction.

Import CommentingRangeDecorator.

Lemma map_get_set_eq k v m : map_get k (map_set k v m) = Some v.
Proof.
  unfold map_get. induction m as [| e m IH]; simpl.
  - rewrite bool_decide_eq_true_2; reflexivity.
  - destruct (bool_decide (fst e = k)) eqn:He; simpl.
    + rewrite bool_decide_eq_true_2; reflexivity.
    + rewrite He. exact IH.
Qed.

Lemma map_get_set_ne k k' v m : k <> k' -> map_get k' (map_set k v m) = map_get k' m.
Proof.
  intros Hne. unfold map_get. induction m as [| e m IH]; simpl.
  - rewrite bool_decide_eq_false_2; [reflexivity | exact Hne].
  - destruct (bool_decide (fst e = k)) eqn:He; simpl.
    + apply bool_decide_eq_true in He.
      rewrite !bool_decide_eq_false_2; [reflexivity | congruence | exact Hne].
    + destruct (bool_decide (fst e = k')); [reflexivity | exact IH].
Qed.

Lemma map_set_keys k v m k' :
  In k' (List.map fst (map_set k v m)) <-> k' = k \/ In k' (List.map fst m).
Proof.
  induction m as [| e m IH]; simpl.
  - intuition.
  - destruct (bool_decide (fst e = k)) eqn:He; simpl.
    + apply bool_decide_eq_true in He. rewrite He. intuition.
    + rewrite IH. intuition.
Qed.

Lemma map_set_wf k v m :
  ownerId (snd v) = k -> wfFound m -> wfFound (map_set k v m).
Proof.
  intros Hk [Hnd Hall]. split.
  - induction m as [| e m IH]; simpl.
    + constructor; [intros [] | constructor].
    + simpl in Hnd. apply List.NoDup_cons_iff in Hnd as [Hnotin Hnd'].
      apply Forall_cons_iff in Hall as [_ Hall'].
      destruct (bool_decide (fst e = k)) eqn:He; simpl.
      * apply bool_decide_eq_true in He. rewrite <- He. constructor; assumption.
      * apply bool_decide_eq_false in He.
        constructor; [| apply IH; assumption].
        rewrite map_set_keys. intros [Heq | Hin]; [apply He; exact Heq | contradiction].
  - induction m as [| e m IH]; simpl.
    + repeat constructor. exact Hk.
    + simpl in Hnd. apply List.NoDup_cons_iff in Hnd as [Hnotin Hnd'].
      apply Forall_cons_iff in Hall as [He' Hall'].
      destruct (bool_decide (fst e = k)); constructor; auto.
Qed.

Lemma matchDecoration_wf editor H found d found' :
  wfFound found -> matchDecoration editor H found d = Ok found' -> wfFound found'.
Proof.
  intros Hwf. unfold matchDecoration.
  destruct (CommentingRangeDecoration.getActiveRange editor d) as [[range |] | err]; simpl;
    [| intros [= <-]; exact Hwf | discriminate].
  destruct (areRangesIntersectingOrTouchingByLine range H); [| intros [= <-]; exact Hwf].
  destruct (map_get _ found) as [already |];
    [destruct (sameObject _ _) |]; intros [= <-]; apply map_set_wf; auto.
Qed.

Lemma matchDecorations_wf editor H ds : forall found found',
  wfFound found -> matchDecorations editor H found ds = Ok found' -> wfFound found'.
Proof.
  induction ds as [| d ds IH]; simpl; intros found found' Hwf.
  - intros [= <-]. exact Hwf.
  - destruct (matchDecoration editor H found d) as [found1 | err] eqn:Hstep; simpl;
      [| discriminate].
    apply IH. eapply matchDecoration_wf; eauto.
Qed.

Lemma NoDup_map_filter {A B} (f : A -> B) (p : A -> bool) (l : list A) :
  List.NoDup (List.map f l) -> List.NoDup (List.map f (List.filter p l)).
Proof.
  induction l as [| x l IH]; simpl; intros Hnd; [constructor |].
  apply List.NoDup_cons_iff in Hnd as [Hnotin Hnd'].
  destruct (p x); simpl; [constructor |]; auto.
  intros Hin. apply Hnotin.
  apply in_map_iff in Hin as (y & Hy & Hin).
  apply filter_In in Hin as [Hin _].
  apply in_map_iff. eauto.
Qed.

Lemma getMatchedCommentAction_Some self editor H :
  getMatchedCommentAction self editor (Some H)
  = bindR (matchDecorations editor H [] (commentingRangeDecorations self))
      (fun found => Ok (List.map snd (List.filter (containsHit H) (List.map snd found)))).
Proof. reflexivity. Qed.

Lemma owners_of_result H found :
  wfFound found ->
  List.map ownerId (List.map snd (List.filter (containsHit H) (List.map snd found)))
  = List.map fst (List.filter (fun e => containsHit H (snd e)) found).
Proof.
  intros [_ Hall]. induction found as [| e m IH]; simpl; [reflexivity |].
  apply Forall_cons_iff in Hall as [He Hall'].
  destruct (containsHit H (snd e)); simpl; rewrite IH; auto.
  rewrite He. reflexivity.
Qed.

Lemma matchDecorations_app editor H ds1 ds2 : forall found,
  matchDecorations editor H found (ds1 ++ ds2)
  = bindR (matchDecorations editor H found ds1)
          (fun found' => matchDecorations editor H found' ds2).
Proof.
  induction ds1 as [| d ds1 IH]; simpl; intros found; [reflexivity |].
  destruct (matchDecoration editor H found d); simpl; [apply IH | reflexivity].
Qed.

Lemma getActiveRange_model editor model d :
  getModel editor = Some model ->
  CommentingRangeDecoration.getActiveRange editor d = Ok (activeRangeOf editor d).
Proof.
  intros Hm. unfold activeRangeOf, CommentingRangeDecoration.getActiveRange.
  rewrite Hm. destruct (CommentingRangeDecoration.id d) as [i |]; [| reflexivity].
  destruct (bool_decide (i = "")); reflexivity.
Qed.

Lemma activeRangeOf_ordered editor d r :
  activeRangeOf editor d = Some r -> startLineNumber r <= endLineNumber r.
Proof.
  unfold activeRangeOf, CommentingRangeDecoration.getActiveRange.
  destruct (CommentingRangeDecoration.id d) as [i |]; [| discriminate].
  destruct (bool_decide (i = "")); [discriminate |].
  destruct (getModel editor) as [model |]; [| discriminate].
  apply getDecorationRange_ordered.
Qed.

Lemma activeRangeOf_no_model editor d :
  getModel editor = None -> activeRangeOf editor d = None.
Proof.
  intros Hm. unfold activeRangeOf, CommentingRangeDecoration.getActiveRange.
  rewrite Hm. destruct (CommentingRangeDecoration.id d) as [i |]; [| reflexivity].
  destruct (bool_decide (i = "")); reflexivity.
Qed.

Lemma touchingDecorations_app editor H O ds1 ds2 :
  touchingDecorations editor H O (ds1 ++ ds2)
  = touchingDecorations editor H O ds1 ++ touchingDecorations editor H O ds2.
Proof. apply List.filter_app. Qed.

Lemma touchingClaims_app editor H O ds1 ds2 :
  touchingClaims editor H O (ds1 ++ ds2)
  = touchingClaims editor H O ds1 ++ touchingClaims editor H O ds2.
Proof. unfold touchingClaims. rewrite touchingDecorations_app. apply omap_app. Qed.

Lemma touchingDecorations_snoc editor H O ds d :
  touchingDecorations editor H O (ds ++ [d])
  = touchingDecorations editor H O ds
    ++ (if bool_decide (CommentingRangeDecoration._ownerId d = O) && touchesHit editor H d
        then [d] else []).
Proof. rewrite touchingDecorations_app. reflexivity. Qed.

Lemma touchingClaims_snoc editor H O ds d :
  touchingClaims editor H O (ds ++ [d])
  = touchingClaims editor H O ds
    ++ (if bool_decide (CommentingRangeDecoration._ownerId d = O) && touchesHit editor H d
        then match activeRangeOf editor d with Some r => [r] | None => [] end
        else []).
Proof.
  rewrite touchingClaims_app. f_equal.
  unfold touchingClaims, touchingDecorations. cbn [List.filter].
  destruct (_ && _); [| reflexivity].
  simpl. destruct (activeRangeOf editor d); reflexivity.
Qed.

Lemma In_snoc {A} (x y : A) l : In x (l ++ [y]) <-> In x l \/ x = y.
Proof. rewrite in_app_iff. simpl. intuition. Qed.

Lemma matchDecoration_merged editor model H O ds d found :
  getModel editor = Some model ->
  wfFound found ->
  mergedFor editor H O ds found ->
  (forall d0, In d0 (touchingDecorations editor H O ds) ->
              CommentingRangeDecoration._ownerId d = O ->
              touchesHit editor H d = true ->
              cr_identity (CommentingRangeDecoration._commentingRangesInfo d0)
              = cr_identity (CommentingRangeDecoration._commentingRangesInfo d)) ->
  exists found', matchDecoration editor H found d = Ok found'
                 /\ wfFound found' /\ mergedFor editor H O (ds ++ [d]) found'.
Proof.
  intros Hmodel Hwf Hmerged Hsame.
  unfold matchDecoration. rewrite (getActiveRange_model _ _ _ Hmodel). simpl.
  unfold mergedFor in *.
  rewrite touchingDecorations_snoc, touchingClaims_snoc.
  unfold touchesHit in *.
  destruct (activeRangeOf editor d) as [range |] eqn:Hrange.
  2:{ rewrite andb_false_r, !app_nil_r. exists found. auto. }
  destruct (areRangesIntersectingOrTouchingByLine range H) eqn:Htouch.
  2:{ rewrite andb_false_r, !app_nil_r. exists found. auto. }
  rewrite andb_true_r.
  pose proof (activeRangeOf_ordered _ _ _ Hrange) as Hord.
  cbn [CommentingRangeDecoration.getCommentAction ownerId commentingRangesInfo].
  destruct (bool_decide (CommentingRangeDecoration._ownerId d = O)) eqn:Howner.
  - apply bool_decide_eq_true in Howner. rewrite Howner.
    destruct (map_get O found) as [[r0 a0] |] eqn:Hget.
    + destruct Hmerged as (Hord0 & Hlo & Hhi & d0 & Hd0 & Hinfo).
      cbn [fst snd]. rewrite Hinfo.
      unfold sameObject.
      rewrite bool_decide_eq_true_2 by (apply Hsame; auto).
      eexists. split; [reflexivity |]. split; [apply map_set_wf; auto |].
      rewrite map_get_set_eq.
      rewrite Range_new_startLineNumber, Range_new_endLineNumber.
      destruct (startLineNumber range <? startLineNumber r0) eqn:Hlt;
        destruct (endLineNumber range >? endLineNumber r0) eqn:Hgt.
      all: split; [lia |]; split; [| split].
      all: try (exists d; split; [apply In_snoc; auto | reflexivity]).
      all: intros x; setoid_rewrite In_snoc; specialize (Hlo x); specialize (Hhi x).
      all: match goal with
           | |- Z.min _ _ <= _ <-> _ =>
               split;
               [ intros Hx;
                 destruct (Z_le_gt_dec (startLineNumber r0) x) as [Hle | Hnle];
                 [ apply Hlo in Hle as (r' & Hin & Hle); exists r'; auto
                 | exists range; split; [auto | lia] ]
               | intros (r' & [Hin | ->] & Hle); [| lia];
                 assert (startLineNumber r0 <= x) by (apply Hlo; eauto); lia ]
           | |- _ <= Z.max _ _ <-> _ =>
               split;
               [ intros Hx;
                 destruct (Z_le_gt_dec x (endLineNumber r0)) as [Hle | Hnle];
                 [ apply Hhi in Hle as (r' & Hin & Hle); exists r'; auto
                 | exists range; split; [auto | lia] ]
               | intros (r' & [Hin | ->] & Hle); [| lia];
                 assert (x <= endLineNumber r0) by (apply Hhi; eauto); lia ]
           end.
    + eexists. split; [reflexivity |]. split; [apply map_set_wf; auto |].
      rewrite map_get_set_eq. unfold touchingClaims. rewrite Hmerged. simpl.
      split; [exact Hord |]. split; [| split].
      * intros x. split; [intros; exists range; simpl; auto |].
        intros (r' & [<- | []] & Hle). exact Hle.
      * intros x. split; [intros; exists range; simpl; auto |].
        intros (r' & [<- | []] & Hle). exact Hle.
      * exists d. split; [left |]; reflexivity.
  - apply bool_decide_eq_false in Howner. cbn [andb]. rewrite !app_nil_r.
    assert (Hstep : forall v, map_get O (map_set (CommentingRangeDecoration._ownerId d) v found)
                              = map_get O found)
      by (intros v; apply map_get_set_ne; exact Howner).
    destruct (map_get (CommentingRangeDecoration._ownerId d) found) as [already |];
      [destruct (sameObject _ _) |];
      (eexists; split; [reflexivity |]; split; [apply map_set_wf; auto |]);
      rewrite Hstep; exact Hmerged.
Qed.

Lemma matchDecorations_merged editor model H O decs :
  getModel editor = Some model ->
  (forall d d', In d (touchingDecorations editor H O decs) ->
                In d' (touchingDecorations editor H O decs) ->
                cr_identity (CommentingRangeDecoration._commentingRangesInfo d)
                = cr_identity (CommentingRangeDecoration._commentingRangesInfo d')) ->
  forall ds rest, decs = ds ++ rest ->
  exists found, matchDecorations editor H [] ds = Ok found
                /\ wfFound found /\ mergedFor editor H O ds found.
Proof.
  intros Hmodel Hsame ds.
  induction ds as [| d ds IH] using rev_ind; intros rest Hdecs.
  - exists []. repeat split; constructor.
  - rewrite <- app_assoc in Hdecs.
    destruct (IH _ Hdecs) as (found & Hfold & Hwf & Hmerged).
    destruct (matchDecoration_merged editor model H O ds d found Hmodel Hwf Hmerged)
      as (found' & Hstep & Hwf' & Hmerged').
    + intros d0 Hd0 Howner Htouch. apply Hsame.
      * rewrite Hdecs, touchingDecorations_app. apply in_app_iff. auto.
      * rewrite Hdecs, !touchingDecorations_app. apply in_app_iff. right.
        apply in_app_iff. left. unfold touchingDecorations. cbn [List.filter].
        rewrite bool_decide_eq_true_2, Htouch by exact Howner. left. reflexivity.
    + exists found'. rewrite matchDecorations_app, Hfold. simpl.
      rewrite Hstep. auto.
Qed.

Lemma map_get_In k v m :
  wfFound m -> map_get k m = Some v <-> In (k, v) m.
Proof.
  intros [Hnd _]. unfold map_get.
  induction m as [| e m IH]; simpl.
  - split; [discriminate | intros []].
  - simpl in Hnd. apply List.NoDup_cons_iff in Hnd as [Hnotin Hnd'].
    destruct (bool_decide (fst e = k)) eqn:He; simpl.
    + apply bool_decide_eq_true in He. split.
      * intros [= <-]. left. destruct e; simpl in *; congruence.
      * intros [-> | Hin]; [reflexivity |].
        exfalso. apply Hnotin. rewrite He. apply (in_map fst) in Hin. exact Hin.
    + apply bool_decide_eq_false in He. rewrite (IH Hnd'). split; [auto |].
      intros [-> | Hin]; [exfalso; apply He; reflexivity | exact Hin].
Qed.

Lemma ownerReturned_iff self editor H O found :
  matchDecorations editor H [] (commentingRangeDecorations self) = Ok found ->
  wfFound found ->
  ownerReturned (getMatchedCommentAction self editor (Some H)) O
  <-> exists entry, map_get O found = Some entry /\ containsHit H entry = true.
Proof.
  intros Hfold Hwf. unfold ownerReturned.
  rewrite getMatchedCommentAction_Some, Hfold. simpl.
  split.
  - intros (actions & [= <-] & Hin).
    rewrite owners_of_result in Hin by exact Hwf.
    apply in_map_iff in Hin as ([k v] & Hk & Hin). simpl in Hk. subst k.
    apply filter_In in Hin as [Hin Hp].
    exists v. split; [apply map_get_In; assumption | exact Hp].
  - intros (entry & Hget & Hp).
    eexists. split; [reflexivity |].
    rewrite owners_of_result by exact Hwf.
    apply in_map_iff. exists (O, entry). split; [reflexivity |].
    apply filter_In. split; [apply map_get_In; assumption | exact Hp].
Qed.

Lemma matchDecorations_no_model editor H ds : forall found found',
  getModel editor = None ->
  matchDecorations editor H found ds = Ok found' -> found' = found.
Proof.
  induction ds as [| d ds IH]; simpl; intros found found' Hm.
  - intros [= <-]. reflexivity.
  - unfold matchDecoration, CommentingRangeDecoration.getActiveRange. rewrite Hm.
    destruct (CommentingRangeDecoration.id d) as [i |];
      [destruct (bool_decide (i = "")) |]; simpl; try discriminate; apply IH; exact Hm.
Qed.

(** C2, as stated, fails: owner [O] has the claim 1..5 from one
    [commentingRangesInfo] and the claim 4..4 from another; both touch the
    hit range 2..3 and their union 1..5 (also the union of the claims of the
    first info alone) contains it, yet the later claim replaces the earlier
    one in the accumulator and [O] is not returned. *)
Lemma getMatchedCommentAction_later_info_hides_union :
  ~ (ownerReturned
       (getMatchedCommentAction twoInfoClaims.1.1 twoInfoClaims.1.2
                                (Some (mkIRange 2 1 3 1))) "O"
     <-> boundingUnionContains
           (touchingClaims twoInfoClaims.1.2 (mkIRange 2 1 3 1) "O"
              (commentingRangeDecorations twoInfoClaims.1.1))
           (mkIRange 2 1 3 1)).
Proof.
  intros [_ Hback].
  destruct Hback as (actions & Hres & Hin).
  - split; exists (mkIRange 1 1 5 1); (split; [vm_compute; auto | simpl; lia]).
  - vm_compute in Hres. injection Hres as <-. destruct Hin.
Qed.

(** C2 (amended): for every defined hit range [H] and every owner [O] whose
    claims touching [H] all carry the same [commentingRangesInfo] object,
    [O] appears in the result iff the bounding union of the claims of [O]
    that touch or intersect [H] by line contains both end lines of [H]. *)
Theorem getMatchedCommentAction_merge self editor H O :
  (forall d d',
      In d (touchingDecorations editor H O (commentingRangeDecorations self)) ->
      In d' (touchingDecorations editor H O (commentingRangeDecorations self)) ->
      cr_identity (CommentingRangeDecoration._commentingRangesInfo d)
      = cr_identity (CommentingRangeDecoration._commentingRangesInfo d')) ->
  ownerReturned (getMatchedCommentAction self editor (Some H)) O
  <-> boundingUnionContains
        (touchingClaims editor H O (commentingRangeDecorations self)) H.
Proof.
  intros Hsame.
  destruct (getModel editor) as [model |] eqn:Hmodel.
  - destruct (matchDecorations_merged editor model H O _ Hmodel Hsame
                (commentingRangeDecorations self) [] (eq_sym (app_nil_r _)))
      as (found & Hfold & Hwf & Hmerged).
    rewrite (ownerReturned_iff _ _ _ _ found Hfold Hwf).
    unfold mergedFor in Hmerged. unfold boundingUnionContains, containsHit.
    destruct (map_get O found) as [[r a] |].
    + destruct Hmerged as (_ & Hlo & Hhi & _).
      rewrite <- Hlo, <- Hhi. split.
      * intros (entry & [= <-] & Hp). simpl in Hp. lia.
      * intros [H1 H2]. exists (r, a). split; [reflexivity |]. simpl. lia.
    + unfold touchingClaims. rewrite Hmerged. simpl. split.
      * intros (entry & Hget & _). discriminate.
      * intros [(r & [] & _) _].
  - assert (Hnone : touchingDecorations editor H O (commentingRangeDecorations self) = []).
    { clear Hsame. unfold touchingDecorations, touchesHit.
      induction (commentingRangeDecorations self) as [| d ds IH]; simpl; [reflexivity |].
      rewrite (activeRangeOf_no_model _ _ Hmodel), andb_false_r. exact IH. }
    unfold boundingUnionContains, touchingClaims. rewrite Hnone. split.
    + intros (actions & Hres & Hin). exfalso.
      rewrite getMatchedCommentAction_Some in Hres.
      destruct (matchDecorations _ _ _ _) as [found | err] eqn:Hfold; [| discriminate].
      apply matchDecorations_no_model in Hfold; [| exact Hmodel]. subst found.
      simpl in Hres. injection Hres as <-. destruct Hin.
    + intros [(r & [] & _) _].
Qed.

(** The amended C2 at work on the claims 1..1 and 2..2 of owner [O] and the
    hit range 1..2. *)
Lemma getMatchedCommentAction_merge_witness :
  ownerReturned
    (getMatchedCommentAction splitClaims.1.1 splitClaims.1.2 (Some (mkIRange 1 1 2 1))) "O"
  <-> boundingUnionContains
        (touchingClaims splitClaims.1.2 (mkIRange 1 1 2 1) "O"
           (commentingRangeDecorations splitClaims.1.1))
        (mkIRange 1 1 2 1).
Proof.
  apply (getMatchedCommentAction_merge splitClaims.1.1 splitClaims.1.2
           (mkIRange 1 1 2 1) "O").
  vm_compute. intros d d' [<- | [<- | []]] [<- | [<- | []]]; reflexivity.
Defined.

(** The claims 1..1 and 2..2 of owner [O] merge to 1..2: the hit range 1..2
    returns [O], the hit range 1..3 does not. *)
Example getMatchedCommentAction_claims_1_and_2 :
  List.map (fun d => (startLineNumber <$> activeRangeOf splitClaims.1.2 d,
                      endLineNumber <$> activeRangeOf splitClaims.1.2 d))
           (commentingRangeDecorations splitClaims.1.1)
  = [(Some 1, Some 1); (Some 2, Some 2)]
  /\ getMatchedCommentAction splitClaims.1.1 splitClaims.1.2 (Some (mkIRange 1 1 2 1))
     = Ok [ {| ownerId := "O"; extensionId := None; label := None;
               commentingRangesInfo := commentingRanges splitInfo |} ]
  /\ getMatchedCommentAction splitClaims.1.1 splitClaims.1.2 (Some (mkIRange 1 1 3 1))
     = Ok [].
Proof. repeat split; vm_compute; reflexivity. Qed.

(** The merged range is a bounding union: the claims 5..5 and 10..10 of one
    provider both touch the hit range 6..9 and merge to 5..10, which contains
    it. *)
Example getMatchedCommentAction_bounding_union :
  getMatchedCommentAction twoLineClaims.1.1 twoLineClaims.1.2 (Some (mkIRange 6 1 9 1))
  = Ok [ {| ownerId := "O"; extensionId := None; label := None;
            commentingRangesInfo := commentingRanges twoLinesInfo |} ].
Proof. vm_compute. reflexivity. Qed.

(** ** One action per owner *)

Lemma getMatchedCommentAction_snoc self editor H ds d found :
  commentingRangeDecorations self = ds ++ [d] ->
  matchDecorations editor H [] ds = Ok found ->
  getMatchedCommentAction self editor (Some H)
  = bindR (matchDecoration editor H found d)
      (fun found' => Ok (List.map snd (List.filter (containsHit H) (List.map snd found')))).
Proof.
  intros Hdecs Hfold.
  rewrite getMatchedCommentAction_Some, Hdecs, matchDecorations_app, Hfold. simpl.
  destruct (matchDecoration editor H found d); reflexivity.
Qed.

(** C9: for a defined hit range the result of [getMatchedCommentAction]
    never holds two actions of the same owner.  A claim that touches the hit
    range while the accumulator holds, for the same owner, an entry of a
    different [commentingRangesInfo] object replaces that entry with its own
    range and action; when it is the last claim scanned, the owner is
    returned iff the hit range fits in this one claim, and the action
    returned for the owner is the claim's. *)
Theorem getMatchedCommentAction_one_action_per_owner self editor H :
  (forall actions,
      getMatchedCommentAction self editor (Some H) = Ok actions ->
      List.NoDup (List.map ownerId actions))
  /\ (forall d range found already,
        CommentingRangeDecoration.getActiveRange editor d = Ok (Some range) ->
        areRangesIntersectingOrTouchingByLine range H = true ->
        map_get (CommentingRangeDecoration._ownerId d) found = Some already ->
        sameObject (commentingRangesInfo (snd already))
                   (CommentingRangeDecoration._commentingRangesInfo d) = false ->
        matchDecoration editor H found d
        = Ok (map_set (CommentingRangeDecoration._ownerId d)
                      (range, CommentingRangeDecoration.getCommentAction d) found))
  /\ (forall ds d range found already,
        commentingRangeDecorations self = ds ++ [d] ->
        matchDecorations editor H [] ds = Ok found ->
        CommentingRangeDecoration.getActiveRange editor d = Ok (Some range) ->
        areRangesIntersectingOrTouchingByLine range H = true ->
        map_get (CommentingRangeDecoration._ownerId d) found = Some already ->
        sameObject (commentingRangesInfo (snd already))
                   (CommentingRangeDecoration._commentingRangesInfo d) = false ->
        (ownerReturned (getMatchedCommentAction self editor (Some H))
                       (CommentingRangeDecoration._ownerId d)
         <-> startLineNumber range <= startLineNumber H
             /\ endLineNumber H <= endLineNumber range)
        /\ (forall actions a,
              getMatchedCommentAction self editor (Some H) = Ok actions ->
              In a actions ->
              ownerId a = CommentingRangeDecoration._ownerId d ->
              a = CommentingRangeDecoration.getCommentAction d)).
Proof.
  assert (Hreplace : forall d range found already,
             CommentingRangeDecoration.getActiveRange editor d = Ok (Some range) ->
             areRangesIntersectingOrTouchingByLine range H = true ->
             map_get (CommentingRangeDecoration._ownerId d) found = Some already ->
             sameObject (commentingRangesInfo (snd already))
                        (CommentingRangeDecoration._commentingRangesInfo d) = false ->
             matchDecoration editor H found d
             = Ok (map_set (CommentingRangeDecoration._ownerId d)
                           (range, CommentingRangeDecoration.getCommentAction d) found)).
  { intros d range found already Hact Htouch Hget Hinfo.
    unfold matchDecoration. rewrite Hact. simpl. rewrite Htouch.
    cbn [CommentingRangeDecoration.getCommentAction ownerId commentingRangesInfo].
    rewrite Hget, Hinfo. reflexivity. }
  split; [| split; [exact Hreplace |]].
  - intros actions. rewrite getMatchedCommentAction_Some.
    destruct (matchDecorations _ _ _ _) as [found | err] eqn:Hfold; simpl; [| discriminate].
    intros [= <-].
    assert (Hwf : wfFound found).
    { eapply matchDecorations_wf; [| exact Hfold]. split; constructor. }
    rewrite owners_of_result by exact Hwf.
    apply NoDup_map_filter. apply Hwf.
  - intros ds d range found already Hdecs Hfold Hact Htouch Hget Hinfo.
    assert (Hwf : wfFound found).
    { eapply matchDecorations_wf; [| exact Hfold]. split; constructor. }
    pose proof (Hreplace d range found already Hact Htouch Hget Hinfo) as Hstep.
    set (found' := map_set (CommentingRangeDecoration._ownerId d)
                           (range, CommentingRangeDecoration.getCommentAction d) found) in *.
    assert (Hwf' : wfFound found') by (apply map_set_wf; auto).
    assert (Hall : matchDecorations editor H [] (commentingRangeDecorations self)
                   = Ok found').
    { rewrite Hdecs, matchDecorations_app, Hfold. simpl. rewrite Hstep. reflexivity. }
    split.
    + rewrite (ownerReturned_iff _ _ _ _ found' Hall Hwf').
      unfold found'. rewrite map_get_set_eq. unfold containsHit. split.
      * intros (entry & [= <-] & Hp). simpl in Hp. lia.
      * intros Hfit. eexists. split; [reflexivity |]. simpl. lia.
    + intros actions a Hres Hin Howner.
      rewrite getMatchedCommentAction_Some, Hall in Hres. simpl in Hres.
      injection Hres as <-.
      apply in_map_iff in Hin as ([r a'] & Ha & Hin). simpl in Ha. subst a'.
      apply filter_In in Hin as [Hin _].
      apply in_map_iff in Hin as ([k v] & Hv & Hin). simpl in Hv. subst v.
      pose proof Hwf' as [_ Hkeys].
      rewrite List.Forall_forall in Hkeys. specialize (Hkeys _ Hin). simpl in Hkeys.
      rewrite Howner in Hkeys. subst k.
      apply (map_get_In _ _ _ Hwf') in Hin.
      unfold found' in Hin. rewrite map_get_set_eq in Hin.
      injection Hin as _ <-. reflexivity.
Qed.

(** C9 at work on the two comment infos of owner [O] (claims 1..5 and 4..4)
    and the hit range 4..4: one action is returned, and it is the later
    claim's. *)
Lemma getMatchedCommentAction_one_action_per_owner_witness :
  List.NoDup (List.map ownerId
                [ {| ownerId := "O"; extensionId := None; label := Some "B";
                     commentingRangesInfo := commentingRanges infoB |} ])
  /\ (ownerReturned
        (getMatchedCommentAction twoInfoClaims.1.1 twoInfoClaims.1.2
                                 (Some (mkIRange 4 1 4 1))) "O"
      <-> 4 <= 4 /\ 4 <= 4).
Proof.
  pose proof (getMatchedCommentAction_one_action_per_owner
                twoInfoClaims.1.1 twoInfoClaims.1.2 (mkIRange 4 1 4 1))
    as (Hone & _ & Hlater).
  split.
  - apply Hone. vm_compute. reflexivity.
  - apply (Hlater
             [CommentingRangeDecoration.set_id
                (CommentingRangeDecoration.new "O" None (Some "A") (mkIRange 1 1 5 1)
                   decorationOptions (commentingRanges infoA) false) (Some "0")]
             (CommentingRangeDecoration.set_id
                (CommentingRangeDecoration.new "O" None (Some "B") (mkIRange 4 1 4 1)
                   decorationOptions (commentingRanges infoB) false) (Some "1"))
             (mkIRange 4 1 4 1)
             [("O", (mkIRange 1 1 5 1,
                     {| ownerId := "O"; extensionId := None; label := Some "A";
                        commentingRangesInfo := commentingRanges infoA |}))]
             (mkIRange 1 1 5 1,
              {| ownerId := "O"; extensionId := None; label := Some "A";
                 commentingRangesInfo := commentingRanges infoA |}));
      vm_compute; reflexivity.
Defined.

End MatchedAction.

(** * The navigation query [getNearestCommentingRange] *)

Section Nearest.

Import CommentingRangeDecorator.

Lemma getActiveRange_throw editor d e :
  CommentingRangeDecoration.getActiveRange editor d = Throw e -> e = TypeErrorNullModel.
Proof.
  unfold CommentingRangeDecoration.getActiveRange.
  destruct (CommentingRangeDecoration.id d) as [i |]; [| discriminate].
  destruct (bool_decide (i = "")); [discriminate |].
  destruct (getModel editor); [discriminate |]. intros [= <-]. reflexivity.
Qed.

Lemma nearestLoop_throw editor pos (reverse : bool) ds : forall within e,
  nearestLoop editor pos reverse within ds = Throw e -> e = TypeErrorNullModel.
Proof.
  induction ds as [| d ds IH]; simpl; intros within e; [discriminate |].
  destruct (CommentingRangeDecoration.getActiveRange editor d) as [[range |] | err] eqn:Hact;
    simpl.
  - destruct within as [w |];
      repeat match goal with
             | |- context [if ?c then _ else _] => destruct c
             end;
      try discriminate; apply IH.
  - apply IH.
  - intros [= <-]. eapply getActiveRange_throw; eauto.
Qed.

Lemma nearestLoop_total editor model pos (reverse : bool) ds : forall within,
  getModel editor = Some model ->
  exists r, nearestLoop editor pos reverse within ds = Ok r.
Proof.
  induction ds as [| d ds IH]; simpl; intros within Hm; [eauto |].
  rewrite (getActiveRange_model _ _ _ Hm). simpl.
  destruct (activeRangeOf editor d) as [range |]; [| apply IH; exact Hm].
  destruct within as [w |];
    repeat match goal with
           | |- context [if ?c then _ else _] => destruct c
           end;
    eauto.
Qed.

Lemma nearestLoop_all_passed editor model pos (reverse : bool) ds :
  getModel editor = Some model ->
  (forall d r, In d ds ->
               CommentingRangeDecoration.getActiveRange editor d = Ok (Some r) ->
               if reverse then lineNumber pos < startLineNumber r
               else endLineNumber r < lineNumber pos) ->
  nearestLoop editor pos reverse None ds = Ok None.
Proof.
  intros Hm. induction ds as [| d ds IH]; simpl; intros Hpast; [reflexivity |].
  destruct (CommentingRangeDecoration.getActiveRange editor d) as [[range |] | err] eqn:Hact;
    simpl.
  - specialize (Hpast d range (or_introl eq_refl) Hact) as Hd.
    destruct reverse; simpl.
    + replace ((startLineNumber range <=? lineNumber pos)
               && (lineNumber pos <=? endLineNumber range)) with false by lia.
      replace (startLineNumber range >? lineNumber pos) with true by lia.
      apply IH. intros d' r' Hin. apply Hpast. right. exact Hin.
    + replace ((startLineNumber range <=? lineNumber pos)
               && (lineNumber pos <=? endLineNumber range)) with false by lia.
      replace (endLineNumber range <? lineNumber pos) with true by lia.
      apply IH. intros d' r' Hin. apply Hpast. right. exact Hin.
  - apply IH. intros d' r' Hin. apply Hpast. right. exact Hin.
  - rewrite (getActiveRange_model _ _ _ Hm) in Hact. discriminate.
Qed.

Lemma rev_lookup_0 {A} (l : list A) : rev l !! 0%nat = last l.
Proof.
  induction l as [| x l IH] using rev_ind; [reflexivity |].
  rewrite rev_app_distr, last_snoc. reflexivity.
Qed.

Lemma scanned_first self reverse :
  scanned self reverse !! 0%nat
  = if reverse then last (commentingRangeDecorations self)
    else head (commentingRangeDecorations self).
Proof.
  unfold scanned. destruct reverse; [apply rev_lookup_0 |].
  destruct (commentingRangeDecorations self); reflexivity.
Qed.

(** C4, as stated, fails on its own example: with the claims 5..5 and
    10..10, nearest-reverse from line 3 finds no claim at or before line 3
    and returns 10..10, the last claim of the original list, not its first
    claim 5..5. *)
Lemma getNearestCommentingRange_reverse_wraps_to_last :
  ~ (forall first,
        head (commentingRangeDecorations twoLineClaims.1.1) = Some first ->
        getNearestCommentingRange twoLineClaims.1.1 twoLineClaims.1.2
                                  (mkPosition 3 1) true
        = CommentingRangeDecoration.getActiveRange twoLineClaims.1.2 first).
Proof.
  intros Hclaim.
  specialize (Hclaim _ eq_refl). vm_compute in Hclaim. discriminate.
Qed.

(** C4 (amended): in an editor with a model, for every non-empty claim list,
    when no claim contains the position's line and none lies strictly after
    it (strictly before it, if [reverse]), [getNearestCommentingRange] wraps
    to the first claim of the list it scanned: the first claim of the
    original list when scanning forward, its last claim when scanning in
    reverse. *)
Theorem getNearestCommentingRange_wraps self editor model pos (reverse : bool) first :
  getModel editor = Some model ->
  (if reverse then last (commentingRangeDecorations self)
   else head (commentingRangeDecorations self)) = Some first ->
  (forall d r, In d (commentingRangeDecorations self) ->
               CommentingRangeDecoration.getActiveRange editor d = Ok (Some r) ->
               if reverse then lineNumber pos < startLineNumber r
               else endLineNumber r < lineNumber pos) ->
  getNearestCommentingRange self editor pos reverse
  = CommentingRangeDecoration.getActiveRange editor first.
Proof.
  intros Hm Hfirst Hpast.
  unfold getNearestCommentingRange. fold (scanned self reverse).
  rewrite (nearestLoop_all_passed _ model); [| exact Hm |].
  - simpl. rewrite scanned_first, Hfirst. reflexivity.
  - intros d r Hin. apply Hpast.
    unfold scanned in Hin. destruct reverse; [apply in_rev |]; exact Hin.
Qed.

(** The amended C4 at work: nearest-reverse from line 3 over the claims 5..5
    and 10..10 wraps to the last claim. *)
Lemma getNearestCommentingRange_wraps_witness :
  getNearestCommentingRange twoLineClaims.1.1 twoLineClaims.1.2 (mkPosition 3 1) true
  = CommentingRangeDecoration.getActiveRange twoLineClaims.1.2
      (CommentingRangeDecoration.set_id
         (CommentingRangeDecoration.new "O" None None (mkIRange 10 1 10 1)
            decorationOptions (commentingRanges twoLinesInfo) false)
         (Some "1")).
Proof.
  apply (getNearestCommentingRange_wraps twoLineClaims.1.1 twoLineClaims.1.2
           (mkTextModel "file:///a.ts"
              [mkModelDecoration "0" (mkIRange 5 1 5 1) CommentingRangeDecorator_description;
               mkModelDecoration "1" (mkIRange 10 1 10 1) CommentingRangeDecorator_description]
              2)
           (mkPosition 3 1) true).
  - vm_compute. reflexivity.
  - vm_compute. reflexivity.
  - intros d r Hin. vm_compute in Hin.
    destruct Hin as [<- | [<- | []]]; vm_compute; intros [= <-]; reflexivity.
Defined.

(** The two navigation examples: over the claims 5..5 and 10..10,
    nearest-forward from line 12 returns 5..5 and nearest-reverse from line
    3 returns 10..10. *)
Example getNearestCommentingRange_cyclic :
  getNearestCommentingRange twoLineClaims.1.1 twoLineClaims.1.2 (mkPosition 12 1) false
  = Ok (Some (mkIRange 5 1 5 1))
  /\ getNearestCommentingRange twoLineClaims.1.1 twoLineClaims.1.2 (mkPosition 3 1) true
     = Ok (Some (mkIRange 10 1 10 1)).
Proof. split; vm_compute; reflexivity. Qed.

(** C7: [getNearestCommentingRange] raises on the out-of-bounds access
    [decorations[0]] exactly when the claim list is empty; with a non-empty
    claim list the fallback access is in bounds and, the editor having its
    model, the call returns a range or [undefined]. *)
Theorem getNearestCommentingRange_precondition self editor pos reverse :
  (getNearestCommentingRange self editor pos reverse = Throw TypeErrorUndefinedElement
   <-> commentingRangeDecorations self = [])
  /\ (commentingRangeDecorations self <> [] ->
      forall model, getModel editor = Some model ->
      exists r, getNearestCommentingRange self editor pos reverse = Ok r).
Proof.
  unfold getNearestCommentingRange. fold (scanned self reverse).
  assert (Hempty : scanned self reverse = [] <-> commentingRangeDecorations self = []).
  { unfold scanned. destruct reverse; [| reflexivity].
    split; intros Hnil.
    - rewrite <- (rev_involutive (commentingRangeDecorations self)), Hnil. reflexivity.
    - rewrite Hnil. reflexivity. }
  split; [split |].
  - intros Hthrow. apply Hempty.
    destruct (scanned self reverse) as [| first rest] eqn:Hs; [reflexivity |].
    exfalso.
    destruct (nearestLoop _ _ _ _ _) as [[range |] | err] eqn:Hloop; simpl in Hthrow.
    + discriminate.
    + apply getActiveRange_throw in Hthrow. discriminate.
    + injection Hthrow as ->. apply nearestLoop_throw in Hloop. discriminate.
  - intros Hnil. apply Hempty in Hnil. rewrite Hnil. reflexivity.
  - intros Hne model Hm.
    destruct (nearestLoop_total editor model pos reverse (scanned self reverse) None Hm)
      as (found & ->).
    simpl. destruct found as [range |]; [eauto |].
    destruct (scanned self reverse) as [| first rest] eqn:Hs.
    + exfalso. apply Hne, Hempty. reflexivity.
    + simpl. rewrite (getActiveRange_model _ _ _ Hm). eauto.
Qed.

(** C7 at work: the non-empty claim list 5..5, 10..10 answers, the empty
    claim list of a fresh decorator raises. *)
Lemma getNearestCommentingRange_precondition_witness :
  (exists r, getNearestCommentingRange twoLineClaims.1.1 twoLineClaims.1.2
                                       (mkPosition 12 1) false = Ok r)
  /\ getNearestCommentingRange CommentingRangeDecorator.new plainEditor
                               (mkPosition 12 1) false
     = Throw TypeErrorUndefinedElement.
Proof.
  split.
  - apply (proj2 (getNearestCommentingRange_precondition
                    twoLineClaims.1.1 twoLineClaims.1.2 (mkPosition 12 1) false))
      with (model := mkTextModel "file:///a.ts"
              [mkModelDecoration "0" (mkIRange 5 1 5 1) CommentingRangeDecorator_description;
               mkModelDecoration "1" (mkIRange 10 1 10 1) CommentingRangeDecorator_description]
              2).
    + vm_compute. discriminate.
    + vm_compute. reflexivity.
  - apply (proj1 (getNearestCommentingRange_precondition
                    CommentingRangeDecorator.new plainEditor (mkPosition 12 1) false)).
    reflexivity.
Defined.

End Nearest.

(** * Adding a comment where no provider claims the line *)

Section AddComment.

Import CommentController.



End AddComment.

(** * The draft cache across teardown and redisplay *)

Section DraftCache.


Lemma storeNewComment_other (cache : gmap string (gmap string string)) z o t :
  (o, t) <> widgetKey z ->
  lookupDraft (storeNewComment cache z) o t = lookupDraft cache o t.
Proof.
  unfold storeNewComment, lookupDraft, widgetKey. intros Hne.
  destruct (decide (o = zone_owner z)) as [-> | Ho].
  - assert (Ht : threadId (zone_commentThread z) <> t) by congruence.
    destruct (truthy (zone_newComment z) && _).
    + rewrite lookup_insert_eq. simpl. rewrite lookup_insert_ne by exact Ht.
      destruct (cache !! zone_owner z); reflexivity.
    + destruct (cache !! zone_owner z) as [store |] eqn:Hstore.
      * rewrite lookup_insert_eq. simpl. rewrite lookup_delete_ne by exact Ht. reflexivity.
      * rewrite Hstore. reflexivity.
  - destruct (truthy (zone_newComment z) && _).
    + rewrite lookup_insert_ne by congruence. reflexivity.
    + destruct (cache !! zone_owner z) as [store |]; [| reflexivity].
      rewrite lookup_insert_ne by congruence. reflexivity.
Qed.

Lemma storeZones_cache ws : forall self,
  _pendingNewCommentCache (fold_left storeZone ws self)
  = fold_left storeNewComment ws (_pendingNewCommentCache self).
Proof.
  induction ws as [| z ws IH]; simpl; intros self; [reflexivity |].
  rewrite IH. reflexivity.
Qed.

Lemma storeNewComments_not_in ws o t : forall cache,
  ~ In (o, t) (List.map widgetKey ws) ->
  lookupDraft (fold_left storeNewComment ws cache) o t = lookupDraft cache o t.
Proof.
  induction ws as [| z ws IH]; simpl; intros cache Hnotin; [reflexivity |].
  rewrite IH by tauto. apply storeNewComment_other. intros Heq. apply Hnotin. auto.
Qed.



Lemma keepsDrafts_displayable self self' :
  keepsDrafts self self' -> displayable self -> displayable self'.
Proof. intros (He & Hs & _) [Hm Hi]. unfold displayable. rewrite He, Hs. auto. Qed.

Lemma openCommentsView_frame self thread :
  keepsDrafts self (openCommentsView self thread)
  /\ _commentWidgets (openCommentsView self thread) = _commentWidgets self.
Proof.
  unfold openCommentsView, keepsDrafts.
  destruct (comments thread) as [[| c cs] |]; auto.
  destruct (openView (services self)); auto;
    try destruct (thread_state thread) as [[] |];
    try destruct (commentsViewHasRendered (services self)); auto.
Qed.

Lemma displayCommentThread_shown self o thread pendingComment pendingEdits :
  displayable self ->
  keepsDrafts self (displayCommentThread self o thread pendingComment pendingEdits)
  /\ _commentWidgets (displayCommentThread self o thread pendingComment pendingEdits)
     = _commentWidgets self ++ [createReviewZoneWidget o thread pendingComment pendingEdits].
Proof.
  intros [[m Hm] Hinline]. unfold displayCommentThread. rewrite Hm, Hinline.
  match goal with
  | |- context [openCommentsView ?s ?t] => destruct (openCommentsView_frame s t) as [Hk Hw]
  end.
  split; [exact Hk | rewrite Hw; reflexivity].
Qed.

Lemma setCommentsThread_shown o self shown thread :
  displayable self ->
  let r := setCommentsThread o (self, shown) thread in
  keepsDrafts self r.1
  /\ _commentWidgets r.1
     = _commentWidgets self
       ++ [redisplayedZone (_pendingNewCommentCache self) (_pendingEditsCache self) o thread].
Proof.
  intros Hd. unfold setCommentsThread. cbn [fst snd].
  apply displayCommentThread_shown. exact Hd.
Qed.

Lemma setCommentsThreads_shown o ts : forall self shown,
  displayable self ->
  let r := fold_left (setCommentsThread o) ts (self, shown) in
  keepsDrafts self r.1
  /\ _commentWidgets r.1
     = _commentWidgets self
       ++ List.map (redisplayedZone (_pendingNewCommentCache self)
                                    (_pendingEditsCache self) o) ts.
Proof.
  induction ts as [| thread ts IH]; intros self shown Hd; cbn [fold_left].
  - simpl. rewrite app_nil_r. repeat split.
  - destruct (setCommentsThread_shown o self shown thread Hd) as [Hk Hw].
    destruct (setCommentsThread o (self, shown) thread) as [self1 shown1] eqn:Hstep.
    simpl in Hk, Hw.
    destruct (IH self1 shown1 (keepsDrafts_displayable _ _ Hk Hd)) as [Hk' Hw'].
    destruct Hk as (He & Hs & Hn & Hed). destruct Hk' as (He' & Hs' & Hn' & Hed').
    split.
    + repeat split; congruence.
    + rewrite Hw', Hw, Hn, Hed, <- app_assoc. reflexivity.
Qed.

Lemma setCommentsInfo_shown self infos info :
  displayable self ->
  let r := setCommentsInfo (self, infos) info in
  keepsDrafts self r.1
  /\ _commentWidgets r.1
     = _commentWidgets self
       ++ redisplayedZones (_pendingNewCommentCache self) (_pendingEditsCache self) [info].
Proof.
  intros Hd. unfold setCommentsInfo.
  destruct (setCommentsThreads_shown (owner info)
              (List.filter (fun thread => negb (isDisposed thread)) (threads info))
              self [] Hd) as [Hk Hw].
  destruct (fold_left _ _ _) as [self1 shown]. simpl in *.
  split; [exact Hk |]. rewrite Hw, app_nil_r. reflexivity.
Qed.

Lemma setCommentsInfos_shown infos : forall self done,
  displayable self ->
  let r := fold_left setCommentsInfo infos (self, done) in
  keepsDrafts self r.1
  /\ _commentWidgets r.1
     = _commentWidgets self
       ++ redisplayedZones (_pendingNewCommentCache self) (_pendingEditsCache self) infos.
Proof.
  induction infos as [| info infos IH]; intros self done Hd; cbn [fold_left].
  - simpl. rewrite app_nil_r. repeat split.
  - destruct (setCommentsInfo_shown self done info Hd) as [Hk Hw].
    destruct (setCommentsInfo (self, done) info) as [self1 done1] eqn:Hstep.
    simpl in Hk, Hw.
    destruct (IH self1 done1 (keepsDrafts_displayable _ _ Hk Hd)) as [Hk' Hw'].
    destruct Hk as (He & Hs & Hn & Hed). destruct Hk' as (He' & Hs' & Hn' & Hed').
    split.
    + repeat split; congruence.
    + rewrite Hw', Hw, Hn, Hed, <- app_assoc.
      unfold redisplayedZones. simpl. rewrite app_nil_r. reflexivity.
Qed.

Lemma tryUpdateReservedSpace_frame self :
  editor (tryUpdateReservedSpace self) = editor self
  /\ services (tryUpdateReservedSpace self) = services self
  /\ _commentWidgets (tryUpdateReservedSpace self) = _commentWidgets self
  /\ _commentInfos (tryUpdateReservedSpace self) = _commentInfos self
  /\ _pendingNewCommentCache (tryUpdateReservedSpace self) = _pendingNewCommentCache self
  /\ _pendingEditsCache (tryUpdateReservedSpace self) = _pendingEditsCache self.
Proof.
  unfold tryUpdateReservedSpace.
  destruct self as [ed ws infos dec reserved adding queue news edits disposables svc effs].
  cbn [editor]. destruct ed; [| repeat split]. cbv zeta.
  repeat match goal with
         | |- context [if ?c then _ else _] => destruct c
         end; repeat split.
Qed.

Lemma storeZones_frame ws : forall self,
  editor (fold_left storeZone ws self) = editor self
  /\ services (fold_left storeZone ws self) = services self
  /\ _commentInfos (fold_left storeZone ws self) = _commentInfos self.
Proof.
  induction ws as [| z ws IH]; intros self; simpl; [repeat split |].
  destruct (IH (storeZone self z)) as (He & Hs & Hi).
  rewrite He, Hs, Hi. repeat split.
Qed.

Lemma decoratorUpdate_frame self infos :
  _commentWidgets (decoratorUpdate self infos) = _commentWidgets self
  /\ _pendingNewCommentCache (decoratorUpdate self infos) = _pendingNewCommentCache self
  /\ _pendingEditsCache (decoratorUpdate self infos) = _pendingEditsCache self.
Proof.
  unfold decoratorUpdate.
  destruct (CommentingRangeDecorator.update _ _ _ _ _) as [[d e] fired].
  unfold onDidChangeDecorationsCount.
  destruct fired as [[| n] |]; simpl; try destruct (Nat.eqb _ 0); repeat split.
Qed.

Lemma setComments_redisplays self commentInfos :
  is_Some (editor self ≫= getModel) ->
  isCommentingEnabled (services self) = true ->
  isEditorInlineOriginal (services self) = false ->
  let torn :=
    removeCommentWidgetsAndStoreCache
      (tryUpdateReservedSpace (set_commentInfos self commentInfos)) in
  _commentWidgets (setComments self commentInfos)
  = redisplayedZones (_pendingNewCommentCache torn) (_pendingEditsCache torn) commentInfos
  /\ _pendingNewCommentCache (setComments self commentInfos) = _pendingNewCommentCache torn.
Proof.
  intros Hm Hen Hinline torn.
  assert (Hd : displayable torn).
  { unfold torn, removeCommentWidgetsAndStoreCache, displayable. simpl.
    destruct (storeZones_frame
                (_commentWidgets (tryUpdateReservedSpace (set_commentInfos self commentInfos)))
                (tryUpdateReservedSpace (set_commentInfos self commentInfos)))
      as (He & Hs & _).
    destruct (tryUpdateReservedSpace_frame (set_commentInfos self commentInfos))
      as (He' & Hs' & _).
    rewrite He, Hs, He', Hs'. simpl. auto. }
  assert (Hinfos : _commentInfos torn = commentInfos).
  { unfold torn, removeCommentWidgetsAndStoreCache. simpl.
    destruct (storeZones_frame
                (_commentWidgets (tryUpdateReservedSpace (set_commentInfos self commentInfos)))
                (tryUpdateReservedSpace (set_commentInfos self commentInfos)))
      as (_ & _ & Hi).
    destruct (tryUpdateReservedSpace_frame (set_commentInfos self commentInfos))
      as (_ & _ & _ & Hi' & _).
    rewrite Hi, Hi'. reflexivity. }
  unfold setComments.
  destruct (editor self) as [ed |] eqn:Hed; [| destruct Hm as [m Hm]; discriminate].
  rewrite Hen. cbn [negb]. fold torn. rewrite Hinfos.
  destruct (setCommentsInfos_shown commentInfos torn [] Hd) as [(_ & _ & Hn & He) Hw].
  destruct (fold_left setCommentsInfo commentInfos (torn, [])) as [self1 infos1].
  simpl in Hn, He, Hw.
  match goal with
  | |- context [decoratorUpdate ?s ?i] =>
      destruct (decoratorUpdate_frame s i) as (Hw' & Hn' & _)
  end.
  unfold perform. cbn [_commentWidgets _pendingNewCommentCache].
  rewrite Hw', Hn'. unfold set_commentInfos.
  cbn [_commentWidgets _pendingNewCommentCache]. rewrite Hw, Hn.
  split; [| reflexivity].
  unfold torn at 1, removeCommentWidgetsAndStoreCache. reflexivity.
Qed.


Lemma removeCommentWidgetsAndStoreCache_frame self :
  editor (removeCommentWidgetsAndStoreCache self) = editor self
  /\ services (removeCommentWidgetsAndStoreCache self) = services self
  /\ _commentWidgets (removeCommentWidgetsAndStoreCache self) = [].
Proof.
  unfold removeCommentWidgetsAndStoreCache.
  destruct (storeZones_frame (_commentWidgets self) self) as (He & Hs & _).
  simpl. auto.
Qed.



(** The round trip of the specification: with the last submitted comment
    "a", the in-progress text "ab" comes back as the initial draft of the
    redisplayed widget, also when the document model changed in between; the
    in-progress text "a" leaves no pending text. *)
Example draft_round_trip :
  List.map zone_pendingComment
    (_commentWidgets (setComments (showingThreadA (Some "ab")) [infoWithThreadA]))
  = [Some "ab"]
  /\ List.map zone_pendingComment
       (_commentWidgets
          (setComments (removeCommentWidgetsAndStoreCache (showingThreadA (Some "ab")))
                       [infoWithThreadA]))
     = [Some "ab"]
  /\ List.map zone_pendingComment
       (_commentWidgets (setComments (showingThreadA (Some "a")) [infoWithThreadA]))
     = [None].
Proof. repeat split; vm_compute; reflexivity. Qed.

End DraftCache.

(** * Thread updates: removed, changed, added, pending *)

Section ThreadUpdates.



Lemma filter_nil_Forall {A} (p : A -> bool) l :
  List.filter p l = [] <-> Forall (fun x => p x = false) l.
Proof.
  induction l as [| x l IH]; simpl.
  - split; constructor.
  - destruct (p x) eqn:Hp.
    + split; [discriminate |]. intros H. apply Forall_cons_iff in H as [H _]. congruence.
    + rewrite IH. split; [constructor; assumption |].
      intros H. apply Forall_cons_iff in H as [_ H]. exact H.
Qed.


Lemma filter_updateFirst {A} (q p : A -> bool) (f : A -> A) l x0 :
  Forall (fun x => q x = false) l ->
  (forall x, p x = true -> q (f x) = true) ->
  List.find p l = Some x0 ->
  List.filter q (updateFirst p f l) = [f x0].
Proof.
  intros Hq Hf. induction l as [| x l IH]; simpl; [discriminate |].
  apply Forall_cons_iff in Hq as [Hx Hl].
  destruct (p x) eqn:Hp.
  - intros [= <-]. simpl. rewrite (Hf _ Hp).
    f_equal. apply filter_nil_Forall. exact Hl.
  - intros Hfind. simpl. rewrite Hx. apply IH; assumption.
Qed.




Lemma addedThread_widgets O uri self T' :
  displayable self ->
  Forall (fun w => showsThread O (threadId T') w = false) (_commentWidgets self) ->
  exists w, List.filter (showsThread O (threadId T')) (_commentWidgets (addedThread O uri self T'))
            = [w]
            /\ zone_commentThread w = T'.
Proof.
  intros Hd Hnone. unfold addedThread.
  assert (Hfind : List.find (matchesThread O T') (_commentWidgets self) = None).
  { destruct (List.find _ _) as [w |] eqn:Hfind; [| reflexivity].
    apply find_some in Hfind as [Hin Hmatch].
    rewrite List.Forall_forall in Hnone. specialize (Hnone _ Hin).
    unfold matchesThread, showsThread in *. congruence. }
  rewrite Hfind.
  destruct (List.find (matchesNewCommentThread O T') (_commentWidgets self))
    as [w0 |] eqn:Hnew.
  - exists (zone_update T' w0). split; [| reflexivity]. simpl.
    apply filter_updateFirst; [exact Hnone | | exact Hnew].
    intros w Hmatch. unfold matchesNewCommentThread in Hmatch. unfold showsThread. simpl.
    apply andb_prop in Hmatch as [Hmatch _]. apply andb_prop in Hmatch as [Ho _].
    rewrite Ho. simpl. apply bool_decide_eq_true. reflexivity.
  - assert (Hshown : forall self0 p e,
               displayable self0 ->
               _commentWidgets self0 = _commentWidgets self ->
               exists w,
                 List.filter (showsThread O (threadId T'))
                   (_commentWidgets
                      (tryUpdateReservedSpace
                         (set_commentInfos
                            (displayCommentThread self0 O T' p e)
                            (updateFirst (isOwnerInfo O)
                               (fun info => info_set_threads info (threads info ++ [T']))
                               (_commentInfos (displayCommentThread self0 O T' p e))))))
                 = [w] /\ zone_commentThread w = T').
    { intros self0 p e Hd0 Hws.
      destruct (displayCommentThread_shown self0 O T' p e Hd0) as [_ Hw].
      match goal with
      | |- context [tryUpdateReservedSpace ?s] =>
          destruct (tryUpdateReservedSpace_frame s) as (_ & _ & -> & _)
      end.
      unfold set_commentInfos. cbn [_commentWidgets]. rewrite Hw, Hws.
      exists (createReviewZoneWidget O T' p e). split; [| reflexivity].
      rewrite List.filter_app. rewrite (proj2 (filter_nil_Forall _ _) Hnone).
      simpl. unfold showsThread. simpl.
      rewrite !bool_decide_eq_true_2 by reflexivity. reflexivity. }
    destruct (thread_range T') as [range |].
    + unfold removeContinueOnComment. cbv beta iota zeta.
      apply Hshown; [| reflexivity].
      destruct Hd as [Hm Hi]. split; simpl; assumption.
    + cbv beta iota zeta. apply Hshown; [exact Hd | reflexivity].
Qed.





End ThreadUpdates.

(** * Further properties of the decorator's queries *)

Section DecoratorQueries.

Import CommentingRangeDecorator.

(** X1: [areRangesIntersectingOrTouchingByLine] is symmetric, and for two
    ranges with ordered lines it holds exactly when some line of the one is
    at most one line away from some line of the other (adjacent ranges
    count). *)
Theorem areRangesIntersectingOrTouchingByLine_by_lines a b :
  startLineNumber a <= endLineNumber a ->
  startLineNumber b <= endLineNumber b ->
  (areRangesIntersectingOrTouchingByLine a b = true
   <-> exists la lb, inLines a la /\ inLines b lb /\ Z.abs (la - lb) <= 1)
  /\ areRangesIntersectingOrTouchingByLine a b = areRangesIntersectingOrTouchingByLine b a.
Proof.
  intros Ha Hb. unfold areRangesIntersectingOrTouchingByLine, inLines.
  destruct (endLineNumber a <? startLineNumber b - 1) eqn:H1;
    destruct (endLineNumber b + 1 <? startLineNumber a) eqn:H2;
    destruct (endLineNumber b <? startLineNumber a - 1) eqn:H3;
    destruct (endLineNumber a + 1 <? startLineNumber b) eqn:H4;
    rewrite ?Z.ltb_lt, ?Z.ltb_ge in *; try lia;
    (split; [| reflexivity]); split; try discriminate;
    try (intros (la & lb & ? & ? & ?); lia).
  intros _.
  destruct (Z_le_gt_dec (startLineNumber a) (endLineNumber b)).
  - destruct (Z_le_gt_dec (startLineNumber b) (endLineNumber a)).
    + exists (Z.max (startLineNumber a) (startLineNumber b)),
             (Z.max (startLineNumber a) (startLineNumber b)). lia.
    + exists (endLineNumber a), (startLineNumber b). lia.
  - exists (startLineNumber a), (endLineNumber b). lia.
Qed.

(** X1 at work: the ranges 1..2 and 3..5 are adjacent. *)
Lemma areRangesIntersectingOrTouchingByLine_by_lines_witness :
  (areRangesIntersectingOrTouchingByLine (mkIRange 1 1 2 1) (mkIRange 3 1 5 1) = true
   <-> exists la lb, inLines (mkIRange 1 1 2 1) la /\ inLines (mkIRange 3 1 5 1) lb
                     /\ Z.abs (la - lb) <= 1)
  /\ areRangesIntersectingOrTouchingByLine (mkIRange 1 1 2 1) (mkIRange 3 1 5 1)
     = areRangesIntersectingOrTouchingByLine (mkIRange 3 1 5 1) (mkIRange 1 1 2 1).
Proof.
  apply (areRangesIntersectingOrTouchingByLine_by_lines (mkIRange 1 1 2 1) (mkIRange 3 1 5 1));
    simpl; lia.
Defined.

(** An early [return range] of the scanning loop hands back the current
    range of a scanned claim that lies strictly beyond the position in the
    direction of the scan. *)
Lemma nearestLoop_returns editor pos (reverse : bool) ds : forall within r,
  nearestLoop editor pos reverse within ds = Ok (Some r) ->
  exists d, In d ds
    /\ CommentingRangeDecoration.getActiveRange editor d = Ok (Some r)
    /\ (if reverse then endLineNumber r < lineNumber pos
        else lineNumber pos < startLineNumber r).
Proof.
  induction ds as [| d ds IH]; intros within r Hloop; [discriminate |].
  cbn [nearestLoop] in Hloop.
  destruct (CommentingRangeDecoration.getActiveRange editor d) as [[range |] | e] eqn:Hd;
    cbn [bindR] in Hloop; [| | discriminate].
  2:{ destruct (IH _ _ Hloop) as (d' & ? & ? & ?). exists d'. simpl. auto. }
  assert (Hrest : forall w, nearestLoop editor pos reverse w ds = Ok (Some r) ->
            exists d0, In d0 (d :: ds)
              /\ CommentingRangeDecoration.getActiveRange editor d0 = Ok (Some r)
              /\ (if reverse then endLineNumber r < lineNumber pos
                  else lineNumber pos < startLineNumber r)).
  { intros w Hw. destruct (IH _ _ Hw) as (d' & ? & ? & ?). exists d'. simpl. auto. }
  assert (Hother :
    (if (startLineNumber range <=? lineNumber pos) && (lineNumber pos <=? endLineNumber range)
     then nearestLoop editor pos reverse
            (Some (Range.new (startLineNumber range) (startColumn range)
                             (endLineNumber range) (endColumn range))) ds
     else if negb reverse && (endLineNumber range <? lineNumber pos)
     then nearestLoop editor pos reverse within ds
     else if reverse && (startLineNumber range >? lineNumber pos)
     then nearestLoop editor pos reverse within ds
     else Ok (Some range)) = Ok (Some r) ->
    exists d0, In d0 (d :: ds)
      /\ CommentingRangeDecoration.getActiveRange editor d0 = Ok (Some r)
      /\ (if reverse then endLineNumber r < lineNumber pos
          else lineNumber pos < startLineNumber r)).
  { destruct ((startLineNumber range <=? lineNumber pos)
              && (lineNumber pos <=? endLineNumber range)) eqn:Hin; [apply Hrest |].
    destruct (negb reverse && (endLineNumber range <? lineNumber pos)) eqn:Hfw; [apply Hrest |].
    destruct (reverse && (startLineNumber range >? lineNumber pos)) eqn:Hbw; [apply Hrest |].
    intros [= <-]. exists d. split; [left; reflexivity |]. split; [exact Hd |].
    rewrite Z.gtb_ltb in Hbw.
    destruct reverse; simpl in Hfw, Hbw;
      rewrite ?andb_false_iff, ?Z.leb_gt, ?Z.ltb_ge in *; lia. }
  destruct within as [w |]; [| exact (Hother Hloop)].
  destruct (areRangesIntersectingOrTouchingByLine range w); [apply (Hrest _ Hloop) |].
  exact (Hother Hloop).
Qed.

(** X2: a range returned by [getNearestCommentingRange] is always the
    current range of one of the decorator's claims, never the block it
    accumulated around the position; that claim lies strictly after the
    position's line (strictly before it, if [reverse]), or it is the first
    claim of the list scanned. *)
Theorem getNearestCommentingRange_returns_claim self editor pos (reverse : bool) r :
  getNearestCommentingRange self editor pos reverse = Ok (Some r) ->
  exists d, In d (commentingRangeDecorations self)
    /\ CommentingRangeDecoration.getActiveRange editor d = Ok (Some r)
    /\ ((if reverse then endLineNumber r < lineNumber pos
         else lineNumber pos < startLineNumber r)
        \/ scanned self reverse !! 0%nat = Some d).
Proof.
  unfold getNearestCommentingRange. fold (scanned self reverse).
  destruct (nearestLoop editor pos reverse None (scanned self reverse))
    as [[found |] | e] eqn:Hloop; cbn [bindR]; [| | discriminate].
  - intros [= ->]. apply nearestLoop_returns in Hloop as (d & Hin & Hd & Hdir).
    exists d. split; [| auto].
    unfold scanned in Hin. destruct reverse; [apply in_rev in Hin |]; exact Hin.
  - destruct (scanned self reverse !! 0%nat) as [first |] eqn:Hfirst; [| discriminate].
    intros Hr. exists first. split; [| auto].
    apply list_elem_of_lookup_2, list_elem_of_In in Hfirst.
    unfold scanned in Hfirst. destruct reverse; [apply in_rev in Hfirst |]; exact Hfirst.
Qed.

(** X2 at work: over the claims 5..5 and 10..10, nearest-forward from line 7
    returns the claim 10..10. *)
Lemma getNearestCommentingRange_returns_claim_witness :
  exists d, In d (commentingRangeDecorations twoLineClaims.1.1)
    /\ CommentingRangeDecoration.getActiveRange twoLineClaims.1.2 d
       = Ok (Some (mkIRange 10 1 10 1))
    /\ (lineNumber (mkPosition 7 1) < startLineNumber (mkIRange 10 1 10 1)
        \/ scanned twoLineClaims.1.1 false !! 0%nat = Some d).
Proof.
  apply (getNearestCommentingRange_returns_claim twoLineClaims.1.1 twoLineClaims.1.2
           (mkPosition 7 1) false (mkIRange 10 1 10 1)).
  vm_compute. reflexivity.
Defined.

End DecoratorQueries.

(** * What a recompute emits *)

Section Emission.

Import CommentingRangeDecorator.

Ltac emitted_cases Hin :=
  unfold decorateRange in Hin; cbv zeta in Hin;
  repeat match type of Hin with
         | context [match ?x with _ => _ end] => destruct x eqn:?
         end;
  simpl in Hin; intuition idtac; subst.

(** What the branch that pushed a decoration says about it. *)
Lemma decorateRange_categories editor info emphasisLine selectionRange range d :
  In d (decorateRange editor info emphasisLine selectionRange range) ->
  CommentingRangeDecoration.getCommentAction d = infoAction info
  /\ (CommentingRangeDecoration.options d = hoverDecorationOptions ->
      CommentingRangeDecoration._startLineNumber d = CommentingRangeDecoration._endLineNumber d
      /\ CommentingRangeDecoration.isHover d = true)
  /\ (CommentingRangeDecoration.options d = multilineDecorationOptions ->
      CommentingRangeDecoration.isHover d = true
      /\ is_Some selectionRange /\ 0 <= emphasisLine)
  /\ (CommentingRangeDecoration.isHover d = false ->
      CommentingRangeDecoration.options d = decorationOptions
      /\ CommentingRangeDecoration.getOriginalRange d = range).
Proof.
  intros Hin. emitted_cases Hin.
  all: repeat match goal with
              | H : (if ?c then _ else _) = (_, _) |- _ =>
                  destruct c; injection H as <- <-
              end.
  all: cbn [CommentingRangeDecoration.getCommentAction CommentingRangeDecoration.new
            CommentingRangeDecoration.options CommentingRangeDecoration.isHover
            CommentingRangeDecoration._startLineNumber
            CommentingRangeDecoration._endLineNumber
            CommentingRangeDecoration.getOriginalRange
            CommentingRangeDecoration._range
            CommentingRangeDecoration._extensionId CommentingRangeDecoration._label
            CommentingRangeDecoration._ownerId
            CommentingRangeDecoration._commentingRangesInfo].
  all: repeat split; try discriminate; try reflexivity; try (eexists; reflexivity).
  all: unfold Range.collapseToStart;
    rewrite ?Range_new_startLineNumber, ?Range_new_endLineNumber; try lia.
  all: match goal with
       | H : (_ >=? 0) && _ = true |- _ =>
           apply andb_true_iff in H as [H _]; rewrite Z.geb_leb in H;
           apply Z.leb_le in H; exact H
       end.
Qed.

(** X3: the rendering category of an emitted decoration follows from the
    branch that produced it.  A decoration of the hover category is one line
    long; one of the multiline category is only emitted while a selection
    range is in effect and the emphasis line is not negative; both are
    flagged [isHover].  A decoration that is not flagged [isHover] has the
    plain category and was constructed from an unsplit provider range. *)
Theorem emitted_render_categories
    self editor model commentInfos emphasisLine selectionRange d :
  getModel editor = Some model ->
  In d (commentingRangeDecorations
          (_doUpdate self editor commentInfos emphasisLine selectionRange).1.1) ->
  (CommentingRangeDecoration.options d = hoverDecorationOptions ->
   CommentingRangeDecoration._startLineNumber d = CommentingRangeDecoration._endLineNumber d
   /\ CommentingRangeDecoration.isHover d = true)
  /\ (CommentingRangeDecoration.options d = multilineDecorationOptions ->
      CommentingRangeDecoration.isHover d = true
      /\ is_Some (match selectionRange with
                  | Some r => Some r
                  | None => _lastSelection self
                  end)
      /\ 0 <= default (default (-1) emphasisLine) (_lastSelectionCursor self))
  /\ (CommentingRangeDecoration.isHover d = false ->
      CommentingRangeDecoration.options d = decorationOptions
      /\ exists info, In info commentInfos
                      /\ In (CommentingRangeDecoration.getOriginalRange d)
                            (ranges (commentingRanges info))).
Proof.
  intros Hmodel Hin.
  destruct (_doUpdate_emitted _ _ _ _ _ _ _ Hmodel Hin)
    as (info & range & d0 & i & Hinfo & Hrange & Hd0 & ->).
  apply decorateRange_categories in Hd0 as (_ & Hhover & Hmulti & Hplain).
  cbn [CommentingRangeDecoration.set_id CommentingRangeDecoration.options
       CommentingRangeDecoration.isHover CommentingRangeDecoration._startLineNumber
       CommentingRangeDecoration._endLineNumber CommentingRangeDecoration.getOriginalRange
       CommentingRangeDecoration._range].
  split; [| split].
  - intros H. exact (Hhover H).
  - intros H. exact (Hmulti H).
  - intros H. destruct (Hplain H) as [Ho Hr]. split; [exact Ho |].
    unfold CommentingRangeDecoration.getOriginalRange in Hr. rewrite Hr. eauto.
Qed.

(** X3 at work: with line 1 of the range 1..2 hovered, the first decoration
    emitted is the hover decoration of line 1. *)
Lemma emitted_render_categories_witness :
  (CommentingRangeDecoration.options hoverOnLine1 = hoverDecorationOptions ->
   CommentingRangeDecoration._startLineNumber hoverOnLine1
   = CommentingRangeDecoration._endLineNumber hoverOnLine1
   /\ CommentingRangeDecoration.isHover hoverOnLine1 = true)
  /\ (CommentingRangeDecoration.options hoverOnLine1 = multilineDecorationOptions ->
      CommentingRangeDecoration.isHover hoverOnLine1 = true
      /\ is_Some (_lastSelection CommentingRangeDecorator.new)
      /\ 0 <= 1)
  /\ (CommentingRangeDecoration.isHover hoverOnLine1 = false ->
      CommentingRangeDecoration.options hoverOnLine1 = decorationOptions
      /\ exists info, In info [splitInfo]
                      /\ In (CommentingRangeDecoration.getOriginalRange hoverOnLine1)
                            (ranges (commentingRanges info))).
Proof.
  apply (emitted_render_categories CommentingRangeDecorator.new plainEditor sampleModel
           [splitInfo] (Some 1) None hoverOnLine1).
  - reflexivity.
  - left. reflexivity.
Defined.

Lemma decorateRange_plain editor info range :
  0 <= startLineNumber range -> 0 <= endLineNumber range ->
  decorateRange editor info (-1) None range
  = [CommentingRangeDecoration.new (owner info) (info_extensionId info) (info_label info)
       range decorationOptions (commentingRanges info) false].
Proof.
  intros Hs He. unfold decorateRange. cbv zeta.
  rewrite Range_new_startLineNumber.
  destruct (Z.min (startLineNumber range) (endLineNumber range) <=? -1) eqn:H;
    [apply Z.leb_le in H; lia | reflexivity].
Qed.

Lemma map_imap_invariant {A B} (f : A -> B) (l : list A) : forall (g : nat -> A -> A),
  (forall i x, f (g i x) = f x) -> List.map f (imap g l) = List.map f l.
Proof.
  induction l as [| x l IH]; intros g Hg; [reflexivity |].
  cbn [imap List.map]. rewrite Hg. f_equal. apply IH. intros i y. apply Hg.
Qed.

(** Without an emphasis line and a selection every provider range is
    decorated as it is. *)
Lemma decorateRanges_plain editor commentInfos :
  (forall info range,
      In info commentInfos -> In range (ranges (commentingRanges info)) ->
      0 <= startLineNumber range /\ 0 <= endLineNumber range) ->
  flat_map (fun info =>
              flat_map (decorateRange editor info (-1) None) (ranges (commentingRanges info)))
           commentInfos
  = flat_map (fun info =>
                List.map (fun range =>
                            CommentingRangeDecoration.new
                              (owner info) (info_extensionId info) (info_label info)
                              range decorationOptions (commentingRanges info) false)
                         (ranges (commentingRanges info)))
             commentInfos.
Proof.
  intros Hlines. induction commentInfos as [| info infos IH]; [reflexivity |].
  cbn [flat_map]. f_equal.
  - assert (Hinfo : forall range, In range (ranges (commentingRanges info)) ->
                                  0 <= startLineNumber range /\ 0 <= endLineNumber range).
    { intros range Hr. apply (Hlines info range); [left; reflexivity | exact Hr]. }
    clear IH Hlines. induction (ranges (commentingRanges info)) as [| range rs IHr];
      [reflexivity |].
    cbn [flat_map List.map].
    destruct (Hinfo range (or_introl eq_refl)) as [Hs He].
    rewrite (decorateRange_plain _ _ _ Hs He). cbn [app]. f_equal.
    apply IHr. intros r Hr. apply Hinfo. right. exact Hr.
  - apply IH. intros i r Hi Hr. apply (Hlines i r); [right; exact Hi | exact Hr].
Qed.

(** X4: a recompute without an emphasis line and without a selection (none
    passed, none remembered) emits exactly one decoration per provider range,
    in the order of the comment infos and of their ranges: the range as the
    provider gave it, the provider's action, the plain category, not flagged
    [isHover].  Provider lines are not negative. *)
Theorem _doUpdate_without_emphasis self editor model commentInfos :
  getModel editor = Some model ->
  _lastSelection self = None ->
  _lastSelectionCursor self = None ->
  (forall info range,
      In info commentInfos -> In range (ranges (commentingRanges info)) ->
      0 <= startLineNumber range /\ 0 <= endLineNumber range) ->
  List.map (fun d => (CommentingRangeDecoration.getOriginalRange d,
                      CommentingRangeDecoration.getCommentAction d,
                      CommentingRangeDecoration.options d,
                      CommentingRangeDecoration.isHover d))
           (commentingRangeDecorations (_doUpdate self editor commentInfos None None).1.1)
  = flat_map (fun info =>
                List.map (fun range => (range, infoAction info, decorationOptions, false))
                         (ranges (commentingRanges info)))
             commentInfos.
Proof.
  intros Hmodel Hsel Hcur Hlines. unfold _doUpdate. rewrite Hmodel, Hsel, Hcur.
  destruct (deltaDecorations _ _ _) as [model' ids]. simpl.
  rewrite map_imap_invariant by reflexivity.
  rewrite (decorateRanges_plain editor commentInfos Hlines).
  clear. induction commentInfos as [| info infos IH]; [reflexivity |].
  cbn [flat_map]. rewrite map_app, IH, map_map. reflexivity.
Qed.

(** X4 at work: the one-line ranges 5 and 10 of one provider. *)
Lemma _doUpdate_without_emphasis_witness :
  List.map (fun d => (CommentingRangeDecoration.getOriginalRange d,
                      CommentingRangeDecoration.getCommentAction d,
                      CommentingRangeDecoration.options d,
                      CommentingRangeDecoration.isHover d))
           (commentingRangeDecorations
              (_doUpdate CommentingRangeDecorator.new plainEditor [twoLinesInfo]
                         None None).1.1)
  = flat_map (fun info =>
                List.map (fun range => (range, infoAction info, decorationOptions, false))
                         (ranges (commentingRanges info)))
             [twoLinesInfo].
Proof.
  apply (_doUpdate_without_emphasis CommentingRangeDecorator.new plainEditor sampleModel
           [twoLinesInfo]); try reflexivity.
  intros info range [<- | []] [<- | [<- | []]]; simpl; lia.
Defined.

Lemma Forall_map_set (Q : string * (IRange * CommentRangeAction) -> Prop) k v m :
  Forall Q m -> Q (k, v) -> Forall Q (map_set k v m).
Proof.
  intros Hm Hv. induction Hm as [| e m He Hm IH]; cbn [map_set].
  - constructor; [exact Hv | constructor].
  - destruct (bool_decide (fst e = k)); constructor; auto.
Qed.

Lemma matchDecoration_actions (P : CommentRangeAction -> Prop) editor H found d found' :
  Forall (fun e => P (snd (snd e))) found ->
  P (CommentingRangeDecoration.getCommentAction d) ->
  matchDecoration editor H found d = Ok found' ->
  Forall (fun e => P (snd (snd e))) found'.
Proof.
  intros Hfound Hd. unfold matchDecoration.
  destruct (CommentingRangeDecoration.getActiveRange editor d) as [[range |] | e];
    cbn [bindR]; [| intros [= <-]; exact Hfound | discriminate].
  destruct (areRangesIntersectingOrTouchingByLine range H);
    [| intros [= <-]; exact Hfound].
  destruct (map_get _ found) as [already |];
    [destruct (sameObject _ _) |];
    intros [= <-]; apply Forall_map_set; auto.
Qed.

(** Every action in the accumulator is the action of a scanned claim. *)
Lemma matchDecorations_actions (P : CommentRangeAction -> Prop) editor H ds :
  forall found found',
  Forall (fun e => P (snd (snd e))) found ->
  (forall d, In d ds -> P (CommentingRangeDecoration.getCommentAction d)) ->
  matchDecorations editor H found ds = Ok found' ->
  Forall (fun e => P (snd (snd e))) found'.
Proof.
  induction ds as [| d ds IH]; intros found found' Hfound Hds; cbn [matchDecorations].
  - intros [= <-]. exact Hfound.
  - destruct (matchDecoration editor H found d) as [found1 | e] eqn:Hd; cbn [bindR];
      [| discriminate].
    apply IH.
    + eapply matchDecoration_actions; [exact Hfound | | exact Hd]. apply Hds. left. reflexivity.
    + intros d' Hd'. apply Hds. right. exact Hd'.
Qed.

Lemma _doUpdate_infos self editor commentInfos emphasisLine selectionRange :
  _infos (_doUpdate self editor commentInfos emphasisLine selectionRange).1.1 = _infos self.
Proof.
  unfold _doUpdate. destruct (getModel editor); [| reflexivity].
  destruct (deltaDecorations _ _ _). reflexivity.
Qed.

(** X5: once the decorator has been updated with a list of comment infos,
    every action [getMatchedCommentAction] returns, for a hit range or for
    none, is the action of one of those comment infos: its owner, extension
    id, label and [commentingRanges] object. *)
Theorem matched_actions_are_provided
    self editor commentInfos cursorLine range self' editor' fired hit actions a :
  update self (Some editor) commentInfos cursorLine range = (self', Some editor', fired) ->
  getMatchedCommentAction self' editor' hit = Ok actions ->
  In a actions ->
  exists info, In info commentInfos /\ a = infoAction info.
Proof.
  unfold update.
  destruct (_doUpdate (with_infos self commentInfos) editor commentInfos cursorLine range)
    as [[s e] f] eqn:Hupd.
  intros [= <- <- <-].
  assert (Hs : s = (_doUpdate (with_infos self commentInfos) editor commentInfos
                              cursorLine range).1.1) by (rewrite Hupd; reflexivity).
  destruct hit as [H |].
  - rewrite getMatchedCommentAction_Some.
    destruct (matchDecorations e H [] (commentingRangeDecorations s))
      as [found | err] eqn:Hfound; cbn [bindR]; [| discriminate].
    intros [= <-] Hin.
    apply in_map_iff in Hin as ([r a'] & Ha & Hin). cbn [snd] in Ha. subst a'.
    apply filter_In in Hin as [Hin _].
    apply in_map_iff in Hin as ([k [r' a']] & Hsnd & Hin). cbn [snd] in Hsnd.
    injection Hsnd as -> ->.
    destruct (getModel editor) as [model |] eqn:Hmodel.
    + assert (HP : Forall (fun e0 => (fun x => exists info, In info commentInfos
                                                    /\ x = infoAction info) (snd (snd e0)))
                          found).
      { apply (matchDecorations_actions
                 (fun x => exists info, In info commentInfos /\ x = infoAction info)
                 e H (commentingRangeDecorations s) [] found);
          [constructor | | exact Hfound].
        intros d Hd. rewrite Hs in Hd.
        destruct (_doUpdate_emitted _ _ _ _ _ _ _ Hmodel Hd)
          as (info & rg & d0 & i & Hinfo & _ & Hd0 & ->).
        apply decorateRange_categories in Hd0 as [Hact _].
        exists info. split; [exact Hinfo |]. exact Hact. }
      rewrite List.Forall_forall in HP. exact (HP _ Hin).
    + unfold _doUpdate in Hupd. rewrite Hmodel in Hupd. injection Hupd as <- <- <-.
      apply matchDecorations_no_model in Hfound; [| exact Hmodel]. subst found.
      destruct Hin.
  - unfold getMatchedCommentAction. rewrite Hs, _doUpdate_infos. cbn [with_infos _infos].
    intros [= <-] Hin.
    apply in_map_iff in Hin as (info & <- & Hin). apply filter_In in Hin as [Hin _].
    exists info. split; [exact Hin | reflexivity].
Qed.

(** X5 at work: the decorator updated with the provider of the range 5..10,
    and the hit range 6..7. *)
Lemma matched_actions_are_provided_witness :
  exists info, In info [sampleInfo] /\ infoAction sampleInfo = infoAction info.
Proof.
  apply (matched_actions_are_provided CommentingRangeDecorator.new plainEditor [sampleInfo]
           None None sampleUpdate.1.1 (default plainEditor sampleUpdate.1.2) sampleUpdate.2
           (Some (mkIRange 6 1 7 1)) [infoAction sampleInfo] (infoAction sampleInfo)).
  - reflexivity.
  - vm_compute. reflexivity.
  - left. reflexivity.
Defined.

End Emission.

(** * Marker ids and current ranges *)

Section MarkerIds.

Import CommentingRangeDecorator.

Lemma pretty_N_go_nonempty x : forall s, s <> "" -> pretty_N_go x s <> "".
Proof.
  induction (N.lt_wf_0 x) as [x _ IH]; intros s Hs.
  assert (Hx : (x = 0 \/ 0 < x)%N) by lia. destruct Hx as [-> | Hx].
  - rewrite pretty_N_go_0. exact Hs.
  - rewrite pretty_N_go_step by exact Hx. apply IH; [| discriminate].
    apply N.div_lt; [exact Hx | reflexivity].
Qed.

(** A marker id is never the empty string. *)
Lemma pretty_N_nonempty (k : N) : pretty k <> "".
Proof.
  unfold pretty, pretty_N. destruct (decide (k = 0%N)); [discriminate |].
  rewrite pretty_N_go_step by lia. apply pretty_N_go_nonempty. discriminate.
Qed.

Lemma find_app_l {A} (p : A -> bool) l1 l2 :
  Forall (fun x => p x = false) l1 -> List.find p (l1 ++ l2) = List.find p l2.
Proof.
  intros H. induction H as [| x l Hx Hl IH]; cbn [app List.find]; [reflexivity |].
  rewrite Hx. exact IH.
Qed.

(** The marker created for the [i]-th new decoration is the one found under
    the [i]-th fresh id. *)
Lemma find_fresh next (news : list (IRange * string)) : forall (start i : nat) r,
  news !! i = Some r ->
  List.find (fun d => bool_decide (md_id d = pretty (next + N.of_nat (start + i))%N))
    (List.map (fun p => mkModelDecoration (fst p) (fst (snd p)) (snd (snd p)))
       (combine (List.map (fun j => pretty (next + N.of_nat j)%N) (seq start (length news)))
                news))
  = Some (mkModelDecoration (pretty (next + N.of_nat (start + i))%N) (fst r) (snd r)).
Proof.
  induction news as [| r0 news IH]; intros start i r Hlook; [discriminate |].
  cbn [length seq List.map combine List.find md_id fst snd].
  destruct i as [| i].
  - injection Hlook as ->. rewrite Nat.add_0_r.
    rewrite bool_decide_eq_true_2 by reflexivity. reflexivity.
  - cbn [lookup list_lookup] in Hlook.
    rewrite bool_decide_eq_false_2.
    + replace (start + S i)%nat with (S start + i)%nat by lia. apply IH. exact Hlook.
    + intros Heq. apply (inj pretty) in Heq. lia.
Qed.

Lemma lookup_freshDecorationIds next n i :
  (i < n)%nat ->
  freshDecorationIds next n !! i = Some (pretty (next + N.of_nat i)%N).
Proof.
  intros Hi. unfold freshDecorationIds.
  change (List.map ?f ?l) with (f <$> l). rewrite list_lookup_fmap.
  rewrite lookup_seq_lt by exact Hi. reflexivity.
Qed.

(** After a recompute, the decoration at index [i] of the emitted list
    answers with the range it handed to the editor. *)
Lemma _doUpdate_activeRange
    self editor model commentInfos emphasisLine selectionRange i d :
  getModel editor = Some model ->
  freshIdsUnused model ->
  commentingRangeDecorations
    (_doUpdate self editor commentInfos emphasisLine selectionRange).1.1 !! i = Some d ->
  CommentingRangeDecoration.getActiveRange
    (_doUpdate self editor commentInfos emphasisLine selectionRange).1.2 d
  = Ok (Some (Range.lift (CommentingRangeDecoration.range d))).
Proof.
  intros Hmodel Hfresh. unfold _doUpdate. rewrite Hmodel. unfold deltaDecorations.
  cbv zeta.
  set (decs := flat_map _ commentInfos).
  set (news := List.map (fun d => (CommentingRangeDecoration.range d,
                                   CommentingRangeDecorator_description)) decs).
  cbn [fst snd commentingRangeDecorations].
  intros Hin. apply list_lookup_imap_Some in Hin as (d0 & Hlook & ->).
  assert (Hi : (i < length news)%nat).
  { unfold news. rewrite length_map. apply lookup_lt_Some in Hlook. exact Hlook. }
  rewrite (lookup_freshDecorationIds _ _ _ Hi).
  unfold CommentingRangeDecoration.getActiveRange.
  cbn [CommentingRangeDecoration.id CommentingRangeDecoration.set_id
       CommentingRangeDecoration._decorationId].
  rewrite bool_decide_eq_false_2 by apply pretty_N_nonempty.
  cbn [getModel ed_model]. unfold getDecorationRange. cbn [tm_decorations].
  rewrite find_app_l.
  - unfold freshDecorationIds.
    assert (Hnews : news !! i = Some (CommentingRangeDecoration.range d0,
                                      CommentingRangeDecorator_description)).
    { unfold news. change (List.map ?f ?l) with (f <$> l).
      rewrite list_lookup_fmap, Hlook. reflexivity. }
    pose proof (find_fresh (tm_nextDecorationId model) news 0 i _ Hnews) as Hfind.
    rewrite Nat.add_0_l in Hfind. rewrite Hfind. reflexivity.
  - apply List.Forall_forall. intros g Hg. apply filter_In in Hg as [Hg _].
    apply bool_decide_eq_false. apply Hfresh; [exact Hg | lia].
Qed.

(** X6: after a recompute on a model whose fresh marker ids are unused,
    every emitted decoration answers [getActiveRange] with the range it
    handed to the editor (its start and end line, columns 1), and the fresh
    ids of the model left behind are unused again. *)
Theorem _doUpdate_active_ranges
    self editor model commentInfos emphasisLine selectionRange :
  getModel editor = Some model ->
  freshIdsUnused model ->
  (forall d,
      In d (commentingRangeDecorations
              (_doUpdate self editor commentInfos emphasisLine selectionRange).1.1) ->
      CommentingRangeDecoration.getActiveRange
        (_doUpdate self editor commentInfos emphasisLine selectionRange).1.2 d
      = Ok (Some (Range.lift (CommentingRangeDecoration.range d))))
  /\ exists model',
      getModel (_doUpdate self editor commentInfos emphasisLine selectionRange).1.2
      = Some model'
      /\ freshIdsUnused model'.
Proof.
  intros Hmodel Hfresh. split.
  - intros d Hin. apply list_elem_of_In, list_elem_of_lookup_1 in Hin as [i Hi].
    exact (_doUpdate_activeRange _ _ _ _ _ _ _ _ Hmodel Hfresh Hi).
  - unfold _doUpdate. rewrite Hmodel. unfold deltaDecorations. cbv zeta.
    cbn [fst snd]. eexists. split; [reflexivity |].
    intros g k Hg Hk. cbn [tm_decorations tm_nextDecorationId] in Hg, Hk.
    apply in_app_iff in Hg as [Hg | Hg].
    + apply filter_In in Hg as [Hg _]. apply Hfresh; [exact Hg | lia].
    + apply in_map_iff in Hg as ([id [r desc]] & <- & Hg). cbn [md_id fst].
      apply in_combine_l in Hg. unfold freshDecorationIds in Hg.
      apply in_map_iff in Hg as (j & <- & Hj). apply in_seq in Hj.
      intros Heq. apply (inj pretty) in Heq. lia.
Qed.

(** X6 at work: a first recompute on a model without markers. *)
Lemma _doUpdate_active_ranges_witness :
  (forall d,
      In d (commentingRangeDecorations
              (_doUpdate CommentingRangeDecorator.new plainEditor [twoLinesInfo]
                         None None).1.1) ->
      CommentingRangeDecoration.getActiveRange
        (_doUpdate CommentingRangeDecorator.new plainEditor [twoLinesInfo] None None).1.2 d
      = Ok (Some (Range.lift (CommentingRangeDecoration.range d))))
  /\ exists model',
      getModel (_doUpdate CommentingRangeDecorator.new plainEditor [twoLinesInfo]
                          None None).1.2
      = Some model'
      /\ freshIdsUnused model'.
Proof.
  apply (_doUpdate_active_ranges CommentingRangeDecorator.new plainEditor sampleModel
           [twoLinesInfo] None None).
  - reflexivity.
  - intros d k [].
Defined.

(** X7: update, then hit-test.  After a recompute without emphasis and
    selection on a model whose fresh marker ids are unused, a hit range that
    lies within the lines of a provider range of a comment info gets that
    info's owner back from [getMatchedCommentAction], provided the comment
    infos of that owner share one [commentingRanges] object. *)
Theorem hit_inside_provider_range_is_matched self editor model commentInfos info R H :
  getModel editor = Some model ->
  freshIdsUnused model ->
  _lastSelection self = None ->
  _lastSelectionCursor self = None ->
  (forall info' range,
      In info' commentInfos -> In range (ranges (commentingRanges info')) ->
      0 <= startLineNumber range /\ 0 <= endLineNumber range) ->
  (forall info',
      In info' commentInfos -> owner info' = owner info ->
      cr_identity (commentingRanges info') = cr_identity (commentingRanges info)) ->
  In info commentInfos ->
  In R (ranges (commentingRanges info)) ->
  startLineNumber R <= startLineNumber H ->
  startLineNumber H <= endLineNumber H ->
  endLineNumber H <= endLineNumber R ->
  ownerReturned
    (getMatchedCommentAction (_doUpdate self editor commentInfos None None).1.1
                             (_doUpdate self editor commentInfos None None).1.2 (Some H))
    (owner info).
Proof.
  intros Hmodel Hfresh Hsel Hcur Hlines Hsame Hinfo HR Hlo Hord Hhi.
  set (after := _doUpdate self editor commentInfos None None).
  assert (Hmodel' : exists model', getModel after.1.2 = Some model').
  { unfold after, _doUpdate. rewrite Hmodel. unfold deltaDecorations. cbv zeta.
    cbn [fst snd]. eexists. reflexivity. }
  destruct Hmodel' as [model' Hmodel'].
  (* the decoration of [R] *)
  assert (Hd : exists i d,
             commentingRangeDecorations after.1.1 !! i = Some d
             /\ CommentingRangeDecoration._ownerId d = owner info
             /\ CommentingRangeDecoration.range d
                = mkIRange (startLineNumber R) 1 (endLineNumber R) 1).
  { assert (Hin : In (CommentingRangeDecoration.new
                        (owner info) (info_extensionId info) (info_label info)
                        R decorationOptions (commentingRanges info) false)
                     (flat_map (fun info =>
                                  flat_map (decorateRange editor info (-1) None)
                                           (ranges (commentingRanges info)))
                               commentInfos)).
    { rewrite (decorateRanges_plain editor commentInfos Hlines).
      apply in_flat_map. exists info. split; [exact Hinfo |].
      apply in_map_iff. exists R. split; [reflexivity | exact HR]. }
    apply list_elem_of_In, list_elem_of_lookup_1 in Hin as [i Hi].
    unfold after, _doUpdate. rewrite Hmodel, Hsel, Hcur. unfold deltaDecorations.
    cbv zeta. cbn [fst snd commentingRangeDecorations default from_option].
    eexists i, _. split; [apply list_lookup_imap_Some; eexists; split; [exact Hi | reflexivity] |].
    split; reflexivity. }
  destruct Hd as (i & d & Hi & Hdowner & Hdrange).
  assert (Hactive : activeRangeOf after.1.2 d
                    = Some (mkIRange (startLineNumber R) 1 (endLineNumber R) 1)).
  { unfold activeRangeOf, after.
    rewrite (_doUpdate_activeRange _ _ _ _ _ _ _ _ Hmodel Hfresh Hi), Hdrange.
    unfold Range.lift, Range.new. cbn [startLineNumber endLineNumber startColumn endColumn].
    assert (Hgt : (startLineNumber R >? endLineNumber R) = false)
      by (rewrite Z.gtb_ltb; apply Z.ltb_ge; lia).
    rewrite Hgt, Z.gtb_ltb, Z.ltb_irrefl, andb_false_r. reflexivity. }
  assert (Htouch : In d (touchingDecorations after.1.2 H (owner info)
                           (commentingRangeDecorations after.1.1))).
  { apply filter_In. split.
    - apply list_elem_of_In. exact (list_elem_of_lookup_2 _ _ _ Hi).
    - rewrite (bool_decide_eq_true_2 _ Hdowner). cbn [andb].
      unfold touchesHit. rewrite Hactive. unfold areRangesIntersectingOrTouchingByLine.
      cbn [startLineNumber endLineNumber].
      destruct (endLineNumber R <? startLineNumber H - 1) eqn:H1;
        [apply Z.ltb_lt in H1; lia |].
      destruct (endLineNumber H + 1 <? startLineNumber R) eqn:H2;
        [apply Z.ltb_lt in H2; lia | reflexivity]. }
  assert (Hclaim : In (mkIRange (startLineNumber R) 1 (endLineNumber R) 1)
                      (touchingClaims after.1.2 H (owner info)
                         (commentingRangeDecorations after.1.1))).
  { unfold touchingClaims. apply list_elem_of_In, list_elem_of_omap.
    exists d. split; [apply list_elem_of_In; exact Htouch | exact Hactive]. }
  assert (Hone : forall d1 d2,
             In d1 (touchingDecorations after.1.2 H (owner info)
                      (commentingRangeDecorations after.1.1)) ->
             In d2 (touchingDecorations after.1.2 H (owner info)
                      (commentingRangeDecorations after.1.1)) ->
             cr_identity (CommentingRangeDecoration._commentingRangesInfo d1)
             = cr_identity (CommentingRangeDecoration._commentingRangesInfo d2)).
  { assert (Hid : forall d0,
               In d0 (touchingDecorations after.1.2 H (owner info)
                        (commentingRangeDecorations after.1.1)) ->
               cr_identity (CommentingRangeDecoration._commentingRangesInfo d0)
               = cr_identity (commentingRanges info)).
    { intros d0 Hd0. apply filter_In in Hd0 as [Hd0 Hown].
      apply andb_prop in Hown as [Hown _]. apply bool_decide_eq_true in Hown.
      destruct (_doUpdate_emitted _ _ _ _ _ _ _ Hmodel Hd0)
        as (info' & rg & d' & j & Hinfo' & _ & Hd' & ->).
      apply decorateRange_constructed in Hd' as (_ & _ & Ho & Hc).
      cbn [CommentingRangeDecoration.set_id CommentingRangeDecoration._ownerId
           CommentingRangeDecoration._commentingRangesInfo] in *.
      rewrite Hc. apply Hsame; [exact Hinfo' | congruence]. }
    intros d1 d2 H1 H2. rewrite (Hid _ H1), (Hid _ H2). reflexivity. }
  destruct (matchDecorations_merged after.1.2 model' H (owner info)
              (commentingRangeDecorations after.1.1) Hmodel' Hone
              (commentingRangeDecorations after.1.1) [] (eq_sym (app_nil_r _)))
    as (found & Hfold & Hwf & Hmerged).
  rewrite (ownerReturned_iff _ _ _ _ found Hfold Hwf).
  unfold mergedFor in Hmerged.
  destruct (map_get (owner info) found) as [[r a] |].
  - destruct Hmerged as (_ & Hstart & Hend & _).
    exists (r, a). split; [reflexivity |]. unfold containsHit. cbn [fst].
    apply andb_true_iff. split; apply Z.leb_le.
    + apply Hstart. eexists. split; [exact Hclaim |]. exact Hlo.
    + apply Hend. eexists. split; [exact Hclaim |]. exact Hhi.
  - rewrite Hmerged in Htouch. destruct Htouch.
Qed.

(** X7 at work: the provider range 5..10 and the hit range 6..7. *)
Lemma hit_inside_provider_range_is_matched_witness :
  ownerReturned
    (getMatchedCommentAction
       (_doUpdate CommentingRangeDecorator.new plainEditor [sampleInfo] None None).1.1
       (_doUpdate CommentingRangeDecorator.new plainEditor [sampleInfo] None None).1.2
       (Some (mkIRange 6 1 7 1)))
    (owner sampleInfo).
Proof.
  apply (hit_inside_provider_range_is_matched CommentingRangeDecorator.new plainEditor
           sampleModel [sampleInfo] sampleInfo (mkIRange 5 1 10 1) (mkIRange 6 1 7 1));
    try reflexivity; try (simpl; lia).
  - intros d k [].
  - intros info range [<- | []] [<- | []]. simpl. lia.
  - intros info [<- | []] _. reflexivity.
  - left. reflexivity.
  - left. reflexivity.
Defined.

End MarkerIds.

(** * Editor listeners, reserved gutter space and the commenting switch *)

Section Listeners.

(** The count a recompute fires, against the number of decorations before
    and after. *)
Lemma _doUpdate_count d e infos c s d' e' fired :
  CommentingRangeDecorator._doUpdate d e infos c s = (d', e', fired) ->
  (fired = None
   /\ length (CommentingRangeDecorator.commentingRangeDecorations d')
      = length (CommentingRangeDecorator.commentingRangeDecorations d))
  \/ (fired = Some (length (CommentingRangeDecorator.commentingRangeDecorations d'))
      /\ length (CommentingRangeDecorator.commentingRangeDecorations d')
         <> length (CommentingRangeDecorator.commentingRangeDecorations d)).
Proof.
  unfold CommentingRangeDecorator._doUpdate.
  destruct (getModel e); [| intros [= <- <- <-]; left; split; reflexivity].
  destruct (deltaDecorations _ _ _) as [model' ids].
  match goal with
  | |- context [if ?c =? 0 then _ else _] => destruct (c =? 0) eqn:Hdiff
  end; intros [= <- <- <-]; cbn [CommentingRangeDecorator.commentingRangeDecorations].
  - left. split; [reflexivity |]. apply Z.eqb_eq in Hdiff. lia.
  - right. split; [reflexivity |]. apply Z.eqb_neq in Hdiff. lia.
Qed.

(** X8: the controller's editor listeners follow the decorations.  If,
    before the controller updates its decorator, listeners are registered
    exactly when the decorator holds at least one decoration, then the same
    holds afterwards: a count event of zero clears them, a count event above
    zero registers them when none are. *)
Theorem decoratorUpdate_keeps_listeners_in_step self infos :
  (CommentingRangeDecorator.commentingRangeDecorations (_commentingRangeDecorator self) = []
   <-> _editorDisposables self = 0%nat) ->
  (CommentingRangeDecorator.commentingRangeDecorations
     (_commentingRangeDecorator (decoratorUpdate self infos)) = []
   <-> _editorDisposables (decoratorUpdate self infos) = 0%nat).
Proof.
  intros Hinv. unfold decoratorUpdate, CommentingRangeDecorator.update.
  destruct (editor self) as [e |] eqn:He; [| cbn; exact Hinv].
  destruct (CommentingRangeDecorator._doUpdate _ e infos None None) as [[d' e'] fired] eqn:Hupd.
  apply _doUpdate_count in Hupd as [[-> Hlen] | [-> Hlen]];
    cbn [CommentingRangeDecorator.with_infos
         CommentingRangeDecorator.commentingRangeDecorations] in Hlen.
  - cbn. rewrite <- Hinv.
    destruct (CommentingRangeDecorator.commentingRangeDecorations d'),
      (CommentingRangeDecorator.commentingRangeDecorations (_commentingRangeDecorator self));
      try discriminate; split; intros; try reflexivity; discriminate.
  - destruct (CommentingRangeDecorator.commentingRangeDecorations d') as [| x l] eqn:Hd'.
    + cbn. rewrite Hd'. split; reflexivity.
    + cbn [length onDidChangeDecorationsCount].
      destruct (Nat.eqb _ 0) eqn:Hdisp; cbn; rewrite Hd'.
      * split; discriminate.
      * apply Nat.eqb_neq in Hdisp. cbn in Hdisp. split; [discriminate | contradiction].
Qed.

(** X8 at work: a controller without decorations and without listeners gets
    the range 5..10 to decorate. *)
Lemma decoratorUpdate_keeps_listeners_in_step_witness :
  CommentingRangeDecorator.commentingRangeDecorations
    (_commentingRangeDecorator (decoratorUpdate sampleController [sampleInfo])) = []
  <-> _editorDisposables (decoratorUpdate sampleController [sampleInfo]) = 0%nat.
Proof.
  apply (decoratorUpdate_keeps_listeners_in_step sampleController [sampleInfo]).
  split; reflexivity.
Defined.

End Listeners.

Section ReservedSpace.

(** [tryUpdateReservedSpace] sets the flag to "has comments or ranges, and
    commenting is enabled" and tells the editor when that changes it. *)
Lemma tryUpdateReservedSpace_sets self :
  is_Some (editor self) ->
  tryUpdateReservedSpace self
  = if bool_decide (_commentingRangeSpaceReserved self
                    = hasCommentsOrRanges self && isCommentingEnabled (services self))
    then self
    else perform
           (set_spaceReserved self
              (hasCommentsOrRanges self && isCommentingEnabled (services self)))
           [UpdateEditorLayoutOptions
              (hasCommentsOrRanges self && isCommentingEnabled (services self))].
Proof.
  destruct self as [ed ws infos dec reserved adding queue news edits disposables svc effs].
  intros [e He]. cbn in He. subst ed.
  unfold tryUpdateReservedSpace, hasCommentsOrRanges.
  cbn [editor CommentController._commentInfos services _commentingRangeSpaceReserved].
  cbv zeta.
  destruct (existsb _ infos), reserved, (isCommentingEnabled svc); reflexivity.
Qed.

Lemma hasCommentsOrRanges_iff self :
  hasCommentsOrRanges self = true
  <-> exists info, In info (_commentInfos self)
                   /\ (ranges (commentingRanges info) <> [] \/ threads info <> []).
Proof.
  unfold hasCommentsOrRanges. rewrite existsb_exists.
  split; intros (info & Hin & H); exists info; (split; [exact Hin |]).
  - apply orb_prop in H as [H | H]; [left | right];
      apply negb_true_iff, Nat.eqb_neq in H; intros E; rewrite E in H; apply H; reflexivity.
  - apply orb_true_iff. destruct H as [H | H]; [left | right];
      apply negb_true_iff, Nat.eqb_neq; intros E; apply H;
      [destruct (ranges (commentingRanges info)) | destruct (threads info)];
      first [reflexivity | discriminate].
Qed.

(** X9: [tryUpdateReservedSpace] settles.  A second call changes nothing;
    the editor's layout options are updated exactly when the reserved-space
    flag flips, with the new value of the flag; and with an editor the flag
    ends up set exactly when commenting is enabled and some comment info has
    a commenting range or a thread. *)
Theorem tryUpdateReservedSpace_settles self :
  tryUpdateReservedSpace (tryUpdateReservedSpace self) = tryUpdateReservedSpace self
  /\ effects (tryUpdateReservedSpace self)
     = effects self
       ++ (if bool_decide (_commentingRangeSpaceReserved (tryUpdateReservedSpace self)
                           = _commentingRangeSpaceReserved self)
           then []
           else [UpdateEditorLayoutOptions
                   (_commentingRangeSpaceReserved (tryUpdateReservedSpace self))])
  /\ (is_Some (editor self) ->
      (_commentingRangeSpaceReserved (tryUpdateReservedSpace self) = true
       <-> isCommentingEnabled (services self) = true
           /\ exists info, In info (_commentInfos self)
                           /\ (ranges (commentingRanges info) <> []
                               \/ threads info <> []))).
Proof.
  destruct (editor self) as [ed |] eqn:He.
  2:{ assert (Hid : tryUpdateReservedSpace self = self)
        by (unfold tryUpdateReservedSpace; rewrite He; reflexivity).
      rewrite !Hid. split; [reflexivity |]. split; [| intros [? [=]]].
      rewrite bool_decide_eq_true_2 by reflexivity. symmetry. apply app_nil_r. }
  assert (Hed : is_Some (editor self)) by (rewrite He; eauto).
  pose proof (tryUpdateReservedSpace_sets self Hed) as Hone.
  rewrite <- hasCommentsOrRanges_iff.
  destruct (bool_decide (_commentingRangeSpaceReserved self
                         = hasCommentsOrRanges self && isCommentingEnabled (services self)))
    eqn:Hdec.
  - rewrite !Hone. apply bool_decide_eq_true in Hdec.
    split; [reflexivity |]. split.
    + rewrite bool_decide_eq_true_2 by reflexivity. symmetry. apply app_nil_r.
    + intros _. rewrite Hdec, andb_true_iff. tauto.
  - apply bool_decide_eq_false in Hdec.
    assert (Hed' : is_Some (editor (tryUpdateReservedSpace self)))
      by (rewrite Hone; exact Hed).
    split; [| split].
    + rewrite (tryUpdateReservedSpace_sets _ Hed').
      rewrite bool_decide_eq_true_2; [reflexivity |]. rewrite Hone. reflexivity.
    + rewrite Hone. cbn [perform set_spaceReserved effects _commentingRangeSpaceReserved].
      rewrite bool_decide_eq_false_2 by congruence. reflexivity.
    + intros _. rewrite Hone. cbn [perform set_spaceReserved _commentingRangeSpaceReserved].
      rewrite andb_true_iff. tauto.
Qed.

(** X9 at work: a controller on an editor, with the provider of the range
    1..9 and commenting enabled. *)
Lemma tryUpdateReservedSpace_settles_witness :
  _commentingRangeSpaceReserved (tryUpdateReservedSpace (showingThreadA None)) = true
  <-> isCommentingEnabled (services (showingThreadA None)) = true
      /\ exists info, In info (_commentInfos (showingThreadA None))
                      /\ (ranges (commentingRanges info) <> [] \/ threads info <> []).
Proof.
  apply (proj2 (proj2 (tryUpdateReservedSpace_settles (showingThreadA None)))).
  eexists. reflexivity.
Defined.

End ReservedSpace.

Section LayoutOptions.

Lemma split_space_cons s : exists piece pieces, split_space s = piece :: pieces.
Proof.
  induction s as [| c s IH]; cbn [split_space]; [eauto |].
  destruct (Ascii.eqb c Ascii.Space); [eauto |].
  destruct IH as (piece & pieces & ->). eauto.
Qed.

(** [s.split(' ').join(' ')] is [s]. *)
Lemma join_split_space s : join_space (split_space s) = s.
Proof.
  induction s as [| c s IH]; [reflexivity |]. cbn [split_space].
  destruct (Ascii.eqb c Ascii.Space) eqn:Hc.
  - apply Ascii.eqb_eq in Hc. subst c.
    destruct (split_space_cons s) as (piece & pieces & Hs). rewrite Hs in *.
    cbn [join_space]. cbn [join_space] in IH. rewrite IH. reflexivity.
  - destruct (split_space_cons s) as (piece & pieces & Hs). rewrite Hs in *.
    cbn [join_space] in *. destruct pieces; rewrite <- IH; reflexivity.
Qed.

Lemma split_space_spaceless w : spaceless w = true -> split_space w = [w].
Proof.
  induction w as [| c w IH]; [reflexivity |]. cbn [spaceless split_space].
  intros H. apply andb_true_iff in H as [Hc Hw]. apply negb_true_iff in Hc.
  rewrite Hc, (IH Hw). reflexivity.
Qed.

Lemma split_space_app w s :
  spaceless w = true ->
  split_space (w +:+ " " +:+ s) = w :: split_space s.
Proof.
  induction w as [| c w IH]; [reflexivity |]. cbn [spaceless].
  intros H. apply andb_true_iff in H as [Hc Hw]. apply negb_true_iff in Hc.
  change (String c w +:+ " " +:+ s) with (String c (w +:+ " " +:+ s)).
  cbn [split_space]. rewrite Hc, (IH Hw). reflexivity.
Qed.

Lemma split_space_pieces s : Forall (fun w => spaceless w = true) (split_space s).
Proof.
  induction s as [| c s IH]; cbn [split_space]; [repeat constructor |].
  destruct (Ascii.eqb c Ascii.Space) eqn:Hc; [constructor; [reflexivity | exact IH] |].
  destruct (split_space s) as [| piece pieces]; [repeat constructor; cbn; rewrite Hc; reflexivity |].
  apply Forall_cons in IH as [Hp Hps]. constructor; [| exact Hps].
  cbn [spaceless]. rewrite Hc, Hp. reflexivity.
Qed.

(** [a.join(' ').split(' ')] is [a], for class names without spaces. *)
Lemma split_join_space a :
  a <> [] -> Forall (fun w => spaceless w = true) a -> split_space (join_space a) = a.
Proof.
  induction a as [| w [| w' rest] IH]; intros Hne Hall; [contradiction | |].
  - cbn [join_space]. apply split_space_spaceless. apply Forall_cons in Hall as [Hw _]. exact Hw.
  - apply Forall_cons in Hall as [Hw Hall].
    change (join_space (w :: w' :: rest)) with (w +:+ " " +:+ join_space (w' :: rest)).
    rewrite (split_space_app _ _ Hw), IH; [reflexivity | discriminate | exact Hall].
Qed.

Lemma removeFirst_snoc {A} (p : A -> bool) l x :
  Forall (fun y => p y = false) l -> p x = true -> removeFirst p (l ++ [x]) = l.
Proof.
  intros Hl Hx. induction Hl as [| y l Hy Hl IH]; cbn [app removeFirst].
  - rewrite Hx. reflexivity.
  - rewrite Hy, IH. reflexivity.
Qed.

(** X10: [getWithoutCommentsEditorOptions] undoes
    [getWithCommentsEditorOptions] on the same editor options: the line
    decorations width comes back whatever the folding options are, and the
    class names come back when "inline-comment" was not among them. *)
Theorem getWithoutCommentsEditorOptions_undoes editor extraEditorClassName width :
  snd (getWithoutCommentsEditorOptions editor
         (snd (getWithCommentsEditorOptions editor extraEditorClassName width))
         (fst (getWithCommentsEditorOptions editor extraEditorClassName width)))
  = width
  /\ (~ In "inline-comment" extraEditorClassName ->
      fst (getWithoutCommentsEditorOptions editor
             (snd (getWithCommentsEditorOptions editor extraEditorClassName width))
             (fst (getWithCommentsEditorOptions editor extraEditorClassName width)))
      = extraEditorClassName).
Proof.
  unfold getWithoutCommentsEditorOptions, getWithCommentsEditorOptions. cbv zeta.
  cbn [fst snd]. split.
  - destruct (opt_folding editor && _); lia.
  - intros Hnotin. apply removeFirst_snoc; [| apply bool_decide_eq_true; reflexivity].
    apply List.Forall_forall. intros name Hin. apply bool_decide_eq_false.
    intros ->. contradiction.
Qed.

(** X10 at work: the class names "monaco" and "dark". *)
Lemma getWithoutCommentsEditorOptions_undoes_witness :
  fst (getWithoutCommentsEditorOptions optionsBefore
         (snd (getWithCommentsEditorOptions optionsBefore ["monaco"; "dark"] 10))
         (fst (getWithCommentsEditorOptions optionsBefore ["monaco"; "dark"] 10)))
  = ["monaco"; "dark"].
Proof.
  apply (proj2 (getWithoutCommentsEditorOptions_undoes optionsBefore ["monaco"; "dark"] 10)).
  simpl. intros [H | [H | []]]; discriminate.
Defined.

(** X11: reserving the gutter space and giving it back is a round trip on
    the editor's options.  If the editor took the options handed to it when
    the space was reserved (class names, width) and its folding options are
    unchanged, the options handed to it when the space is given back are the
    class-name string and the width it had before (an unset class-name string
    comes back empty), as long as "inline-comment" was not a class name of
    its own. *)
Theorem reservedSpaceOptions_round_trip before after :
  ~ In "inline-comment" (snd (getExistingCommentEditorOptions before)) ->
  opt_extraEditorClassName after = Some (fst (reservedSpaceOptions true before)) ->
  opt_lineDecorationsWidth after = snd (reservedSpaceOptions true before) ->
  opt_folding after = opt_folding before ->
  opt_showFoldingControls after = opt_showFoldingControls before ->
  reservedSpaceOptions false after
  = (default "" (opt_extraEditorClassName before), opt_lineDecorationsWidth before).
Proof.
  intros Hnotin Hclass Hwidth Hfolding Hcontrols.
  set (existing := snd (getExistingCommentEditorOptions before)) in *.
  assert (Hpieces : Forall (fun w => spaceless w = true) existing).
  { unfold existing, getExistingCommentEditorOptions. cbn [snd].
    destruct (truthy _); [apply split_space_pieces | constructor]. }
  assert (Hjoin : join_space existing = default "" (opt_extraEditorClassName before)).
  { unfold existing, getExistingCommentEditorOptions. cbn [snd].
    destruct (opt_extraEditorClassName before) as [s |]; cbn [truthy default];
      [| reflexivity].
    destruct (bool_decide (s = "")) eqn:Hs; cbn [negb].
    - apply bool_decide_eq_true in Hs. subst s. reflexivity.
    - apply join_split_space. }
  assert (Hreserved : reservedSpaceOptions true before
                      = (join_space (existing ++ ["inline-comment"]),
                         fst (getWithCommentsEditorOptions before existing
                                (opt_lineDecorationsWidth before)))).
  { reflexivity. }
  rewrite Hreserved in Hclass, Hwidth. cbn [fst snd] in Hclass, Hwidth.
  assert (Hall : Forall (fun w => spaceless w = true) (existing ++ ["inline-comment"])).
  { apply Forall_app. split; [exact Hpieces | repeat constructor]. }
  assert (Hsplit : split_space (join_space (existing ++ ["inline-comment"]))
                   = existing ++ ["inline-comment"]).
  { apply split_join_space; [| exact Hall]. destruct existing; discriminate. }
  assert (Htruthy : truthy (Some (join_space (existing ++ ["inline-comment"]))) = true).
  { cbn [truthy]. apply negb_true_iff, bool_decide_eq_false. intros Hempty.
    rewrite Hempty in Hsplit. cbn [split_space] in Hsplit.
    destruct existing as [| w [| w' rest]]; discriminate. }
  unfold reservedSpaceOptions, getExistingCommentEditorOptions.
  rewrite Hclass, Htruthy. cbn [default from_option]. unfold id. rewrite Hsplit, Hwidth.
  unfold updateEditorLayoutOptions. cbn [fst snd].
  unfold getWithoutCommentsEditorOptions, getWithCommentsEditorOptions. cbv zeta.
  cbn [fst snd]. rewrite Hfolding, Hcontrols.
  rewrite removeFirst_snoc; [| | apply bool_decide_eq_true; reflexivity].
  - rewrite Hjoin. f_equal. destruct (opt_folding before && _); lia.
  - apply List.Forall_forall. intros name Hin. apply bool_decide_eq_false.
    intros ->. contradiction.
Qed.

(** X11 at work: width 10 and the class names "monaco dark", with folding
    controls shown; the reservation hands over width 23 and "monaco dark
    inline-comment". *)
Lemma reservedSpaceOptions_round_trip_witness :
  reservedSpaceOptions true optionsBefore = ("monaco dark inline-comment", 23)
  /\ reservedSpaceOptions false optionsReserved = ("monaco dark", 10).
Proof.
  split; [reflexivity |].
  apply (reservedSpaceOptions_round_trip optionsBefore optionsReserved); try reflexivity.
  simpl. intros [H | [H | []]]; discriminate.
Defined.

End LayoutOptions.

Section CommentingSwitch.

Lemma decoratorUpdate_nil self :
  _commentingRangeSpaceReserved (decoratorUpdate self [])
  = _commentingRangeSpaceReserved self
  /\ (_editorDisposables self = 0%nat -> _editorDisposables (decoratorUpdate self []) = 0%nat)
  /\ (is_Some (editor self ≫= getModel) ->
      CommentingRangeDecorator.commentingRangeDecorations
        (_commentingRangeDecorator (decoratorUpdate self [])) = []).
Proof.
  unfold decoratorUpdate, CommentingRangeDecorator.update.
  destruct (editor self) as [ed |] eqn:Hed; cbn [mbind option_bind].
  2:{ cbn. repeat split; auto. intros [? [=]]. }
  unfold CommentingRangeDecorator._doUpdate.
  destruct (getModel ed) as [model |] eqn:Hmodel.
  2:{ cbn. repeat split; auto. intros [? [=]]. }
  unfold deltaDecorations.
  cbn [flat_map List.map imap length combine freshDecorationIds seq
       CommentingRangeDecorator.with_infos
       CommentingRangeDecorator.commentingRangeDecorations].
  destruct (_ =? 0) eqn:Hdiff; cbn; repeat split; auto.
Qed.

(** X12: switching commenting off.  When the comment service reports that
    commenting is disabled, the handler leaves no thread widget and no editor
    listener; with an editor the reserved gutter space is given back, and
    with a model no commenting-range decoration is left.  The draft caches
    are not written: what was typed into the widgets is not kept. *)
Theorem onDidChangeCommentingEnabled_off self :
  isCommentingEnabled (services self) = false ->
  _commentWidgets (onDidChangeCommentingEnabled self false) = []
  /\ _editorDisposables (onDidChangeCommentingEnabled self false) = 0%nat
  /\ (is_Some (editor self) ->
      _commentingRangeSpaceReserved (onDidChangeCommentingEnabled self false) = false)
  /\ (is_Some (editor self ≫= getModel) ->
      CommentingRangeDecorator.commentingRangeDecorations
        (_commentingRangeDecorator (onDidChangeCommentingEnabled self false)) = [])
  /\ _pendingNewCommentCache (onDidChangeCommentingEnabled self false)
     = _pendingNewCommentCache self
  /\ _pendingEditsCache (onDidChangeCommentingEnabled self false) = _pendingEditsCache self.
Proof.
  intros Hoff. unfold onDidChangeCommentingEnabled.
  cbn [set_commentWidgets _commentWidgets _editorDisposables _commentingRangeSpaceReserved
       _commentingRangeDecorator _pendingNewCommentCache _pendingEditsCache perform].
  set (s1 := clearEditorListeners (tryUpdateReservedSpace self)).
  destruct (tryUpdateReservedSpace_frame self) as (He & Hs & Hw & Hi & Hn & Hp).
  destruct (decoratorUpdate_nil s1) as (Hres & Hdisp & Hdecs).
  destruct (decoratorUpdate_frame s1 []) as (_ & Hn' & Hp').
  split; [reflexivity |]. split; [apply Hdisp; reflexivity |].
  split; [| split; [| split]].
  - intros Hed. rewrite Hres. unfold s1, clearEditorListeners.
    cbn [set_editorDisposables _commentingRangeSpaceReserved].
    rewrite (tryUpdateReservedSpace_sets self Hed), Hoff, andb_false_r.
    destruct (bool_decide _) eqn:Hdec; [apply bool_decide_eq_true in Hdec; exact Hdec |].
    reflexivity.
  - intros Hmodel. apply Hdecs. unfold s1, clearEditorListeners.
    cbn [set_editorDisposables editor]. rewrite He. exact Hmodel.
  - rewrite Hn'. unfold s1, clearEditorListeners.
    cbn [set_editorDisposables _pendingNewCommentCache]. exact Hn.
  - rewrite Hp'. unfold s1, clearEditorListeners.
    cbn [set_editorDisposables _pendingEditsCache]. exact Hp.
Qed.

(** X12 at work: commenting is switched off while "ab" is typed into the
    widget of thread "t1"; the widget goes and no draft is cached. *)
Lemma onDidChangeCommentingEnabled_off_witness :
  _commentWidgets
    (onDidChangeCommentingEnabled
       (set_services (showingThreadA (Some "ab")) disabledServices) false) = []
  /\ lookupDraft
       (_pendingNewCommentCache
          (onDidChangeCommentingEnabled
             (set_services (showingThreadA (Some "ab")) disabledServices) false))
       "O" "t1" = None.
Proof.
  destruct (onDidChangeCommentingEnabled_off
              (set_services (showingThreadA (Some "ab")) disabledServices) eq_refl)
    as (Hw & _ & _ & _ & Hn & _).
  split; [exact Hw |]. rewrite Hn. reflexivity.
Defined.

End CommentingSwitch.

(** * Drafts, pending edits and what is redisplayed *)

Section DraftsAndEdits.

(** X13: when a data provider is deleted, the drafts and pending edits
    cached for it are forgotten and those of the other providers stay; an
    absent or empty owner id forgets the drafts and edits of every provider.
    The thread widgets are left alone. *)
Theorem onDidDeleteDataProvider_forgets self ownerId o t :
  lookupDraft (_pendingNewCommentCache (onDidDeleteDataProvider self ownerId)) o t
  = (if truthy ownerId && negb (bool_decide (ownerId = Some o))
     then lookupDraft (_pendingNewCommentCache self) o t else None)
  /\ lookupEdits (_pendingEditsCache (onDidDeleteDataProvider self ownerId)) o t
     = (if truthy ownerId && negb (bool_decide (ownerId = Some o))
        then lookupEdits (_pendingEditsCache self) o t else None)
  /\ _commentWidgets (onDidDeleteDataProvider self ownerId) = _commentWidgets self.
Proof.
  unfold onDidDeleteDataProvider, lookupDraft, lookupEdits.
  destruct (truthy ownerId) eqn:Htruthy; cbn.
  - destruct ownerId as [id |]; [| discriminate]. cbn.
    destruct (decide (Some id = Some o)) as [[= ->] | Hne].
    + rewrite bool_decide_eq_true_2 by reflexivity. cbn.
      rewrite !lookup_delete_eq. repeat split.
    + rewrite bool_decide_eq_false_2 by exact Hne. cbn.
      rewrite !lookup_delete_ne by congruence. repeat split.
  - rewrite !lookup_empty. repeat split.
Qed.

Lemma storeEdits_same (cache : gmap string (gmap string (gmap Z string))) z :
  lookupEdits (storeEdits cache z) (zone_owner z) (threadId (zone_commentThread z))
  = keptEdits z.
Proof.
  unfold storeEdits, lookupEdits, keptEdits.
  destruct (Nat.eqb (size (zone_edits z)) 0) eqn:Hsize; cbn [negb].
  - apply Nat.eqb_eq, map_size_empty_iff in Hsize.
    rewrite bool_decide_eq_true_2 by exact Hsize.
    destruct (cache !! zone_owner z) as [store |] eqn:Hstore.
    + rewrite lookup_insert_eq. simpl. apply lookup_delete_eq.
    + rewrite Hstore. reflexivity.
  - apply Nat.eqb_neq in Hsize. rewrite map_size_empty_iff in Hsize.
    rewrite bool_decide_eq_false_2 by exact Hsize.
    rewrite lookup_insert_eq. simpl. rewrite lookup_insert_eq. reflexivity.
Qed.

Lemma storeEdits_other (cache : gmap string (gmap string (gmap Z string))) z o t :
  (o, t) <> widgetKey z ->
  lookupEdits (storeEdits cache z) o t = lookupEdits cache o t.
Proof.
  unfold storeEdits, lookupEdits, widgetKey. intros Hne.
  destruct (decide (o = zone_owner z)) as [-> | Ho].
  - assert (Ht : threadId (zone_commentThread z) <> t) by congruence.
    destruct (negb _).
    + rewrite lookup_insert_eq. simpl. rewrite lookup_insert_ne by exact Ht.
      destruct (cache !! zone_owner z); reflexivity.
    + destruct (cache !! zone_owner z) as [store |] eqn:Hstore.
      * rewrite lookup_insert_eq. simpl. rewrite lookup_delete_ne by exact Ht. reflexivity.
      * rewrite Hstore. reflexivity.
  - destruct (negb _).
    + rewrite lookup_insert_ne by congruence. reflexivity.
    + destruct (cache !! zone_owner z) as [store |]; [| reflexivity].
      rewrite lookup_insert_ne by congruence. reflexivity.
Qed.

Lemma storeZones_edits ws : forall self,
  _pendingEditsCache (fold_left storeZone ws self)
  = fold_left storeEdits ws (_pendingEditsCache self).
Proof.
  induction ws as [| z ws IH]; simpl; intros self; [reflexivity |].
  rewrite IH. reflexivity.
Qed.

Lemma storeZones_effects ws : forall self,
  effects (fold_left storeZone ws self) = effects self ++ List.map DisposeZone ws.
Proof.
  induction ws as [| z ws IH]; simpl; intros self; [symmetry; apply app_nil_r |].
  rewrite IH. cbn. rewrite <- app_assoc. reflexivity.
Qed.

Lemma storeEdits_not_in ws o t : forall cache,
  ~ In (o, t) (List.map widgetKey ws) ->
  lookupEdits (fold_left storeEdits ws cache) o t = lookupEdits cache o t.
Proof.
  induction ws as [| z ws IH]; simpl; intros cache Hnotin; [reflexivity |].
  rewrite IH by tauto. apply storeEdits_other. intros Heq. apply Hnotin. auto.
Qed.

Lemma storeEdits_in ws z : forall cache,
  List.NoDup (List.map widgetKey ws) ->
  In z ws ->
  lookupEdits (fold_left storeEdits ws cache)
              (zone_owner z) (threadId (zone_commentThread z))
  = keptEdits z.
Proof.
  induction ws as [| z0 ws IH]; simpl; intros cache Hnd Hin; [destruct Hin |].
  apply List.NoDup_cons_iff in Hnd as [Hnotin Hnd].
  destruct Hin as [-> | Hin].
  - rewrite storeEdits_not_in by exact Hnotin. apply storeEdits_same.
  - apply IH; assumption.
Qed.

(** X14: [removeCommentWidgetsAndStoreCache] leaves no widget, disposes
    every widget it found, once and in order, and touches the cached draft
    and the cached edits of no (owner, thread id) that none of those widgets
    is filed under. *)
Theorem removeCommentWidgetsAndStoreCache_disposes_and_spares self :
  _commentWidgets (removeCommentWidgetsAndStoreCache self) = []
  /\ effects (removeCommentWidgetsAndStoreCache self)
     = effects self ++ List.map DisposeZone (_commentWidgets self)
  /\ forall o t,
      ~ In (o, t) (List.map widgetKey (_commentWidgets self)) ->
      lookupDraft (_pendingNewCommentCache (removeCommentWidgetsAndStoreCache self)) o t
      = lookupDraft (_pendingNewCommentCache self) o t
      /\ lookupEdits (_pendingEditsCache (removeCommentWidgetsAndStoreCache self)) o t
         = lookupEdits (_pendingEditsCache self) o t.
Proof.
  unfold removeCommentWidgetsAndStoreCache.
  cbn [set_commentWidgets _commentWidgets effects _pendingNewCommentCache _pendingEditsCache].
  split; [reflexivity |]. split; [apply storeZones_effects |].
  intros o t Hnotin. rewrite storeZones_cache, storeZones_edits.
  split; [apply storeNewComments_not_in | apply storeEdits_not_in]; exact Hnotin.
Qed.

(** X14 at work: the widget of thread "t1" is torn down; thread "t2" of the
    same owner has no widget. *)
Lemma removeCommentWidgetsAndStoreCache_disposes_and_spares_witness :
  lookupDraft
    (_pendingNewCommentCache (removeCommentWidgetsAndStoreCache (showingThreadA (Some "ab"))))
    "O" "t2"
  = lookupDraft (_pendingNewCommentCache (showingThreadA (Some "ab"))) "O" "t2"
  /\ lookupEdits
       (_pendingEditsCache (removeCommentWidgetsAndStoreCache (showingThreadA (Some "ab"))))
       "O" "t2"
     = lookupEdits (_pendingEditsCache (showingThreadA (Some "ab"))) "O" "t2".
Proof.
  apply (proj2 (proj2 (removeCommentWidgetsAndStoreCache_disposes_and_spares
                         (showingThreadA (Some "ab"))))).
  simpl. intros [H | []]. discriminate.
Defined.

(** X15: pending edits survive teardown and redisplay like the new-comment
    draft does.  For widgets filed under distinct (owner, thread id) keys,
    teardown caches a widget's pending edits when it has any and deletes the
    cached ones otherwise; every widget [setComments] then creates for that
    (owner, thread id) starts with exactly the cached edits, and it starts
    expanded when there are any. *)
Theorem edits_kept_across_redisplay self commentInfos z :
  is_Some (editor self ≫= getModel) ->
  isCommentingEnabled (services self) = true ->
  isEditorInlineOriginal (services self) = false ->
  List.NoDup (List.map widgetKey (_commentWidgets self)) ->
  In z (_commentWidgets self) ->
  lookupEdits (_pendingEditsCache (removeCommentWidgetsAndStoreCache self))
              (zone_owner z) (threadId (zone_commentThread z)) = keptEdits z
  /\ forall w,
      In w (_commentWidgets (setComments self commentInfos)) ->
      widgetKey w = widgetKey z ->
      zone_pendingEdits w = keptEdits z
      /\ (is_Some (keptEdits z) -> zone_expanded w = true).
Proof.
  intros Hm Hen Hinline Hnd Hz.
  split.
  { unfold removeCommentWidgetsAndStoreCache. cbn [set_commentWidgets _pendingEditsCache].
    rewrite storeZones_edits. apply storeEdits_in; assumption. }
  destruct (setComments_redisplays self commentInfos Hm Hen Hinline) as [Hw _].
  set (torn := removeCommentWidgetsAndStoreCache
                 (tryUpdateReservedSpace (set_commentInfos self commentInfos))) in *.
  assert (Hkept : lookupEdits (_pendingEditsCache torn)
                    (zone_owner z) (threadId (zone_commentThread z)) = keptEdits z).
  { unfold torn, removeCommentWidgetsAndStoreCache.
    cbn [set_commentWidgets _pendingEditsCache].
    rewrite storeZones_edits.
    destruct (tryUpdateReservedSpace_frame (set_commentInfos self commentInfos))
      as (_ & _ & Hws & _ & _ & Hedits).
    rewrite Hws, Hedits. cbn [set_commentInfos _commentWidgets _pendingEditsCache].
    apply storeEdits_in; assumption. }
  intros w Hin Hkey. rewrite Hw in Hin. unfold redisplayedZones in Hin.
  apply in_flat_map in Hin as (info' & _ & Hin).
  apply in_map_iff in Hin as (thread' & <- & _).
  assert (Hk : widgetKey (redisplayedZone (_pendingNewCommentCache torn)
                                          (_pendingEditsCache torn) (owner info') thread')
               = (owner info', threadId thread')).
  { unfold redisplayedZone, widgetKey. cbn zeta. destruct (_ || _); reflexivity. }
  rewrite Hk in Hkey. unfold widgetKey in Hkey. injection Hkey as Ho Ht.
  unfold redisplayedZone. cbn zeta. rewrite Ho, Ht, Hkept.
  cbn [createReviewZoneWidget zone_pendingEdits zone_expanded].
  split; [reflexivity |]. intros Hsome.
  rewrite (bool_decide_eq_true_2 _ Hsome), orb_true_r. reflexivity.
Qed.

(** X15 at work: the widget of thread "t1" holds an edit of comment 1. *)
Lemma edits_kept_across_redisplay_witness :
  lookupEdits
    (_pendingEditsCache (removeCommentWidgetsAndStoreCache showingThreadAWithEdits))
    "O" "t1"
  = keptEdits widgetWithEdits
  /\ forall w,
      In w (_commentWidgets (setComments showingThreadAWithEdits [infoWithThreadA])) ->
      widgetKey w = ("O", "t1") ->
      zone_pendingEdits w = keptEdits widgetWithEdits
      /\ (is_Some (keptEdits widgetWithEdits) -> zone_expanded w = true).
Proof.
  apply (edits_kept_across_redisplay showingThreadAWithEdits [infoWithThreadA]
           widgetWithEdits).
  - eexists. reflexivity.
  - reflexivity.
  - reflexivity.
  - simpl. constructor; [intros [] | constructor].
  - left. reflexivity.
Defined.

End DraftsAndEdits.

Section ContinueOn.




End ContinueOn.

Section Redisplay.

Lemma decoratorUpdate_infos self infos :
  _commentInfos (decoratorUpdate self infos) = _commentInfos self.
Proof.
  unfold decoratorUpdate.
  destruct (CommentingRangeDecorator.update _ _ _ _ _) as [[d e] fired].
  unfold onDidChangeDecorationsCount.
  destruct fired as [[| n] |]; simpl; try destruct (Nat.eqb _ 0); reflexivity.
Qed.

Lemma displayCommentThread_widgets (Q : ReviewZoneWidget -> Prop)
    self o thread pendingComment pendingEdits :
  Forall Q (_commentWidgets self) ->
  Q (createReviewZoneWidget o thread pendingComment pendingEdits) ->
  Forall Q (_commentWidgets (displayCommentThread self o thread pendingComment pendingEdits)).
Proof.
  intros Hws Hw. unfold displayCommentThread.
  destruct (editor self ≫= getModel); [| exact Hws].
  destruct (isEditorInlineOriginal (services self)); [exact Hws |].
  match goal with
  | |- context [openCommentsView ?s ?t] => destruct (openCommentsView_frame s t) as [_ ->]
  end.
  cbn [set_commentWidgets _commentWidgets]. apply Forall_app. split; [exact Hws |].
  constructor; [exact Hw | constructor].
Qed.

Lemma setCommentsThreads_live o ts : forall self shown,
  Forall (fun w => isDisposed (zone_commentThread w) = false) (_commentWidgets self) ->
  Forall (fun thread => isDisposed thread = false) shown ->
  Forall (fun thread => isDisposed thread = false) ts ->
  Forall (fun w => isDisposed (zone_commentThread w) = false)
         (_commentWidgets (fold_left (setCommentsThread o) ts (self, shown)).1)
  /\ Forall (fun thread => isDisposed thread = false)
            (fold_left (setCommentsThread o) ts (self, shown)).2.
Proof.
  induction ts as [| thread ts IH]; intros self shown Hws Hshown Hts; cbn [fold_left].
  - split; assumption.
  - apply Forall_cons in Hts as [Hthread Hts].
    unfold setCommentsThread at 2. cbv zeta.
    assert (Hlive : forall b : bool,
               isDisposed (if b then thread_expand thread else thread) = false).
    { intros []; exact Hthread. }
    apply IH; [| | exact Hts].
    + apply displayCommentThread_widgets; [exact Hws |].
      cbn [createReviewZoneWidget zone_commentThread]. apply Hlive.
    + apply Forall_app. split; [exact Hshown |]. constructor; [apply Hlive | constructor].
Qed.

Lemma setCommentsInfos_live infos : forall self done,
  Forall (fun w => isDisposed (zone_commentThread w) = false) (_commentWidgets self) ->
  Forall (fun info => Forall (fun thread => isDisposed thread = false) (threads info)) done ->
  Forall (fun w => isDisposed (zone_commentThread w) = false)
         (_commentWidgets (fold_left setCommentsInfo infos (self, done)).1)
  /\ Forall (fun info => Forall (fun thread => isDisposed thread = false) (threads info))
            (fold_left setCommentsInfo infos (self, done)).2
  /\ List.map owner (fold_left setCommentsInfo infos (self, done)).2
     = List.map owner done ++ List.map owner infos.
Proof.
  induction infos as [| info infos IH]; intros self done Hws Hdone; cbn [fold_left].
  - rewrite app_nil_r. repeat split; assumption.
  - unfold setCommentsInfo at 2 4 6.
    destruct (setCommentsThreads_live (owner info)
                (List.filter (fun thread => negb (isDisposed thread)) (threads info))
                self [] Hws) as [Hws' Hshown]; [constructor | |].
    { apply List.Forall_forall. intros thread Hin. apply filter_In in Hin as [_ Hlive].
      apply negb_true_iff in Hlive. exact Hlive. }
    destruct (fold_left (setCommentsThread (owner info)) _ (self, [])) as [self1 shown].
    cbn [fst snd] in Hws', Hshown.
    match goal with
    | |- context [fold_left setCommentsInfo infos (?s, ?d)] =>
        destruct (IH s d) as (H1 & H2 & H3)
    end.
    + exact Hws'.
    + apply Forall_app. split; [exact Hdone |]. constructor; [exact Hshown | constructor].
    + split; [exact H1 |]. split; [exact H2 |].
      rewrite H3, map_app. cbn [List.map info_set_threads owner].
      rewrite <- app_assoc. reflexivity.
Qed.

(** X17: [setComments] never shows a disposed thread.  With an editor and
    commenting enabled, the comment infos it stores are those it was given,
    owner by owner, with the disposed threads removed from their thread
    lists, and no widget it leaves shows a disposed thread. *)
Theorem setComments_drops_disposed_threads self commentInfos :
  is_Some (editor self) ->
  isCommentingEnabled (services self) = true ->
  List.map owner (_commentInfos (setComments self commentInfos)) = List.map owner commentInfos
  /\ Forall (fun info => Forall (fun thread => isDisposed thread = false) (threads info))
            (_commentInfos (setComments self commentInfos))
  /\ Forall (fun widget => isDisposed (zone_commentThread widget) = false)
            (_commentWidgets (setComments self commentInfos)).
Proof.
  intros [ed Hed] Hen. unfold setComments. rewrite Hed, Hen. cbn [negb]. cbv zeta.
  set (torn := removeCommentWidgetsAndStoreCache
                 (tryUpdateReservedSpace (set_commentInfos self commentInfos))).
  assert (Hinfos : _commentInfos torn = commentInfos).
  { unfold torn, removeCommentWidgetsAndStoreCache. simpl.
    destruct (storeZones_frame
                (_commentWidgets (tryUpdateReservedSpace (set_commentInfos self commentInfos)))
                (tryUpdateReservedSpace (set_commentInfos self commentInfos)))
      as (_ & _ & Hi).
    destruct (tryUpdateReservedSpace_frame (set_commentInfos self commentInfos))
      as (_ & _ & _ & Hi' & _).
    rewrite Hi, Hi'. reflexivity. }
  rewrite Hinfos.
  destruct (setCommentsInfos_live commentInfos torn []) as (Hws & Hlive & Howners).
  { destruct (removeCommentWidgetsAndStoreCache_frame
                (tryUpdateReservedSpace (set_commentInfos self commentInfos)))
      as (_ & _ & Hnil).
    fold torn in Hnil. rewrite Hnil. constructor. }
  { constructor. }
  destruct (fold_left setCommentsInfo commentInfos (torn, [])) as [self1 infos1].
  cbn [fst snd] in Hws, Hlive, Howners.
  match goal with
  | |- context [decoratorUpdate ?s ?i] =>
      destruct (decoratorUpdate_frame s i) as (Hw' & _ & _);
      pose proof (decoratorUpdate_infos s i) as Hi'
  end.
  unfold perform. cbn [_commentWidgets CommentController._commentInfos].
  rewrite Hw', Hi'. unfold set_commentInfos.
  cbn [_commentWidgets CommentController._commentInfos].
  repeat split; assumption.
Qed.

(** X17 at work: a disposed copy of thread "t1" is sent along with the live
    one. *)
Lemma setComments_drops_disposed_threads_witness :
  List.map owner
    (_commentInfos (setComments sampleController
                      [info_set_threads infoWithThreadA [disposedThreadA; threadA]]))
  = ["O"]
  /\ Forall (fun info => Forall (fun thread => isDisposed thread = false) (threads info))
            (_commentInfos (setComments sampleController
                              [info_set_threads infoWithThreadA [disposedThreadA; threadA]]))
  /\ Forall (fun widget => isDisposed (zone_commentThread widget) = false)
            (_commentWidgets (setComments sampleController
                                [info_set_threads infoWithThreadA [disposedThreadA; threadA]])).
Proof.
  apply (setComments_drops_disposed_threads sampleController
           [info_set_threads infoWithThreadA [disposedThreadA; threadA]]).
  - eexists. reflexivity.
  - reflexivity.
Defined.

End Redisplay.

(** * Thread updates that change little *)

Section ThreadEvents.

Lemma find_is_Some {A} (p : A -> bool) l x :
  In x l -> p x = true -> is_Some (List.find p l).
Proof.
  intros Hin Hp. destruct (List.find p l) eqn:Hfind; [eauto |].
  rewrite (find_none _ _ Hfind _ Hin) in Hp. discriminate.
Qed.

(** X18: adding a thread is idempotent.  In an editor that can show
    threads, sending the same added thread a second time changes nothing: the
    first call leaves a widget for its (owner, thread id), whether it found
    one, confirmed a local draft widget or created one, and the second call
    stops at that widget. *)
Theorem addedThread_idempotent O uri self T :
  displayable self ->
  addedThread O uri (addedThread O uri self T) T = addedThread O uri self T.
Proof.
  intros Hd.
  assert (Hfound : is_Some (List.find (matchesThread O T)
                              (_commentWidgets (addedThread O uri self T)))).
  { destruct (List.find (matchesThread O T) (_commentWidgets self)) as [w |] eqn:Hfind.
    - unfold addedThread. rewrite Hfind, Hfind. eauto.
    - assert (Hnone : Forall (fun w => showsThread O (threadId T) w = false)
                             (_commentWidgets self)).
      { apply List.Forall_forall. intros w Hin. exact (find_none _ _ Hfind _ Hin). }
      destruct (addedThread_widgets O uri self T Hd Hnone) as (w & Hfilter & _).
      assert (Hin : In w (List.filter (showsThread O (threadId T))
                            (_commentWidgets (addedThread O uri self T))))
        by (rewrite Hfilter; left; reflexivity).
      apply filter_In in Hin as [Hin Hshows].
      exact (find_is_Some _ _ _ Hin Hshows). }
  destruct Hfound as [w Hw].
  unfold addedThread at 1. rewrite Hw. reflexivity.
Qed.

(** X18 at work: thread "t2" is added twice to a controller that shows
    thread "t1". *)
Lemma addedThread_idempotent_witness :
  addedThread "O" "file:///a.ts"
    (addedThread "O" "file:///a.ts" (showingThreadA None) threadB) threadB
  = addedThread "O" "file:///a.ts" (showingThreadA None) threadB.
Proof.
  apply (addedThread_idempotent "O" "file:///a.ts" (showingThreadA None) threadB).
  split; [eexists; reflexivity | reflexivity].
Defined.

Lemma openCommentsView_infos self thread :
  _commentInfos (openCommentsView self thread) = _commentInfos self.
Proof.
  unfold openCommentsView.
  destruct (comments thread) as [[| c cs] |]; auto.
  destruct (openView (services self)); auto;
    try destruct (thread_state thread) as [[] |];
    try destruct (commentsViewHasRendered (services self)); auto.
Qed.

Lemma map_updateFirst {A B} (g : A -> B) (p : A -> bool) (f : A -> A) l :
  (forall x, p x = true -> g (f x) = g x) ->
  List.map g (updateFirst p f l) = List.map g l.
Proof.
  intros Hg. induction l as [| x l IH]; [reflexivity |].
  cbn [updateFirst]. destruct (p x) eqn:Hp; cbn [List.map].
  - rewrite Hg by exact Hp. reflexivity.
  - rewrite IH. reflexivity.
Qed.

Lemma changedThread_keeps O self C :
  keepsWidgetKeys self (changedThread O self C)
  /\ _commentInfos (changedThread O self C) = _commentInfos self
  /\ keepsDrafts self (changedThread O self C).
Proof.
  unfold changedThread, keepsWidgetKeys.
  destruct (List.find _ _) as [zone |];
    [| repeat split; reflexivity].
  match goal with
  | |- context [openCommentsView ?s ?c] =>
      destruct (openCommentsView_frame s c) as [Hk Hw];
      pose proof (openCommentsView_infos s c) as Hi
  end.
  rewrite Hw, Hi. split; [| split; [reflexivity | exact Hk]].
  cbn [set_commentWidgets _commentWidgets]. apply map_updateFirst.
  intros w Hmatch. unfold matchesThread in Hmatch.
  apply andb_prop in Hmatch as [_ Ht]. apply bool_decide_eq_true in Ht.
  unfold widgetKey. cbn [zone_update zone_owner zone_commentThread]. rewrite Ht. reflexivity.
Qed.

(** X19: the changed phase of a thread update neither adds nor removes a
    widget.  After any list of changed threads the widgets are filed under
    the same (owner, thread id) keys in the same order; the comment infos,
    the editor, the services and both draft caches are as before.  A changed
    thread without a widget creates none. *)
Theorem changed_threads_keep_the_widgets O cs : forall self,
  List.map widgetKey (_commentWidgets (fold_left (changedThread O) cs self))
  = List.map widgetKey (_commentWidgets self)
  /\ _commentInfos (fold_left (changedThread O) cs self) = _commentInfos self
  /\ keepsDrafts self (fold_left (changedThread O) cs self).
Proof.
  induction cs as [| C cs IH]; intros self; cbn [fold_left].
  - repeat split; reflexivity.
  - destruct (IH (changedThread O self C)) as (Hw & Hi & He & Hs & Hn & Hp).
    destruct (changedThread_keeps O self C) as (Hw' & Hi' & He' & Hs' & Hn' & Hp').
    unfold keepsWidgetKeys in Hw'.
    rewrite Hw, Hi, Hw', Hi'. split; [reflexivity |]. split; [reflexivity |].
    unfold keepsDrafts. rewrite He, Hs, Hn, Hp. auto.
Qed.

(** X20: a thread update the editor is not concerned with is ignored
    altogether.  Without a document uri, with commenting disabled, or when no
    comment info of the editor belongs to the owner of the batch, the handler
    leaves the controller as it found it. *)
Theorem onDidUpdateCommentThreads_ignored self e :
  editorURI self = None
  \/ isCommentingEnabled (services self) = false
  \/ (forall info, In info (_commentInfos self) -> owner info <> ev_owner e) ->
  onDidUpdateCommentThreads self e = self.
Proof.
  unfold onDidUpdateCommentThreads. intros [Huri | [Hen | Hown]].
  - rewrite Huri. reflexivity.
  - rewrite Hen. destruct (editorURI self); reflexivity.
  - destruct (editorURI self); [| reflexivity].
    destruct (negb _); [reflexivity |].
    destruct (List.filter _ _) as [| info rest] eqn:Hfilter; [reflexivity |].
    assert (Hin : In info (List.filter (isOwnerInfo (ev_owner e)) (_commentInfos self)))
      by (rewrite Hfilter; left; reflexivity).
    apply filter_In in Hin as [Hin Howner].
    apply bool_decide_eq_true in Howner. destruct (Hown _ Hin Howner).
Qed.

(** X20 at work: the editor has comment info of owner [O] only, and the
    batch is of owner [P]. *)
Lemma onDidUpdateCommentThreads_ignored_witness :
  onDidUpdateCommentThreads (showingThreadA None) batchOfUnknownOwner = showingThreadA None.
Proof.
  apply (onDidUpdateCommentThreads_ignored (showingThreadA None) batchOfUnknownOwner).
  right. right. intros info [<- | []]. discriminate.
Defined.

Lemma filter_none {A} (p : A -> bool) l :
  (forall x, In x l -> p x = false) -> List.filter p l = [].
Proof.
  intros H. induction l as [| x l IH]; [reflexivity |]. cbn [List.filter].
  rewrite (H x (or_introl eq_refl)). apply IH. intros y Hy. apply H. right. exact Hy.
Qed.

(** X21: threads of other documents do not reach this editor.  When none of
    the added, removed and changed threads of a batch lies on the editor's
    document, the handler leaves the widgets, the comment infos, the services
    and both draft caches as they are. *)
Theorem onDidUpdateCommentThreads_other_documents self e uri :
  editorURI self = Some uri ->
  (forall thread,
      In thread (added e ++ removed e ++ changed e) -> resource thread <> Some uri) ->
  _commentWidgets (onDidUpdateCommentThreads self e) = _commentWidgets self
  /\ _commentInfos (onDidUpdateCommentThreads self e) = _commentInfos self
  /\ keepsDrafts self (onDidUpdateCommentThreads self e).
Proof.
  intros Huri Hother. unfold onDidUpdateCommentThreads, keepsDrafts. rewrite Huri.
  destruct (negb _); [repeat split; reflexivity |].
  destruct (List.filter (isOwnerInfo _) _) as [| info0 infos0]; [repeat split; reflexivity |].
  assert (Hnone : forall l,
             (forall thread, In thread l -> In thread (added e ++ removed e ++ changed e)) ->
             List.filter (onResource uri) l = []).
  { intros l Hl. apply filter_none. intros thread Hin. unfold onResource.
    apply andb_false_iff. right. apply bool_decide_eq_false. apply Hother, Hl, Hin. }
  rewrite (Hnone (added e)), (Hnone (removed e)), (Hnone (changed e));
    [| intros thread Hin; rewrite !in_app_iff; auto ..].
  cbn [fold_left]. repeat split; reflexivity.
Qed.

(** X21 at work: the editor shows "file:///a.ts" and the batch brings a
    thread of "file:///b.ts". *)
Lemma onDidUpdateCommentThreads_other_documents_witness :
  _commentWidgets (onDidUpdateCommentThreads (showingThreadA None) batchElsewhere)
  = _commentWidgets (showingThreadA None)
  /\ _commentInfos (onDidUpdateCommentThreads (showingThreadA None) batchElsewhere)
     = _commentInfos (showingThreadA None)
  /\ keepsDrafts (showingThreadA None)
                 (onDidUpdateCommentThreads (showingThreadA None) batchElsewhere).
Proof.
  apply (onDidUpdateCommentThreads_other_documents (showingThreadA None) batchElsewhere
           "file:///a.ts").
  - reflexivity.
  - simpl. intros thread [<- | [<- | []]]; discriminate.
Defined.

End ThreadEvents.

(** * The queue of add requests *)

Section AddQueue.








(** X23: a request for a line that already shows thread widgets toggles
    them and asks the provider for nothing.  With no add in progress and an
    empty queue, the call records no call on a collaborator; every widget
    whose glyph is on the last line of the range is expanded if not all of
    them were, collapsed if all were; the other widgets are untouched, and
    the add-in-progress flag is clear again. *)
Theorem addOrToggleCommentAtLine_toggles self commentRange e w ws :
  _addInProgress self = false ->
  _emptyThreadsToAddQueue self = [] ->
  List.filter (fun widget =>
                 zone_glyphPosition widget =? from_option endLineNumber 0 commentRange)
              (_commentWidgets self) = w :: ws ->
  effects (addOrToggleCommentAtLine self commentRange e) = effects self
  /\ _addInProgress (addOrToggleCommentAtLine self commentRange e) = false
  /\ _emptyThreadsToAddQueue (addOrToggleCommentAtLine self commentRange e) = []
  /\ _commentWidgets (addOrToggleCommentAtLine self commentRange e)
     = List.map (fun widget =>
                   if zone_glyphPosition widget =? from_option endLineNumber 0 commentRange
                   then zone_set_expanded (negb (forallb zone_expanded (w :: ws))) widget
                   else widget)
                (_commentWidgets self).
Proof.
  intros Hflag Hq Hexisting.
  unfold addOrToggleCommentAtLine, addOrToggleCommentAtLine_then.
  rewrite Hflag. cbn [negb]. cbv zeta.
  cbn [set_addInProgress _commentWidgets]. rewrite Hexisting.
  unfold processNextThreadToAdd.
  cbn [set_commentWidgets set_addInProgress _emptyThreadsToAddQueue]. rewrite Hq.
  repeat split.
Qed.

(** X23 at work: the collapsed widget of thread "t1" sits on line 3, and
    line 3 is clicked. *)
Lemma addOrToggleCommentAtLine_toggles_witness :
  effects (addOrToggleCommentAtLine (showingThreadA None) (Some (mkIRange 3 1 3 1)) None)
  = effects (showingThreadA None)
  /\ _addInProgress
       (addOrToggleCommentAtLine (showingThreadA None) (Some (mkIRange 3 1 3 1)) None)
     = false
  /\ _emptyThreadsToAddQueue
       (addOrToggleCommentAtLine (showingThreadA None) (Some (mkIRange 3 1 3 1)) None)
     = []
  /\ _commentWidgets
       (addOrToggleCommentAtLine (showingThreadA None) (Some (mkIRange 3 1 3 1)) None)
     = List.map (fun widget =>
                   if zone_glyphPosition widget
                      =? from_option endLineNumber 0 (Some (mkIRange 3 1 3 1))
                   then zone_set_expanded (negb (forallb zone_expanded [widgetOfThreadA]))
                                          widget
                   else widget)
                (_commentWidgets (showingThreadA None)).
Proof.
  apply (addOrToggleCommentAtLine_toggles (showingThreadA None) (Some (mkIRange 3 1 3 1))
           None widgetOfThreadA []); reflexivity.
Defined.



End AddQueue.

(** * Navigation, the cursor and the mouse *)

Section Navigation.

Import CommentingRangeDecorator.

Lemma getNearestCommentingRange_claim self editor pos (reverse : bool) r :
  getNearestCommentingRange self editor pos reverse = Ok (Some r) ->
  exists d, In d (commentingRangeDecorations self)
            /\ CommentingRangeDecoration.getActiveRange editor d = Ok (Some r).
Proof.
  unfold getNearestCommentingRange.
  set (decorations := if reverse then rev (commentingRangeDecorations self)
                      else commentingRangeDecorations self).
  assert (Hin : forall d, In d decorations -> In d (commentingRangeDecorations self)).
  { intros d Hd. unfold decorations in Hd. destruct reverse; [apply in_rev in Hd |]; exact Hd. }
  destruct (nearestLoop editor pos reverse None decorations) as [[found |] | e] eqn:Hloop;
    cbn [bindR]; [| | discriminate].
  - intros [= ->]. apply nearestLoop_returns in Hloop as (d & Hd & Hr & _).
    exists d. auto.
  - destruct (decorations !! 0%nat) as [first |] eqn:Hfirst; [| discriminate].
    intros Hr. exists first. split; [| exact Hr].
    apply Hin, list_elem_of_In. exact (list_elem_of_lookup_2 _ _ _ Hfirst).
Qed.

(** X25: the commands "next commenting range" and "previous commenting
    range" do not guard the empty claim list.  On an editor with a model,
    [_findNearestCommentingRange] raises the out-of-bounds error exactly when
    the decorator holds no decoration.  When it moves the cursor, the cursor
    lands on the start position of the current range of one of the
    decorator's claims, on its end position when going backwards. *)
Theorem _findNearestCommentingRange_needs_claims self after (reverse : bool) ed :
  editor self = Some ed ->
  hasModel ed = true ->
  (_findNearestCommentingRange self after reverse = Throw TypeErrorUndefinedElement
   <-> commentingRangeDecorations (_commentingRangeDecorator self) = [])
  /\ forall p,
      _findNearestCommentingRange self after reverse = Ok (Some p) ->
      exists d r,
        In d (commentingRangeDecorations (_commentingRangeDecorator self))
        /\ CommentingRangeDecoration.getActiveRange ed d = Ok (Some r)
        /\ p = (if reverse then mkPosition (endLineNumber r) (endColumn r)
                else mkPosition (startLineNumber r) (startColumn r)).
Proof.
  intros Hed Hhas. unfold _findNearestCommentingRange. rewrite Hed, Hhas.
  assert (Hmodel : exists model, getModel ed = Some model).
  { unfold hasModel in Hhas. apply bool_decide_eq_true in Hhas as [m Hm]. exists m. exact Hm. }
  destruct Hmodel as [model Hmodel].
  split.
  - unfold getNearestCommentingRange.
    destruct (nearestLoop_total ed model after reverse
                (if reverse then rev (commentingRangeDecorations (_commentingRangeDecorator self))
                 else commentingRangeDecorations (_commentingRangeDecorator self))
                None Hmodel) as [found Hfound].
    rewrite Hfound. cbn [bindR].
    destruct found as [range |]; [split; [discriminate |] |].
    + intros Hnil. rewrite Hnil in Hfound. destruct reverse; discriminate.
    + destruct (_ !! 0%nat) as [first |] eqn:Hfirst.
      * rewrite (getActiveRange_model ed model first Hmodel). cbn [bindR].
        split; [destruct (activeRangeOf ed first); discriminate |].
        intros Hnil. rewrite Hnil in Hfirst. destruct reverse; discriminate.
      * cbn [bindR]. split; [intros _ | reflexivity].
        assert (Hnil : (if reverse
                        then rev (commentingRangeDecorations (_commentingRangeDecorator self))
                        else commentingRangeDecorations (_commentingRangeDecorator self))
                       = []).
        { destruct (if reverse then _ else _); [reflexivity | discriminate]. }
        destruct reverse; [| exact Hnil].
        rewrite <- (rev_involutive (commentingRangeDecorations _)), Hnil. reflexivity.
  - intros p.
    destruct (getNearestCommentingRange (_commentingRangeDecorator self) ed after reverse)
      as [[r |] | err] eqn:Hnearest; cbn [bindR]; try discriminate.
    intros [= <-].
    apply getNearestCommentingRange_claim in Hnearest as (d & Hin & Hd).
    exists d, r. auto.
Qed.

(** X25 at work: a controller with the decoration 5..10 and a controller
    without decorations, both on an editor with a model; the cursor is on
    line 1. *)
Lemma _findNearestCommentingRange_needs_claims_witness :
  (nextCommentingRange controllerWithRanges (mkPosition 1 1)
   = Throw TypeErrorUndefinedElement
   <-> CommentingRangeDecorator.commentingRangeDecorations
         (_commentingRangeDecorator controllerWithRanges) = [])
  /\ nextCommentingRange sampleController (mkPosition 1 1) = Throw TypeErrorUndefinedElement.
Proof.
  split.
  - apply (_findNearestCommentingRange_needs_claims controllerWithRanges (mkPosition 1 1)
             false (default plainEditor (editor controllerWithRanges))); reflexivity.
  - apply (_findNearestCommentingRange_needs_claims sampleController (mkPosition 1 1)
             false plainEditor); reflexivity.
Defined.

End Navigation.

Section Cursor.

Lemma hasCommentingRangeLoop_true decorations : forall b,
  hasCommentingRangeLoop decorations b = true
  <-> Forall (fun d => md_description d <> CommentGlyphWidget_description) decorations
      /\ (b = true
          \/ exists d, In d decorations
                       /\ md_description d = CommentingRangeDecorator_description).
Proof.
  induction decorations as [| d ds IH]; intros b; cbn [hasCommentingRangeLoop].
  - split; [intros ->; split; [constructor | left; reflexivity] |].
    intros [_ [-> | (d & [] & _)]]. reflexivity.
  - destruct (bool_decide (md_description d = CommentGlyphWidget_description)) eqn:Hglyph.
    + apply bool_decide_eq_true in Hglyph. split; [discriminate |].
      intros [Hall _]. apply Forall_cons in Hall as [Hd _]. contradiction.
    + apply bool_decide_eq_false in Hglyph.
      destruct (bool_decide (md_description d = CommentingRangeDecorator_description))
        eqn:Hrange.
      * apply bool_decide_eq_true in Hrange. rewrite IH. split.
        -- intros [Hall _]. split; [constructor; assumption |].
           right. exists d. split; [left; reflexivity | exact Hrange].
        -- intros [Hall _]. apply Forall_cons in Hall as [_ Hall].
           split; [exact Hall | left; reflexivity].
      * apply bool_decide_eq_false in Hrange. rewrite IH. split.
        -- intros [Hall [Hb | (d' & Hin & Hd')]];
             (split; [constructor; assumption |]); [left; exact Hb |].
           right. exists d'. split; [right; exact Hin | exact Hd'].
        -- intros [Hall Hsome]. apply Forall_cons in Hall as [_ Hall].
           split; [exact Hall |].
           destruct Hsome as [Hb | (d' & [<- | Hin] & Hd')];
             [left; exact Hb | contradiction | right; exists d'; auto].
Qed.

(** X26: the context key [activeCursorHasCommentingRange] is set exactly
    when the cursor is on a line that carries a commenting-range decoration
    and no comment-thread glyph, in whatever order the editor lists the
    decorations of the line; it is cleared when there is no cursor position
    or no editor. *)
Theorem onEditorChangeCursorPosition_true self e :
  onEditorChangeCursorPosition self e = true
  <-> exists pos ed,
        e = Some pos /\ editor self = Some ed
        /\ lineHostsCommentingRange ed (lineNumber pos)
        /\ ~ lineHostsThreadGlyph ed (lineNumber pos).
Proof.
  unfold onEditorChangeCursorPosition.
  destruct e as [pos |]; [| split; [discriminate | intros (? & ? & [=] & _)]].
  destruct (editor self) as [ed |]; [| split; [discriminate | intros (? & ? & _ & [=] & _)]].
  unfold getDecorationsInRange, lineHostsCommentingRange, lineHostsThreadGlyph.
  destruct (getModel ed) as [model |] eqn:Hmodel; cbn [fmap option_fmap option_map].
  2:{ split; [discriminate |].
      intros (? & ed' & _ & [= <-] & (? & ? & Hm & _) & _). congruence. }
  rewrite hasCommentingRangeLoop_true.
  assert (Hon : forall d,
             linesIntersect (md_range d)
               (Range.new (lineNumber pos) (column pos) (lineNumber pos) (-1)) = true
             <-> inLines (md_range d) (lineNumber pos)).
  { intros d. unfold linesIntersect, inLines.
    rewrite Range_new_startLineNumber, Range_new_endLineNumber.
    rewrite Z.min_id, Z.max_id, andb_true_iff, !Z.leb_le. tauto. }
  split.
  - intros [Hall [[=] | (d & Hin & Hd)]].
    exists pos, ed. split; [reflexivity |]. split; [reflexivity |].
    apply filter_In in Hin as [Hin Hline]. split.
    + exists model, d. rewrite <- Hon. auto.
    + intros (model' & g & Hm & Hg & Hglyph & Hgline).
      rewrite Hmodel in Hm. injection Hm as <-.
      rewrite List.Forall_forall in Hall. apply (Hall g); [| exact Hglyph].
      apply filter_In. rewrite Hon. auto.
  - intros (pos' & ed' & [= <-] & [= <-] & (model' & d & Hm & Hin & Hd & Hline) & Hnone).
    rewrite Hmodel in Hm. injection Hm as <-.
    split.
    + apply List.Forall_forall. intros g Hg Hglyph.
      apply filter_In in Hg as [Hg Hgline]. apply Hnone.
      exists model, g. rewrite <- Hon. auto.
    + right. exists d. split; [| exact Hd]. apply filter_In. rewrite Hon. auto.
Qed.

End Cursor.

Section MouseUp.

(** X27: what a mouse button released in the gutter comments on.  Whenever
    [onEditorMouseUp] goes on to add or toggle a comment, the range it passes
    contains the line the button was released on.  After a drag from another
    line the range runs from column 1 of the upper of the two lines to the
    end of the lower one, and the editor's selection is collapsed to the
    start of that lower line; a release on the line the button went down on
    adds only on a commenting-range glyph. *)
Theorem mouseUpOutcome_adds_at_the_line self e range sel :
  mouseUpOutcome self e = MouseUpAdd range sel ->
  exists matched lineNumber className,
    matchedLineNumber e = Some matched
    /\ target_lineNumber e = Some lineNumber
    /\ target_className e = Some className
    /\ startLineNumber range <= lineNumber <= endLineNumber range
    /\ (matched <> lineNumber ->
        range = mkIRange (Z.min matched lineNumber) 1 (Z.max matched lineNumber)
                         (getLineLength e (Z.max matched lineNumber) + 1)
        /\ sel = Some (mkIRange (Z.max matched lineNumber) 1 (Z.max matched lineNumber) 1))
    /\ (matched = lineNumber ->
        is_Some (String.index 0 "comment-range-glyph" className)).
Proof.
  unfold mouseUpOutcome.
  destruct (editor self) as [ed |]; [| discriminate].
  destruct (matchedLineNumber e) as [matched |]; [| discriminate].
  destruct (target_className e) as [className |]; [| discriminate].
  destruct (target_lineNumber e) as [lineNumber |]; [| discriminate].
  cbv zeta. intros Hout.
  exists matched, lineNumber, className.
  split; [reflexivity |]. split; [reflexivity |]. split; [reflexivity |].
  destruct (matched =? lineNumber) eqn:Hsame; cbn [negb] in Hout.
  - apply Z.eqb_eq in Hsame. subst matched.
    destruct (bool_decide (is_Some (String.index 0 "comment-range-glyph" className)))
      eqn:Hglyph.
    2:{ discriminate. }
    apply bool_decide_eq_true in Hglyph.
    assert (Hline : startLineNumber range <= lineNumber <= endLineNumber range).
    { destruct (getSelection e) as [selection |].
      - destruct ((startLineNumber selection <=? lineNumber)
                  && (lineNumber <=? endLineNumber selection)) eqn:Hin.
        + injection Hout as <- _. apply andb_true_iff in Hin as [H1 H2].
          apply Z.leb_le in H1, H2. lia.
        + injection Hout as <- _.
          rewrite Range_new_startLineNumber, Range_new_endLineNumber. lia.
      - injection Hout as <- _.
        rewrite Range_new_startLineNumber, Range_new_endLineNumber. lia. }
    split; [exact Hline |]. split; [intros Hne; contradiction | intros _; exact Hglyph].
  - apply Z.eqb_neq in Hsame.
    destruct (getModel ed); [| discriminate].
    assert (Hrange : (if matched >? lineNumber
                      then Range.new matched (getLineLength e matched + 1) lineNumber 1
                      else Range.new matched 1 lineNumber (getLineLength e lineNumber + 1))
                     = mkIRange (Z.min matched lineNumber) 1 (Z.max matched lineNumber)
                                (getLineLength e (Z.max matched lineNumber) + 1)).
    { unfold Range.new. destruct (matched >? lineNumber) eqn:Hgt.
      - cbn [orb]. rewrite Z.gtb_ltb in Hgt. apply Z.ltb_lt in Hgt.
        rewrite Z.min_r, Z.max_l by lia. reflexivity.
      - rewrite Z.gtb_ltb in Hgt. apply Z.ltb_ge in Hgt.
        assert (Heq : (matched =? lineNumber) = false) by (apply Z.eqb_neq; exact Hsame).
        rewrite Heq. cbn [orb andb].
        rewrite Z.min_l, Z.max_r by lia. reflexivity. }
    destruct (matched >? lineNumber) eqn:Hgt; rewrite Hrange in Hout;
      cbn [startLineNumber endLineNumber] in Hout;
      (destruct ((Z.min matched lineNumber <=? lineNumber)
                 && (lineNumber <=? Z.max matched lineNumber)) eqn:Hin;
       [| apply andb_false_iff in Hin as [Hin | Hin]; apply Z.leb_gt in Hin; lia]);
      injection Hout as <- <-; cbn [startLineNumber endLineNumber];
      (split; [lia |]); (split; [| intros; contradiction]); intros _;
      (split; [reflexivity |]); unfold Range.new;
      rewrite Z.gtb_ltb, Z.ltb_irrefl, Z.eqb_refl; reflexivity.
Qed.

(** X27 at work: the button goes down on line 3 and up on line 5, lines
    being 10 characters long; the lines 3..5 are commented on. *)
Lemma mouseUpOutcome_adds_at_the_line_witness :
  mouseUpOutcome sampleController dragFrom3To5
  = MouseUpAdd (mkIRange 3 1 5 11) (Some (mkIRange 5 1 5 1))
  /\ exists matched lineNumber className,
      matchedLineNumber dragFrom3To5 = Some matched
      /\ target_lineNumber dragFrom3To5 = Some lineNumber
      /\ target_className dragFrom3To5 = Some className
      /\ startLineNumber (mkIRange 3 1 5 11) <= lineNumber <= endLineNumber (mkIRange 3 1 5 11)
      /\ (matched <> lineNumber ->
          mkIRange 3 1 5 11
          = mkIRange (Z.min matched lineNumber) 1 (Z.max matched lineNumber)
                     (getLineLength dragFrom3To5 (Z.max matched lineNumber) + 1)
          /\ Some (mkIRange 5 1 5 1)
             = Some (mkIRange (Z.max matched lineNumber) 1 (Z.max matched lineNumber) 1))
      /\ (matched = lineNumber ->
          is_Some (String.index 0 "comment-range-glyph" className)).
Proof.
  split; [reflexivity |].
  apply (mouseUpOutcome_adds_at_the_line sampleController dragFrom3To5
           (mkIRange 3 1 5 11) (Some (mkIRange 5 1 5 1))).
  reflexivity.
Defined.

End MouseUp.

Section CollapseExpand.

(** X28: collapsing and expanding the widgets.  [collapseAll] undoes
    [expandAll] and the other way round, [expandAll] absorbs
    [expandUnresolved], and [expandUnresolved] is idempotent and keeps the
    widgets in place; after [collapseAll] followed by [expandUnresolved] the
    expanded widgets are exactly those of the unresolved threads. *)
Theorem collapse_expand_laws self :
  collapseAll (expandAll self) = collapseAll self
  /\ expandAll (collapseAll self) = expandAll self
  /\ expandAll (expandUnresolved self) = expandAll self
  /\ expandUnresolved (expandUnresolved self) = expandUnresolved self
  /\ List.map widgetKey (_commentWidgets (expandUnresolved self))
     = List.map widgetKey (_commentWidgets self)
  /\ Forall (fun widget =>
               zone_expanded widget = true
               <-> thread_state (zone_commentThread widget) = Some Unresolved)
            (_commentWidgets (expandUnresolved (collapseAll self))).
Proof.
  destruct self as [ed ws infos dec reserved adding queue news edits disposables svc effs].
  unfold collapseAll, expandAll, expandUnresolved, set_commentWidgets.
  cbn [_commentWidgets editor CommentController._commentInfos _commentingRangeDecorator
       _commentingRangeSpaceReserved _addInProgress _emptyThreadsToAddQueue
       _pendingNewCommentCache _pendingEditsCache _editorDisposables services effects].
  rewrite !map_map.
  repeat split;
    try (first [apply map_ext | f_equal; apply map_ext]; intros w;
         try (destruct (thread_state (zone_commentThread w)) as [[] |] eqn:Hstate;
              cbn [zone_set_expanded zone_commentThread]; rewrite ?Hstate);
         reflexivity).
  apply List.Forall_forall. intros w Hin.
  apply in_map_iff in Hin as (w0 & <- & _).
  cbn [zone_set_expanded zone_commentThread].
  destruct (thread_state (zone_commentThread w0)) as [[] |] eqn:Hstate;
    cbn [zone_set_expanded zone_expanded zone_commentThread]; rewrite ?Hstate;
    split; try discriminate; reflexivity.
Qed.

End CollapseExpand.
